(** * Skyscrapers.py: the dashboard script over a model of its data frames

    The script reads a spreadsheet into a pandas DataFrame, drops the rows
    without coordinates, filters by city, sorts by the detected height column,
    aggregates, and writes tables, a highlights block, a map, a histogram and
    a pie chart to the page.

    The embedding follows the script statement by statement.

    - A DataFrame is a list of column labels and a list of rows, each row with
      its index label and one cell per column.  A cell is a blank (NaN), a
      number or a text; float64 values are rationals, so rounding is not
      modelled.
    - The pandas calls of the script ([dropna], [unique], boolean masks,
      [rename], [sort_values], [groupby(...).mean()], [idxmax], [loc], [max],
      [mean], [value_counts], [head]) are functions on that model.  The sort
      goes through [nargsort] as pandas does, over an [argsort] that is a
      parameter: numpy leaves the order of equal values open.
    - The page is the list of elements written so far.  A run ends normally,
      at [st.stop()], or at an uncaught exception, and keeps what was written
      before.  Widgets return what the user chose ([Inputs]).
    - Columns are found by label; a missing label is a KeyError.  A label of
      the header row that is not text ends the run at line 62, where
      [col.lower()] is called on every label; the tables the rest of the
      script works on ([DataFrame]) therefore have text labels.  A table
      with two columns under one label is refused by [st.write].
    - Text in the height column or in a coordinate column is outside the
      model: the statements about them ask for a float column
      ([float_column]).  The limit streamlit puts on the numbers of a slider
      (2^53 - 1) is not modelled either; the statement about the page of the
      height filter asks for a maximum below it. *)

From Stdlib Require Import List String Ascii Bool Arith ZArith QArith Lia.
From Stdlib Require Import Permutation Sorted.
Import ListNotations.

Close Scope Q_scope.
Open Scope string_scope.
Open Scope list_scope.
Open Scope nat_scope.

Set Implicit Arguments.

(** ** Python strings: [str.lower] and the [in] operator *)

Module PyStr.

(** [str.lower] on the ASCII letters; bytes of non-ASCII characters are left
    alone, so no byte of "height" is ever produced from them. *)
Definition lower_ascii (c : ascii) : ascii :=
  let n := nat_of_ascii c in
  if (65 <=? n) && (n <=? 90) then ascii_of_nat (n + 32) else c.

Fixpoint lower (s : string) : string :=
  match s with
  | EmptyString => EmptyString
  | String c s' => String (lower_ascii c) (lower s')
  end.

(** [s.startswith(sub)] *)
Fixpoint starts_with (sub s : string) : bool :=
  match sub, s with
  | EmptyString, _ => true
  | String a sub', String b s' => Ascii.eqb a b && starts_with sub' s'
  | String _ _, EmptyString => false
  end.

(** [sub in s]: [sub] starts at some position of [s]. *)
Fixpoint contains (sub s : string) : bool :=
  starts_with sub s ||
  match s with
  | EmptyString => false
  | String _ s' => contains sub s'
  end.

End PyStr.

(** ** Cells, rows and data frames *)

(** A cell read from the sheet: blank (NaN / None), a number, or text. *)
Inductive cell : Type :=
| NA
| Num (q : Q)
| Str (s : string).

Definition isna (c : cell) : bool :=
  match c with NA => true | _ => false end.

Definition notna (c : cell) : bool := negb (isna c).

(** Elementwise [==]: NaN is not equal to anything, itself included. *)
Definition cell_eq (a b : cell) : bool :=
  match a, b with
  | Num p, Num q => Qeq_bool p q
  | Str s, Str t => String.eqb s t
  | _, _ => false
  end.

(** The identity used by hash tables ([unique], [groupby], [value_counts]):
    like [cell_eq], but all blanks are one key. *)
Definition same_key (a b : cell) : bool :=
  match a, b with
  | NA, NA => true
  | _, _ => cell_eq a b
  end.

(** The float64 reading of a cell of a numeric column. *)
Definition to_float (c : cell) : option Q :=
  match c with Num q => Some q | _ => None end.

(** A row carries its index label and one cell per column. *)
Definition Row : Type := (Z * list cell)%type.

Record DataFrame : Type := mkDF {
  columns : list string;
  rows : list Row
}.

Definition label (r : Row) : Z := fst r.
Definition cells (r : Row) : list cell := snd r.

(** Position of a column label ([Index.get_loc]); [None] is a KeyError. *)
Fixpoint get_loc (c : string) (cols : list string) : option nat :=
  match cols with
  | [] => None
  | c' :: cols' =>
      if String.eqb c c' then Some 0
      else option_map S (get_loc c cols')
  end.

Definition at_loc (i : nat) (r : Row) : cell := nth i (cells r) NA.

(** [df.shape] *)
Definition shape (df : DataFrame) : nat * nat :=
  (List.length (rows df), List.length (columns df)).

(** [df.empty]: some axis has length 0. *)
Definition empty (df : DataFrame) : bool :=
  match rows df, columns df with
  | [], _ => true
  | _, [] => true
  | _, _ => false
  end.

(** [df[mask]] with the mask computed row by row. *)
Definition select (p : Row -> bool) (df : DataFrame) : DataFrame :=
  mkDF (columns df) (filter p (rows df)).

(** [df.rename(columns=mapping)]: labels absent from the mapping are kept. *)
Fixpoint rename_label (mapping : list (string * string)) (c : string) : string :=
  match mapping with
  | [] => c
  | (old, new) :: mapping' =>
      if String.eqb c old then new else rename_label mapping' c
  end.

Definition rename (mapping : list (string * string)) (df : DataFrame) : DataFrame :=
  mkDF (map (rename_label mapping) (columns df)) (rows df).

(** [df.head(n)] *)
Definition head (n : nat) (df : DataFrame) : DataFrame :=
  mkDF (columns df) (firstn n (rows df)).

(** [df.dropna(subset=[a; b])] once the two columns are located. *)
Definition dropna_at (i j : nat) (df : DataFrame) : DataFrame :=
  select (fun r => notna (at_loc i r) && notna (at_loc j r)) df.

(** ** Series: one column with the index labels *)

Definition Series : Type := list (Z * cell).

(** [df[c]] once the column is located. *)
Definition column_at (i : nat) (df : DataFrame) : Series :=
  map (fun r => (label r, at_loc i r)) (rows df).

Definition values (s : Series) : list cell := map snd s.

(** The numbers of a column, blanks skipped (what [skipna=True] leaves). *)
Fixpoint floats (l : list cell) : list Q :=
  match l with
  | [] => []
  | c :: l' =>
      match to_float c with
      | Some q => q :: floats l'
      | None => floats l'
      end
  end.

Definition Qsum (l : list Q) : Q := fold_right Qplus 0%Q l.

(** The arithmetic mean of a non-empty list of numbers. *)
Definition average (v : Q) (vs : list Q) : Q :=
  (Qsum (v :: vs) / inject_Z (Z.of_nat (List.length (v :: vs))))%Q.

(** [Series.mean()]: blanks are skipped; NaN ([None]) when nothing is left. *)
Definition mean (l : list cell) : option Q :=
  match floats l with
  | [] => None
  | v :: vs => Some (average v vs)
  end.

Definition Qltb (a b : Q) : bool := negb (Qle_bool b a).

Definition Qmaxb (a b : Q) : Q := if Qltb a b then b else a.

(** [Series.max()]: blanks are skipped; NaN when nothing is left. *)
Definition max (l : list cell) : option Q :=
  match floats l with
  | [] => None
  | v :: vs => Some (fold_left Qmaxb vs v)
  end.

(** [int(x)] on a float: truncation toward zero. *)
Definition int (q : Q) : Z := Z.quot (Qnum q) (Zpos (Qden q)).

(** [Series.idxmax()]: the label of the first occurrence of the maximum,
    blanks skipped.  [argmax_from] scans left to right and moves only to a
    strictly larger value. *)
Fixpoint argmax_from (best : Z) (v : Q) (s : Series) : Z :=
  match s with
  | [] => best
  | (i, c) :: s' =>
      match to_float c with
      | Some q => if Qltb v q then argmax_from i q s' else argmax_from best v s'
      | None => argmax_from best v s'
      end
  end.

Fixpoint idxmax (s : Series) : option Z :=
  match s with
  | [] => None
  | (i, c) :: s' =>
      match to_float c with
      | Some q => Some (argmax_from i q s')
      | None => idxmax s'
      end
  end.

(** [df.loc[label]] on a unique index: the row carrying the label. *)
Definition loc (l : Z) (df : DataFrame) : option Row :=
  find (fun r => Z.eqb (label r) l) (rows df).

(** [Series.unique()]: the distinct values in order of first appearance; the
    blank, if any, is one of them. *)
Fixpoint unique (l : list cell) : list cell :=
  match l with
  | [] => []
  | c :: l' => c :: filter (fun d => negb (same_key c d)) (unique l')
  end.

(** Order of group keys: numbers before text, each kind in its own order. *)
Definition cell_leb (a b : cell) : bool :=
  match a, b with
  | NA, _ => true
  | _, NA => false
  | Num p, Num q => Qle_bool p q
  | Num _, Str _ => true
  | Str _, Num _ => false
  | Str s, Str t => String.leb s t
  end.

Fixpoint insert_key (c : cell) (l : list cell) : list cell :=
  match l with
  | [] => [c]
  | d :: l' => if cell_leb c d then c :: l else d :: insert_key c l'
  end.

Definition sort_keys (l : list cell) : list cell :=
  fold_right insert_key [] l.

Definition of_float (m : option Q) : cell :=
  match m with Some q => Num q | None => NA end.

(** [RangeIndex]: the labels 0, 1, 2, ... given by [read_excel] and by
    [reset_index]. *)
Fixpoint range_index_from (z : Z) (l : list (list cell)) : list Row :=
  match l with
  | [] => []
  | r :: l' => (z, r) :: range_index_from (z + 1) l'
  end.

Definition range_index (l : list (list cell)) : list Row :=
  range_index_from 0 l.

(** [df.groupby(key)[val].mean().reset_index()]: one row per non-blank key,
    keys sorted, each with the mean of [val] over the rows of that key. *)
Definition group_keys (k : nat) (df : DataFrame) : list cell :=
  sort_keys (filter notna (unique (values (column_at k df)))).

Definition group_rows (k : nat) (key : cell) (df : DataFrame) : list Row :=
  filter (fun r => same_key key (at_loc k r)) (rows df).

Definition groupby_mean (kname vname : string) (k v : nat) (df : DataFrame)
  : DataFrame :=
  mkDF [kname; vname]
       (range_index
          (map (fun key =>
                  [key; of_float (mean (map (at_loc v) (group_rows k key df)))])
               (group_keys k df))).

(** ** Sorting: [nargsort] over numpy's [argsort] *)

(** [take indexer l]: the elements of [l] at the positions of [indexer], in
    that order.  An indexer produced by [nargsort] is always in range. *)
Fixpoint take (A : Type) (indexer : list nat) (l : list A) : list A :=
  match indexer with
  | [] => []
  | i :: indexer' =>
      match nth_error l i with
      | Some x => x :: take indexer' l
      | None => take indexer' l
      end
  end.

(** What is asked of [ndarray.argsort(kind="quicksort")]: it returns the
    positions of its argument, each once, in an order that makes the values
    non-decreasing.  The order of equal values is left open, as in numpy. *)
Definition argsort_ok (argsort : list Q -> list nat) : Prop :=
  forall l : list Q,
    Permutation (argsort l) (seq 0 (List.length l)) /\
    StronglySorted Qle (take (argsort l) l).

(** A stable instance: straight insertion, which is what numpy runs on short
    arrays. *)
Fixpoint insert_pos (l : list Q) (i : nat) (sorted : list nat) : list nat :=
  match sorted with
  | [] => [i]
  | j :: sorted' =>
      if Qltb (nth i l 0%Q) (nth j l 0%Q) then i :: sorted
      else j :: insert_pos l i sorted'
  end.

Definition insertion_argsort (l : list Q) : list nat :=
  fold_left (fun sorted i => insert_pos l i sorted) (seq 0 (List.length l)) [].

Section Sorting.

Variable argsort : list Q -> list nat.

(** [pandas.core.sorting.nargsort(items, kind="quicksort", ascending,
    na_position="last")]: the blanks are set aside and appended at the end;
    for a descending sort the rest is reversed before and after [argsort]. *)
Definition nargsort (items : list cell) (ascending : bool) : list nat :=
  let idx := seq 0 (List.length items) in
  let non_nan_idx := filter (fun i => notna (nth i items NA)) idx in
  let nan_idx := filter (fun i => isna (nth i items NA)) idx in
  let non_nans := floats (take non_nan_idx items) in
  let non_nans' := if ascending then non_nans else rev non_nans in
  let non_nan_idx' := if ascending then non_nan_idx else rev non_nan_idx in
  let indexer := take (argsort non_nans') non_nan_idx' in
  let indexer' := if ascending then indexer else rev indexer in
  indexer' ++ nan_idx.

(** [df.sort_values(by=c, ascending=asc)] once the column is located. *)
Definition sort_values_at (i : nat) (ascending : bool) (df : DataFrame)
  : DataFrame :=
  mkDF (columns df)
       (take (nargsort (map (at_loc i) (rows df)) ascending) (rows df)).

(** [Series.value_counts()]: the non-blank values in order of first
    appearance with their number of occurrences, then sorted by that number,
    largest first. *)
Definition count_key (key : cell) (l : list cell) : nat :=
  List.length (filter (same_key key) l).

Definition value_counts (l : list cell) : list (cell * nat) :=
  let keys := filter notna (unique l) in
  let counts := map (fun key => count_key key l) keys in
  let order :=
    nargsort (map (fun n => Num (inject_Z (Z.of_nat n))) counts) false in
  take order (combine keys counts).

End Sorting.

(** ** The page and the runs of the script *)

Inductive Order : Type := Ascending | Descending.

(** [ascending = sort_order == "Ascending"] *)
Definition is_ascending (o : Order) : bool :=
  match o with Ascending => true | Descending => false end.

(** What the script writes to the page.  Texts built with an f-string keep
    their arguments instead of the formatted string. *)
Inductive element : Type :=
| Markdown_style
| Title (text : string)
| File_uploader
| Error_loading (e : string)
| Sidebar_write (nrows ncols : nat)
| Sidebar_error (text : string)
| Selectbox (options : list cell)
| Radio
| Caption_sorted (selected_city : option cell) (sort_order : Order)
| Write_table (df : DataFrame)
| Warning (text : string)
| Subheader (text : string)
| Balloons
| Highlights (total_skyscrapers : nat) (tallest_name tallest_height : cell)
             (average_height : option Q)
| Sidebar_subheader (text : string)
| Slider (min_value max_value value : Z)
| Pydeck_chart (data : DataFrame) (latitude longitude : option Q)
| Warning_none_above (min_height : Z) (selected_city : option cell)
| Header_above (selected_city : option cell) (min_height : Z)
| Expander_table (df : DataFrame)
| Hist (heights : list cell) (bins : nat)
| Write_sample (number : Z) (name height : cell)
| Pie (counts : list nat) (labels : list cell).

Inductive exn : Type :=
| KeyError (key : string)
| ValueError (text : string)
| AttributeError (text : string).

(** How a run ends: normally, at [st.stop()], or at an uncaught exception. *)
Inductive outcome (A : Type) : Type :=
| Done (a : A)
| Stopped
| Raised (e : exn).

Arguments Stopped {A}.
Arguments Raised {A} e.

(** A computation writes elements and ends with an outcome; what was written
    before a stop or an exception stays on the page. *)
Definition run (A : Type) : Type := (list element * outcome A)%type.

Definition ret (A : Type) (a : A) : run A := ([], Done a).

Definition bind (A B : Type) (m : run A) (k : A -> run B) : run B :=
  match snd m with
  | Done a => (fst m ++ fst (k a), snd (k a))
  | Stopped => (fst m, Stopped)
  | Raised e => (fst m, Raised e)
  end.

Definition emit (e : element) : run unit := ([e], Done tt).
Definition stop (A : Type) : run A := ([], Stopped).
Definition raise (A : Type) (e : exn) : run A := ([], Raised e).

Arguments stop {A}.
Arguments raise {A} e.

Notation "x <- m ;; k" := (bind m (fun x => k))
  (at level 61, m at next level, right associativity).
Notation "m ;; k" := (bind m (fun _ => k))
  (at level 61, right associativity).

Definition page (A : Type) (m : run A) : list element := fst m.
Definition result (A : Type) (m : run A) : outcome A := snd m.

(** [df[c]] and [row[c]] raise KeyError on an unknown label. *)
Definition getcol (c : string) (df : DataFrame) : run nat :=
  match get_loc c (columns df) with
  | Some i => ret i
  | None => raise (KeyError c)
  end.

(** The positions of all the columns that carry the label [c]: a frame can
    hold several columns under one label. *)
Fixpoint get_locs (c : string) (cols : list string) : list nat :=
  match cols with
  | [] => []
  | c' :: cols' =>
      let rest := map S (get_locs c cols') in
      if String.eqb c c' then 0 :: rest else rest
  end.

Definition getcols (c : string) (df : DataFrame) : run (list nat) :=
  match get_locs c (columns df) with
  | [] => raise (KeyError c)
  | js => ret js
  end.

(** [df[[c1; c2; ...]]]: for each listed label, in the listed order, every
    column that carries it, under that label. *)
Fixpoint locate (cs : list string) (df : DataFrame)
  : run (list (string * nat)) :=
  match cs with
  | [] => ret []
  | c :: cs' =>
      js <- getcols c df ;;
      rest <- locate cs' df ;;
      ret (map (pair c) js ++ rest)
  end.

Definition project (cs : list string) (df : DataFrame) : run DataFrame :=
  js <- locate cs df ;;
  ret (mkDF (map fst js)
            (map (fun r => (label r, map (fun j => at_loc (snd j) r) js))
                 (rows df))).

(** Whether the labels are all different. *)
Fixpoint all_different (cols : list string) : bool :=
  match cols with
  | [] => true
  | c :: cols' => negb (existsb (String.eqb c) cols') && all_different cols'
  end.

(** [st.write(df)] on a DataFrame, shown as the element [e df]: the table is
    converted for the browser, and the conversion refuses a table in which
    two columns carry the same label. *)
Definition write_frame (e : DataFrame -> element) (df : DataFrame)
  : run unit :=
  if all_different (columns df) then emit (e df)
  else raise (ValueError "Duplicate column names found").

(** A label of the header row as [read_excel] keeps it: a text cell becomes
    a [str], a numeric or a date cell a number or a timestamp. *)
Inductive header_cell : Type :=
| Text (s : string)
| Number (z : Z).

(** The table [read_excel] returns: the labels of the header row and the
    cell rows below it. *)
Record table : Type := mkTable {
  labels : list header_cell;
  lines : list (list cell)
}.

(** A parsed sheet whose labels are all text: the header row and the cell
    rows below it. *)
Record sheet : Type := mkSheet {
  header : list string;
  body : list (list cell)
}.

Definition table_of_sheet (s : sheet) : table :=
  mkTable (map Text (header s)) (body s).

Coercion table_of_sheet : sheet >-> table.

(** The names of the labels when every label is text. *)
Fixpoint text_labels (l : list header_cell) : option (list string) :=
  match l with
  | [] => Some []
  | Text s :: l' => option_map (cons s) (text_labels l')
  | Number _ :: _ => None
  end.

Definition as_sheet (t : table) : option sheet :=
  option_map (fun names => mkSheet names (lines t)) (text_labels (labels t)).

(** [c in data.columns] for a name [c]: a label that is not text equals no
    name. *)
Definition carries (c : string) (l : header_cell) : bool :=
  match l with
  | Text s => String.eqb c s
  | Number _ => false
  end.

(** The DataFrame [read_excel] builds from a sheet, with its RangeIndex. *)
Definition frame_of_sheet (s : sheet) : DataFrame :=
  mkDF (header s) (range_index (body s)).

(** ** The script *)

(** [st.sidebar.selectbox(label, options)]: the option the user picked, the
    first one by default, [None] when there is nothing to pick. *)
Definition selectbox (options : list cell) (choice : nat) : option cell :=
  match nth_error options choice with
  | Some c => Some c
  | None => hd_error options
  end.

(** [data['location.city'] == selected_city] on one cell. *)
Definition eq_selected (selected_city : option cell) (c : cell) : bool :=
  match selected_city with
  | Some s => cell_eq c s
  | None => false
  end.

(** [sorted_data['Height'] >= min_height] on one cell; NaN compares false. *)
Definition ge_int (c : cell) (m : Z) : bool :=
  match to_float c with
  | Some q => Qle_bool (inject_Z m) q
  | None => false
  end.

(** [[col for col in data.columns if 'height' in col.lower()]] on a
    DataFrame, whose labels are text.  On a table with a label that is not
    text [col.lower()] raises at this line: [dashboard_no_text] below. *)
Definition height_columns (df : DataFrame) : list string :=
  filter (fun col => PyStr.contains "height" (PyStr.lower col)) (columns df).

Section Script.

Variable file : Type.

(** [pd.read_excel(file, engine="openpyxl", header=0)]: the text of the
    exception it raises, or the table it parsed. *)
Variable read_excel : file -> string + table.

Variable argsort : list Q -> list nat.

(** What the user did with the widgets. *)
Record Inputs : Type := mkInputs {
  uploaded_file : option file;
  city_choice : nat;
  sort_order : Order;
  min_height : Z
}.

Definition load_data (f : file) : run (table * (nat * nat)) :=
  match read_excel f with
  | inr data =>
      let summary := (List.length (lines data), List.length (labels data)) in
      ret (data, summary)
  | inl e =>
      emit (Error_loading e) ;;
      stop
  end.

(** Lines 59-82: drop the rows without coordinates, detect the height column,
    filter by the selected city.  When both coordinate columns are missing
    pandas names both in one KeyError; the exception here names the
    first. *)
Definition dropna (data : DataFrame) : run DataFrame :=
  lat <- getcol "location.latitude" data ;;
  lon <- getcol "location.longitude" data ;;
  ret (dropna_at lat lon data).

Definition detect_height (data : DataFrame) : run (option string) :=
  match height_columns data with
  | h :: _ => ret (Some h)
  | [] =>
      emit (Sidebar_error "No column containing 'height' found!") ;;
      ret None
  end.

Definition city_filter (data : DataFrame) (choice : nat)
  : run (option cell * DataFrame) :=
  k <- getcol "location.city" data ;;
  let cities := unique (values (column_at k data)) in
  emit (Selectbox cities) ;;
  let selected_city := selectbox cities choice in
  let filtered_data :=
    select (fun r => eq_selected selected_city (at_loc k r)) data in
  ret (selected_city,
       rename [("location.latitude", "latitude");
               ("location.longitude", "longitude")] filtered_data).

(** Lines 85-107.  A detected name contains "height", so it is not the empty
    string and [if height_column_name:] tests for [None]. *)
Definition sort_block (height_column_name : option string)
    (selected_city : option cell) (order : Order) (filtered_data : DataFrame)
  : run DataFrame :=
  emit Radio ;;
  let ascending := is_ascending order in
  match height_column_name with
  | Some h =>
      i <- getcol h filtered_data ;;
      let sorted_data := sort_values_at argsort i ascending filtered_data in
      let sorted_data :=
        rename [("name", "Name"); ("location.city", "Location"); (h, "Height")]
               sorted_data in
      emit (Caption_sorted selected_city order) ;;
      shown <- project ["Name"; "Location"; "Height"] sorted_data ;;
      write_frame Write_table shown ;;
      ret sorted_data
  | None =>
      emit (Warning "Height column not found, skipping sorting.") ;;
      ret filtered_data
  end.

(** Lines 110-117. *)
Definition city_group (h : string) (data : DataFrame) : run DataFrame :=
  k <- getcol "location.city" data ;;
  v <- getcol h data ;;
  ret (rename [("location.city", "Location"); (h, "Height")]
              (groupby_mean "location.city" h k v data)).

Definition group_block (height_column_name : option string) (data : DataFrame)
  : run unit :=
  match height_column_name with
  | Some h =>
      g <- city_group h data ;;
      emit (Subheader "Average Height of Skyscrapers by City") ;;
      write_frame Write_table g
  | None => ret tt
  end.

(** Lines 125-130: the values of the Key Highlights table.  [idxmax] on a
    column without a number raises. *)
Definition key_highlights (h : string) (filtered_data : DataFrame)
  : run element :=
  let total_skyscrapers := List.length (rows filtered_data) in
  i <- getcol h filtered_data ;;
  l <- match idxmax (column_at i filtered_data) with
       | Some l => ret l
       | None => raise (ValueError "Encountered all NA values")
       end ;;
  tallest_skyscraper <-
    match loc l filtered_data with
    | Some r => ret r
    | None => raise (KeyError "label")
    end ;;
  n <- getcol "name" filtered_data ;;
  let tallest_name := at_loc n tallest_skyscraper in
  let tallest_height := at_loc i tallest_skyscraper in
  let average_height := mean (values (column_at i filtered_data)) in
  ret (Highlights total_skyscrapers tallest_name tallest_height average_height).

Definition highlights_block (height_column_name : option string)
    (filtered_data : DataFrame) : run unit :=
  emit (Subheader "Key Highlights") ;;
  match empty filtered_data, height_column_name with
  | false, Some h =>
      hl <- key_highlights h filtered_data ;;
      emit hl
  | _, _ => emit (Warning "No data available for the selected city.")
  end.

(** Lines 184-189: the arguments given to the slider.  [int] of NaN raises.
    The check streamlit makes of the numbers it is given (none above
    2^53 - 1) is not modelled. *)
Definition slider_args (h : string) (filtered_data : DataFrame) : run element :=
  i <- getcol h filtered_data ;;
  match max (values (column_at i filtered_data)) with
  | Some q => ret (Slider 0 (int q) 100)
  | None => raise (ValueError "cannot convert float NaN to integer")
  end.

(** Line 192.  The label Height names one column when the script gets
    here: with two of them line 104 has raised. *)
Definition filter_by_height (sorted_data : DataFrame) (m : Z) : run DataFrame :=
  i <- getcol "Height" sorted_data ;;
  ret (select (fun r => ge_int (at_loc i r) m) sorted_data).

(** Lines 195-212.  The two coordinate columns are float columns, one under
    each label; text in them, or a sheet that has a column latitude or
    longitude of its own beside the renamed ones, is outside the model. *)
Definition map_block (selected_city : option cell) (m : Z)
    (filtered_by_height : DataFrame) : run unit :=
  emit (Subheader "Enhanced Map of Skyscrapers") ;;
  if empty filtered_by_height
  then emit (Warning_none_above m selected_city)
  else
    lat <- getcol "latitude" filtered_by_height ;;
    lon <- getcol "longitude" filtered_by_height ;;
    emit (Pydeck_chart filtered_by_height
            (mean (values (column_at lat filtered_by_height)))
            (mean (values (column_at lon filtered_by_height)))).

(** Lines 215-234. *)
Definition histogram_block (selected_city : option cell) (m : Z)
    (filtered_by_height : DataFrame) : run unit :=
  emit (Header_above selected_city m) ;;
  if empty filtered_by_height
  then ret tt
  else
    write_frame Expander_table filtered_by_height ;;
    emit (Subheader "Height Distribution of Filtered Skyscrapers") ;;
    i <- getcol "Height" filtered_by_height ;;
    emit (Hist (values (column_at i filtered_by_height)) 10).

(** Lines 237-239: one line per row of [head(5)], numbered by the row's index
    label plus one. *)
Definition sample_line (n h : nat) (r : Row) : element :=
  Write_sample (label r + 1) (at_loc n r) (at_loc h r).

Fixpoint write_all (es : list element) : run unit :=
  match es with
  | [] => ret tt
  | e :: es' => emit e ;; write_all es'
  end.

Definition sample_block (filtered_by_height : DataFrame) : run unit :=
  emit (Subheader "Sample Skyscraper Data") ;;
  match rows (head 5 filtered_by_height) with
  | [] => ret tt
  | sample =>
      n <- getcol "Name" filtered_by_height ;;
      h <- getcol "Height" filtered_by_height ;;
      write_all (map (sample_line n h) sample)
  end.

(** Lines 181-239. *)
Definition height_block (height_column_name : option string)
    (selected_city : option cell) (m : Z)
    (filtered_data sorted_data : DataFrame) : run unit :=
  match empty filtered_data, height_column_name with
  | false, Some h =>
      emit (Sidebar_subheader "Filter by Height") ;;
      s <- slider_args h filtered_data ;;
      emit s ;;
      filtered_by_height <- filter_by_height sorted_data m ;;
      map_block selected_city m filtered_by_height ;;
      histogram_block selected_city m filtered_by_height ;;
      sample_block filtered_by_height
  | _, _ => ret tt
  end.

(** Lines 56-239: everything under [if data is not None]; it returns the
    value [data] is left bound to, the table without the dropped rows. *)
Definition dashboard (data : DataFrame) (summary : nat * nat) (inp : Inputs)
  : run DataFrame :=
  emit (Sidebar_write (fst summary) (snd summary)) ;;
  data <- dropna data ;;
  height_column_name <- detect_height data ;;
  cf <- city_filter data (city_choice inp) ;;
  let selected_city := fst cf in
  let filtered_data := snd cf in
  sorted_data <-
    sort_block height_column_name selected_city (sort_order inp) filtered_data ;;
  group_block height_column_name data ;;
  (if empty filtered_data then ret tt else emit Balloons) ;;
  highlights_block height_column_name filtered_data ;;
  height_block height_column_name selected_city (min_height inp)
               filtered_data sorted_data ;;
  ret data.

(** Lines 56-62 on a table with a label that is not text: the sidebar
    message, the two coordinate columns looked up by line 59, and line 62,
    where [col.lower()] raises AttributeError at the first label that is not
    a [str]. *)
Definition dashboard_no_text (data : table) (summary : nat * nat)
  : run DataFrame :=
  emit (Sidebar_write (fst summary) (snd summary)) ;;
  (if existsb (carries "location.latitude") (labels data) then ret tt
   else raise (KeyError "location.latitude")) ;;
  (if existsb (carries "location.longitude") (labels data) then ret tt
   else raise (KeyError "location.longitude")) ;;
  raise (AttributeError "'int' object has no attribute 'lower'").

(** Lines 52-241: [None] when the name [data] was never bound. *)
Definition main_block (inp : Inputs) : run (option DataFrame) :=
  match uploaded_file inp with
  | Some f =>
      loaded <- load_data f ;;
      data <- match as_sheet (fst loaded) with
              | Some s => dashboard (frame_of_sheet s) (snd loaded) inp
              | None => dashboard_no_text (fst loaded) (snd loaded)
              end ;;
      ret (Some data)
  | None =>
      emit (Warning "Please upload a dataset to begin.") ;;
      ret None
  end.

(** Lines 249-253: per-city counts, largest first, cut to ten. *)
Definition top_cities (k : nat) (data : DataFrame) : list (cell * nat) :=
  let city_skyscraper_count :=
    value_counts argsort (values (column_at k data)) in
  firstn 10 city_skyscraper_count.

(** Lines 244-271. *)
Definition pie_block (data : option DataFrame) : run unit :=
  match data with
  | Some data =>
      if empty data
      then emit (Warning "Data is not defined or empty.")
      else
        emit (Subheader "Distribution of Skyscrapers by City") ;;
        match get_loc "location.city" (columns data) with
        | Some k =>
            let top := top_cities k data in
            emit (Pie (map snd top) (map fst top))
        | None =>
            emit (Warning "'location.city' column not found in the dataset.")
        end
  | None => emit (Warning "Data is not defined or empty.")
  end.

Definition script (inp : Inputs) : run unit :=
  emit Markdown_style ;;
  emit (Title "Skyscrapers Around the United States") ;;
  emit File_uploader ;;
  data <- main_block inp ;;
  pie_block data.

End Script.

Arguments mkInputs {file} _ _ _ _.
Arguments uploaded_file {file} _.
Arguments city_choice {file} _.
Arguments sort_order {file} _.
Arguments min_height {file} _.

(** ** A small table to run the script on *)

Module Sheets.

Definition h1 : list string :=
  ["name"; "location.city"; "location.latitude"; "location.longitude";
   "statistics.height"].

Definition r (n c : string) (lat lon h : cell) : list cell :=
  [Str n; Str c; lat; lon; h].

(** The example of the spec, with coordinates, and a row without them. *)
Definition s1 : sheet :=
  mkSheet h1
    [ r "A" "NYC" (Num (407 # 10)) (Num (-74 # 1)) (Num (300 # 1));
      r "B" "NYC" (Num (408 # 10)) (Num (-74 # 1)) (Num (100 # 1));
      r "C" "LA" (Num (34 # 1)) (Num (-118 # 1)) (Num (200 # 1));
      r "D" "NYC" NA (Num (-74 # 1)) (Num (500 # 1)) ].

(** A reader for the examples: the upload is its own parse. *)
Definition read (s : string + sheet) : string + table :=
  match s with
  | inl e => inl e
  | inr s => inr (table_of_sheet s)
  end.

Definition inp1 : Inputs (string + sheet) :=
  mkInputs (Some (inr s1)) 0 Ascending 100.

(** The table the script works on after line 59. *)
Definition data1 : DataFrame := dropna_at 2 3 (frame_of_sheet s1).

(** A sheet without a height column. *)
Definition s2 : sheet :=
  mkSheet ["name"; "location.city"; "location.latitude"; "location.longitude";
           "status.current"]
    [ [Str "A"; Str "NYC"; Num (407 # 10); Num (-74 # 1); Str "completed"];
      [Str "C"; Str "LA"; Num (34 # 1); Num (-118 # 1); Str "completed"] ].

Definition inp2 : Inputs (string + sheet) :=
  mkInputs (Some (inr s2)) 1 Descending 100.

(** A sheet in which no tower of LA has a height. *)
Definition s3 : sheet :=
  mkSheet h1
    [ r "A" "NYC" (Num (407 # 10)) (Num (-74 # 1)) (Num (300 # 1));
      r "C" "LA" (Num (34 # 1)) (Num (-118 # 1)) NA;
      r "E" "LA" (Num (341 # 10)) (Num (-118 # 1)) NA ].

Definition inp3 : Inputs (string + sheet) :=
  mkInputs (Some (inr s3)) 1 Ascending 100.

(** No file uploaded yet. *)
Definition inp0 : Inputs (string + sheet) :=
  mkInputs None 0 Ascending 100.

(** A sheet without the longitude column. *)
Definition s4 : sheet :=
  mkSheet ["name"; "location.city"; "location.latitude"; "statistics.height"]
    [ [Str "A"; Str "NYC"; Num (407 # 10); Num (300 # 1)] ].

Definition inp4 : Inputs (string + sheet) :=
  mkInputs (Some (inr s4)) 0 Ascending 100.

(** A sheet with the coordinates and without the city column. *)
Definition s5 : sheet :=
  mkSheet ["name"; "location.latitude"; "location.longitude";
           "statistics.height"]
    [ [Str "A"; Num (407 # 10); Num (-74 # 1); Num (300 # 1)] ].

Definition inp5 : Inputs (string + sheet) :=
  mkInputs (Some (inr s5)) 0 Ascending 100.

(** A sheet in which every row lacks a coordinate. *)
Definition s6 : sheet :=
  mkSheet h1
    [ r "A" "NYC" NA (Num (-74 # 1)) (Num (300 # 1));
      r "C" "LA" (Num (34 # 1)) NA (Num (200 # 1)) ].

Definition inp6 : Inputs (string + sheet) :=
  mkInputs (Some (inr s6)) 0 Descending 100.

(** A reader for tables with labels of any kind. *)
Definition read_table (t : string + table) : string + table := t.

(** A table without a height column whose last label is a year, which
    [read_excel] keeps as a number. *)
Definition t7 : table :=
  mkTable [Text "name"; Text "location.city"; Text "location.latitude";
           Text "location.longitude"; Number 2020]
    [ [Str "A"; Str "NYC"; Num (407 # 10); Num (-74 # 1); Num (300 # 1)] ].

Definition inp7 : Inputs (string + table) :=
  mkInputs (Some (inr t7)) 0 Ascending 100.

(** Twelve cities: one with three towers, one with two, ten with one; the
    tower of the last row has no longitude. *)
Definition s8 : sheet :=
  mkSheet h1
    (map (fun c => r c c (Num (41 # 1)) (Num (-87 # 1)) (Num (300 # 1)))
         ["k"; "a"; "b"; "c"; "d"; "bb"; "e"; "f"; "bb"; "g"; "h"; "i";
          "j"; "k"; "k"]
     ++ [ r "z" "a" (Num (41 # 1)) NA (Num (300 # 1)) ]).

Definition inp8 : Inputs (string + sheet) :=
  mkInputs (Some (inr s8)) 0 Ascending 100.

(** A sheet with a column named Height beside the detected height column. *)
Definition s9 : sheet :=
  mkSheet ["name"; "location.city"; "location.latitude"; "location.longitude";
           "statistics.height"; "Height"]
    [ [Str "A"; Str "NYC"; Num (407 # 10); Num (-74 # 1); Num (300 # 1);
       Num (984 # 1)] ].

Definition inp9 : Inputs (string + sheet) :=
  mkInputs (Some (inr s9)) 0 Ascending 100.

End Sheets.

(** ** Vocabulary of the statements *)

(** A cell of a float64 column: a number or a blank. *)
Definition float_cell (c : cell) : bool :=
  match c with Str _ => false | _ => true end.

(** The number in a cell, 0 for anything else. *)
Definition num (c : cell) : Q :=
  match c with Num q => q | _ => 0%Q end.

(** The elements with a value under [key], and those without. *)
Definition present (A : Type) (key : A -> cell) (xs : list A) : list A :=
  filter (fun x => notna (key x)) xs.

Definition blank (A : Type) (key : A -> cell) (xs : list A) : list A :=
  filter (fun x => isna (key x)) xs.

(** Further tables for the examples. *)
Module Tables.

Definition cols : list string :=
  ["name"; "location.city"; "latitude"; "longitude"; "statistics.height"].

Definition row (l : Z) (n c : string) (h : cell) : Row :=
  (l, [Str n; Str c; Num (41 # 1); Num (-87 # 1); h]).

(** Two towers of one city with the same height. *)
Definition twins : DataFrame :=
  mkDF cols [ row 0 "North" "Chicago" (Num (200 # 1));
              row 1 "South" "Chicago" (Num (200 # 1)) ].

(** Three towers of different heights. *)
Definition three : DataFrame :=
  mkDF cols [ row 0 "A" "Chicago" (Num (300 # 1));
              row 1 "B" "Chicago" (Num (100 # 1));
              row 2 "C" "Chicago" (Num (3011 # 10)) ].

(** A filtered-by-height set of seven rows, as [sort_block] names its
    columns. *)
Definition shown_cols : list string :=
  ["Name"; "Location"; "latitude"; "longitude"; "Height"].

Definition seven : DataFrame :=
  mkDF shown_cols
       [ row 3 "T1" "Chicago" (Num (442 # 1));
         row 0 "T2" "Chicago" (Num (423 # 1));
         row 6 "T3" "Chicago" (Num (346 # 1));
         row 1 "T4" "Chicago" (Num (344 # 1));
         row 5 "T5" "Chicago" (Num (307 # 1));
         row 2 "T6" "Chicago" (Num (3029 # 10));
         row 4 "T7" "Chicago" (Num (262 # 1)) ].

(** A tower without a height after one with a height. *)
Definition gap : DataFrame :=
  mkDF cols [ row 0 "A" "Chicago" (Num (300 # 1));
              row 1 "B" "Chicago" NA ].

(** Twelve cities: one with three towers, one with two, ten with one. *)
Definition twelve : DataFrame :=
  mkDF ["location.city"]
       (range_index
          (map (fun c => [Str c])
               ["k"; "a"; "b"; "c"; "d"; "bb"; "e"; "f"; "bb"; "g"; "h"; "i";
                "j"; "k"; "k"])).

End Tables.

(** [subseq l1 l2]: [l1] is [l2] with some elements left out, the others in
    the order they have in [l2]. *)
Inductive subseq (A : Type) : list A -> list A -> Prop :=
| subseq_nil : subseq [] []
| subseq_skip (x : A) (l1 l2 : list A) : subseq l1 l2 -> subseq l1 (x :: l2)
| subseq_keep (x : A) (l1 l2 : list A) : subseq l1 l2 -> subseq (x :: l1) (x :: l2).

(** The order a sort direction puts two heights in. *)
Definition in_order (o : Order) (a b : Q) : Prop :=
  match o with
  | Ascending => (a <= b)%Q
  | Descending => (b <= a)%Q
  end.


(** The test of line 62 on one column label. *)
Definition names_height (col : string) : bool :=
  PyStr.contains "height" (PyStr.lower col).

(** The renaming of lines 93-97. *)
Definition display_names (h : string) : list (string * string) :=
  [("name", "Name"); ("location.city", "Location"); (h, "Height")].

(** Column [i] of the frame is a float64 column: numbers and blanks only. *)
Definition float_column (i : nat) (df : DataFrame) : Prop :=
  Forall (fun r => float_cell (at_loc i r) = true) (rows df).

(** [first_max s l top]: [l] labels the first entry of [s] that holds the
    largest number [top] of [s]. *)
Definition first_max (s : Series) (l : Z) (top : Q) : Prop :=
  exists s1 s2 : Series,
    s = s1 ++ (l, Num top) :: s2 /\
    (forall j q, In (j, Num q) s1 -> (q < top)%Q) /\
    (forall j q, In (j, Num q) s2 -> (q <= top)%Q).

(** The count of a city as the number [value_counts] sorts by. *)
Definition count_cell (kc : cell * nat) : cell :=
  Num (inject_Z (Z.of_nat (snd kc))).

(** The cities of a column with their numbers of rows, in order of first
    appearance: what [value_counts] sorts. *)
Definition city_counts (l : list cell) : list (cell * nat) :=
  map (fun key => (key, count_key key l)) (filter notna (unique l)).

(** The elements that are computed from the height column: the sorted table
    with its caption, the per-city averages, the highlights, the slider, the
    map, the tables and the histogram of the height filter, and the sample
    lines.  The pie chart counts rows per city and is not one of them. *)
Definition needs_height (e : element) : bool :=
  match e with
  | Caption_sorted _ _ | Write_table _ | Highlights _ _ _ _
  | Sidebar_subheader _ | Slider _ _ _ | Pydeck_chart _ _ _
  | Warning_none_above _ _ | Header_above _ _ | Expander_table _
  | Hist _ _ | Write_sample _ _ _ => true
  | _ => false
  end.

(** Position [i] of [l] holds a value not above the one at position [j]. *)
Definition value_below (l : list Q) (i j : nat) : Prop :=
  (nth i l 0 <= nth j l 0)%Q.

(** A column label contains the substring "height", whatever the case of its
    letters: the words of the spec for the test of line 62. *)
Definition mentions_height (col : string) : Prop :=
  exists pre mid post : string,
    col = (pre ++ mid ++ post)%string /\ PyStr.lower mid = "height".

(** [all_on_page P m]: every element the computation [m] writes satisfies
    [P]. *)
Definition all_on_page (P : element -> Prop) (A : Type) (m : run A) : Prop :=
  Forall P (page m).

(** The warning of line 269. *)
Definition city_column_warning : element :=
  Warning "'location.city' column not found in the dataset.".

(** The renaming of lines 79-82. *)
Definition coordinate_names : list (string * string) :=
  [("location.latitude", "latitude"); ("location.longitude", "longitude")].

(** The values lines 72-82 compute from the table [data] with the city
    column at [k] and the user's choice: the options of the selector, the
    selected city, the rows of that city, and [filtered_data]. *)
Definition city_options (k : nat) (data : DataFrame) : list cell :=
  unique (values (column_at k data)).

Definition chosen_city (k : nat) (data : DataFrame) (choice : nat)
  : option cell :=
  selectbox (city_options k data) choice.

Definition city_rows (k : nat) (data : DataFrame) (choice : nat) : DataFrame :=
  select (fun r => eq_selected (chosen_city k data choice) (at_loc k r)) data.

Definition filtered_frame (k : nat) (data : DataFrame) (choice : nat)
  : DataFrame :=
  rename coordinate_names (city_rows k data choice).

(** [shows_rows_of ok e]: the rows the element [e] shows one by one (the
    points of the map, the rows of the table in the expander, the row of a
    sample line, recognised by its index label) all satisfy [ok]. *)
Definition shows_rows_of (ok : Row -> Prop) (e : element) : Prop :=
  match e with
  | Pydeck_chart df _ _ => forall r, In r (rows df) -> ok r
  | Expander_table df => forall r, In r (rows df) -> ok r
  | Write_sample number name height =>
      exists r, ok r /\ number = (label r + 1)%Z
  | _ => True
  end.

(** The labels of the sorted frame of a sheet with the labels [cols], after
    the renamings of lines 79-82 and of lines 93-97. *)
Definition displayed_labels (h : string) (cols : list string) : list string :=
  map (rename_label (display_names h))
      (map (rename_label coordinate_names) cols).

(** The arithmetic mean in the words of the spec: the sum of the numbers
    divided by how many they are. *)
Definition arithmetic_mean (qs : list Q) : Q :=
  (fold_right Qplus 0 qs / inject_Z (Z.of_nat (List.length qs)))%Q.

(** [skipping_blanks cs qs]: [qs] are the numbers of the cells [cs], in
    order, the blanks left out. *)
Inductive skipping_blanks : list cell -> list Q -> Prop :=
| skip_nil : skipping_blanks [] []
| skip_blank (cs : list cell) (qs : list Q) :
    skipping_blanks cs qs -> skipping_blanks (NA :: cs) qs
| skip_number (q : Q) (cs : list cell) (qs : list Q) :
    skipping_blanks cs qs -> skipping_blanks (Num q :: cs) (q :: qs).

(** [sample_of n v ok e]: a sample line [e] is the line of a row that
    satisfies [ok]; it carries the index label of that row plus one, its
    cell [n] as the name and its cell [v] as the height. *)
Definition sample_of (n v : nat) (ok : Row -> Prop) (e : element) : Prop :=
  match e with
  | Write_sample number name height =>
      exists r, ok r /\ number = (label r + 1)%Z /\
                name = at_loc n r /\ height = at_loc v r
  | _ => True
  end.

(** [pie_of data top e]: a pie chart [e] is drawn for a table [data] that
    has a row, from the entries [top], one slice per entry, in their
    order. *)
Definition pie_of (data : DataFrame) (top : list (cell * nat)) (e : element)
  : Prop :=
  match e with
  | Pie counts labels =>
      rows data <> [] /\ counts = map snd top /\ labels = map fst top
  | _ => True
  end.

(** * Properties *)

(** ** Runs *)

Lemma bind_ret (A B : Type) (a : A) (k : A -> run B) :
  (x <- ret a ;; k x) = k a.
Proof. unfold bind, ret; simpl. now destruct (k a). Qed.

Lemma bind_emit (B : Type) (e : element) (k : unit -> run B) :
  (x <- emit e ;; k x) = (e :: page (k tt), result (k tt)).
Proof. reflexivity. Qed.

Lemma bind_raise (A B : Type) (e : exn) (k : A -> run B) :
  (x <- raise e ;; k x) = raise e.
Proof. reflexivity. Qed.

Lemma bind_stop (A B : Type) (k : A -> run B) :
  (x <- stop ;; k x) = stop.
Proof. reflexivity. Qed.

Lemma bind_done (A B : Type) (m : run A) (a : A) (k : A -> run B) :
  result m = Done a ->
  (x <- m ;; k x) = (page m ++ page (k a), result (k a)).
Proof. unfold bind, result, page. now intros ->. Qed.

Lemma bind_assoc (A B C : Type) (m : run A) (k : A -> run B) (j : B -> run C) :
  (y <- (x <- m ;; k x) ;; j y) = (x <- m ;; y <- k x ;; j y).
Proof.
  destruct m as [p [a | | e]]; unfold bind; simpl; try reflexivity.
  destruct (k a) as [q [b | | e]]; simpl; try reflexivity.
  now rewrite app_assoc.
Qed.

Lemma getcol_found (c : string) (df : DataFrame) (i : nat) :
  get_loc c (columns df) = Some i -> getcol c df = ret i.
Proof. unfold getcol. now intros ->. Qed.

Lemma getcol_missing (c : string) (df : DataFrame) :
  get_loc c (columns df) = None -> getcol c df = raise (KeyError c).
Proof. unfold getcol. now intros ->. Qed.

Lemma write_all_page (es : list element) :
  write_all es = (es, Done tt).
Proof.
  induction es as [| e es IH]; [reflexivity |].
  simpl. rewrite bind_emit, IH. reflexivity.
Qed.

(** ** Column labels *)

Lemma get_loc_lt (c : string) (cols : list string) (i : nat) :
  get_loc c cols = Some i -> i < List.length cols.
Proof.
  revert i. induction cols as [| c' cols IH]; simpl; intros i H; [discriminate |].
  destruct (String.eqb c c').
  - injection H as <-. lia.
  - destruct (get_loc c cols) as [j |]; [| discriminate].
    injection H as <-. specialize (IH j eq_refl). lia.
Qed.

Lemma get_loc_nth (c : string) (cols : list string) (i : nat) :
  get_loc c cols = Some i -> nth_error cols i = Some c.
Proof.
  revert i. induction cols as [| c' cols IH]; simpl; intros i H; [discriminate |].
  destruct (String.eqb c c') eqn:E.
  - injection H as <-. apply String.eqb_eq in E. now subst.
  - destruct (get_loc c cols) as [j |]; [| discriminate].
    injection H as <-. simpl. now apply IH.
Qed.

Lemma get_loc_In (c : string) (cols : list string) :
  In c cols -> exists i, get_loc c cols = Some i.
Proof.
  induction cols as [| c' cols IH]; simpl; [tauto |].
  intros [-> | H].
  - rewrite String.eqb_refl. now exists 0.
  - destruct (String.eqb c c'); [now exists 0 |].
    destruct (IH H) as [i ->]. now exists (S i).
Qed.

(** The first label that satisfies [p] and all labels before it fail [p]. *)
Lemma get_loc_first (p : string -> bool) (cols : list string) (h : string)
    (rest : list string) :
  filter p cols = h :: rest ->
  exists i, get_loc h cols = Some i /\
            forall j c, j < i -> nth_error cols j = Some c -> p c = false.
Proof.
  induction cols as [| c cols IH]; simpl; [discriminate |].
  destruct (p c) eqn:Pc.
  - intros [= -> _]. exists 0. rewrite String.eqb_refl. split; [reflexivity |].
    intros j c H. lia.
  - intros H. destruct (IH H) as (i & Hi & Hbefore).
    destruct (String.eqb h c) eqn:E.
    + exists 0. split; [reflexivity |]. intros j c' Hj. lia.
    + exists (S i). rewrite Hi. split; [reflexivity |].
      intros [| j] c' Hj; simpl.
      * now intros [= <-].
      * apply Hbefore. lia.
Qed.

(** ** The height test against the words of the spec *)

Lemma starts_with_iff (sub s : string) :
  PyStr.starts_with sub s = true <-> exists post, s = (sub ++ post)%string.
Proof.
  revert s. induction sub as [| a sub IH]; intros s; simpl.
  - split; [intros _; now exists s | reflexivity].
  - destruct s as [| b s].
    + split; [discriminate | intros (post & H); discriminate].
    + rewrite andb_true_iff, Ascii.eqb_eq, IH. split.
      * intros (-> & post & ->). now exists post.
      * intros (post & [= -> ->]). split; [reflexivity | now exists post].
Qed.

Lemma contains_iff (sub s : string) :
  PyStr.contains sub s = true <->
  exists pre post, s = (pre ++ sub ++ post)%string.
Proof.
  induction s as [| b s IH]; simpl; rewrite orb_true_iff, starts_with_iff.
  - split.
    + intros [(post & H) | H]; [| discriminate]. now exists EmptyString, post.
    + intros (pre & post & H). left. destruct pre; [now exists post |].
      discriminate.
  - rewrite IH. split.
    + intros [(post & H) | (pre & post & H)].
      * now exists EmptyString, post.
      * exists (String b pre), post. simpl. now rewrite H.
    + intros (pre & post & H). destruct pre as [| c pre]; simpl in H.
      * left. now exists post.
      * right. injection H as _ H. now exists pre, post.
Qed.

Lemma lower_app (a b : string) :
  PyStr.lower (a ++ b) = (PyStr.lower a ++ PyStr.lower b)%string.
Proof. induction a as [| c a IH]; simpl; now rewrite ?IH. Qed.

Lemma lower_split (s a b : string) :
  PyStr.lower s = (a ++ b)%string ->
  exists x y, s = (x ++ y)%string /\ PyStr.lower x = a /\ PyStr.lower y = b.
Proof.
  revert s. induction a as [| c a IH]; intros s H.
  - exists EmptyString, s. now repeat split.
  - destruct s as [| d s]; [discriminate |]. simpl in H.
    injection H as Hc H. destruct (IH s H) as (x & y & -> & Hx & Hy).
    exists (String d x), y. simpl. now rewrite Hc, Hx.
Qed.

(** The test of the script, ['height' in col.lower()], says what the spec
    says: the label contains "height" in some mix of cases. *)
Lemma names_height_iff (col : string) :
  names_height col = true <-> mentions_height col.
Proof.
  unfold names_height, mentions_height. rewrite contains_iff. split.
  - intros (pre & post & H).
    destruct (lower_split _ _ _ H) as (x & y & -> & _ & Hy).
    destruct (lower_split _ _ _ Hy) as (mid & z & -> & Hmid & _).
    now exists x, mid, z.
  - intros (pre & mid & post & -> & Hmid).
    exists (PyStr.lower pre), (PyStr.lower post).
    now rewrite !lower_app, Hmid.
Qed.

(** ** [take] *)

Section Take.

Variable A : Type.

Lemma take_app (a b : list nat) (l : list A) :
  take (a ++ b) l = take a l ++ take b l.
Proof.
  induction a as [| i a IH]; simpl; [reflexivity |].
  destruct (nth_error l i); simpl; now rewrite IH.
Qed.

Lemma take_rev (a : list nat) (l : list A) :
  take (rev a) l = rev (take a l).
Proof.
  induction a as [| i a IH]; simpl; [reflexivity |].
  rewrite take_app, IH. simpl.
  destruct (nth_error l i); simpl; [reflexivity | now rewrite app_nil_r].
Qed.

Lemma take_In (a : list nat) (l : list A) (x : A) :
  In x (take a l) -> In x l.
Proof.
  induction a as [| i a IH]; simpl; [tauto |].
  destruct (nth_error l i) eqn:E; [| exact IH].
  intros [<- | H]; [eapply nth_error_In; eassumption | now apply IH].
Qed.

Lemma take_perm (a b : list nat) (l : list A) :
  Permutation a b -> Permutation (take a l) (take b l).
Proof.
  induction 1 as [| i a b _ IH | i j a | a b c _ IH1 _ IH2]; simpl.
  - constructor.
  - destruct (nth_error l i); [now constructor | exact IH].
  - destruct (nth_error l i), (nth_error l j);
      try apply Permutation_refl. apply perm_swap.
  - now transitivity (take b l).
Qed.

Lemma take_seq_from (l1 l2 : list A) :
  take (seq (List.length l1) (List.length l2)) (l1 ++ l2) = l2.
Proof.
  revert l1. induction l2 as [| x l2 IH]; intros l1; simpl; [reflexivity |].
  rewrite nth_error_app2, Nat.sub_diag by lia. simpl.
  specialize (IH (l1 ++ [x])).
  rewrite length_app, <- app_assoc in IH. simpl in IH.
  rewrite Nat.add_1_r in IH. now rewrite IH.
Qed.

Lemma take_seq (l : list A) : take (seq 0 (List.length l)) l = l.
Proof. exact (take_seq_from [] l). Qed.

(** The positions kept by a test on the element are the elements kept by it. *)
Lemma take_filter_seq_from (p : A -> bool) (d : A) (l1 l2 : list A) :
  take (filter (fun i => p (nth i (l1 ++ l2) d))
               (seq (List.length l1) (List.length l2)))
       (l1 ++ l2)
  = filter p l2.
Proof.
  revert l1. induction l2 as [| x l2 IH]; intros l1; simpl; [reflexivity |].
  rewrite app_nth2, Nat.sub_diag by lia. simpl.
  specialize (IH (l1 ++ [x])).
  rewrite length_app, <- app_assoc in IH. simpl in IH.
  rewrite Nat.add_1_r in IH.
  destruct (p x); simpl.
  - rewrite nth_error_app2, Nat.sub_diag by lia. simpl. now rewrite IH.
  - exact IH.
Qed.

Lemma take_filter_seq (p : A -> bool) (d : A) (l : list A) :
  take (filter (fun i => p (nth i l d)) (seq 0 (List.length l))) l = filter p l.
Proof. exact (take_filter_seq_from p d [] l). Qed.

Lemma take_perm_seq (a : list nat) (l : list A) :
  Permutation a (seq 0 (List.length l)) -> Permutation (take a l) l.
Proof.
  intros H. rewrite <- (take_seq l) at 2. now apply take_perm.
Qed.

End Take.

Lemma take_map (A B : Type) (f : A -> B) (a : list nat) (l : list A) :
  take a (map f l) = map f (take a l).
Proof.
  induction a as [| i a IH]; simpl; [reflexivity |].
  rewrite nth_error_map. destruct (nth_error l i); simpl; now rewrite IH.
Qed.

(** Taking from a taken list is taking at the taken positions. *)
Lemma take_take (A : Type) (js a : list nat) (l : list A) :
  Forall (fun i => i < List.length l) a ->
  take (take js a) l = take js (take a l).
Proof.
  intros Ha.
  assert (Hnth : forall j, nth_error (take a l) j
                           = match nth_error a j with
                             | Some i => nth_error l i
                             | None => None
                             end).
  { induction Ha as [| i a Hi _ IH]; intros j; simpl.
    - now destruct j.
    - destruct (nth_error l i) eqn:E.
      + destruct j; simpl; [now rewrite E | apply IH].
      + apply nth_error_None in E. lia. }
  induction js as [| j js IH]; simpl; [reflexivity |].
  rewrite Hnth. destruct (nth_error a j) as [i |]; simpl; [| exact IH].
  destruct (nth_error l i); now rewrite IH.
Qed.

(** ** [nargsort] *)

Lemma floats_nums (l : list cell) :
  Forall (fun c => float_cell c = true) l ->
  floats (filter notna l) = map num (filter notna l).
Proof.
  induction 1 as [| c l Hc _ IH]; simpl; [reflexivity |].
  destruct c as [| q | s]; simpl; try discriminate; [exact IH | now rewrite IH].
Qed.

Lemma floats_length_le (l : list cell) : List.length (floats l) <= List.length l.
Proof.
  induction l as [| c l IH]; simpl; [lia |].
  destruct (to_float c); simpl; lia.
Qed.

Section NargsortFacts.

Variable argsort : list Q -> list nat.
Variable A : Type.
Variable key : A -> cell.

Lemma positions_by_key (p : cell -> bool) (xs : list A) :
  take (filter (fun i => p (nth i (map key xs) NA)) (seq 0 (List.length xs))) xs
  = filter (fun x => p (key x)) xs.
Proof.
  destruct xs as [| d xs']; [reflexivity |].
  set (xs := d :: xs').
  rewrite <- (take_filter_seq (fun x => p (key x)) d xs).
  f_equal. apply filter_ext_in. intros i Hi. apply in_seq in Hi.
  rewrite (nth_indep _ NA (key d)) by (rewrite length_map; lia).
  now rewrite map_nth.
Qed.

Lemma positions_in_range (p : nat -> bool) (xs : list A) :
  Forall (fun i => i < List.length xs) (filter p (seq 0 (List.length xs))).
Proof.
  apply Forall_forall. intros i Hi. apply filter_In in Hi.
  destruct Hi as [Hi _]. apply in_seq in Hi. lia.
Qed.

(** An ascending sort: the rows with a value, ordered by [argsort], then the
    blanks in their original order. *)
Lemma nargsort_take_asc (xs : list A) :
  take (nargsort argsort (map key xs) true) xs
  = take (argsort (floats (map key (present key xs)))) (present key xs) ++ blank key xs.
Proof.
  unfold nargsort. rewrite length_map, take_app.
  rewrite take_take by apply positions_in_range.
  rewrite take_map.
  rewrite (positions_by_key notna xs), (positions_by_key isna xs).
  reflexivity.
Qed.

(** A descending sort: reverse, [argsort], reverse again; blanks still last. *)
Lemma nargsort_take_desc (xs : list A) :
  take (nargsort argsort (map key xs) false) xs
  = rev (take (argsort (rev (floats (map key (present key xs)))))
              (rev (present key xs)))
    ++ blank key xs.
Proof.
  unfold nargsort. rewrite length_map, take_app, take_rev.
  rewrite take_take by (apply Forall_rev, positions_in_range).
  rewrite take_rev, take_map.
  rewrite (positions_by_key notna xs), (positions_by_key isna xs).
  reflexivity.
Qed.

Hypothesis argsort_sorts : argsort_ok argsort.

Lemma present_floats (xs : list A) :
  Forall (fun x => float_cell (key x) = true) xs ->
  floats (map key (present key xs)) = map (fun x => num (key x)) (present key xs).
Proof.
  intros H. unfold present.
  assert (E : map key (filter (fun x => notna (key x)) xs)
              = filter notna (map key xs)).
  { clear H. induction xs as [| x xs IH]; simpl; [reflexivity |].
    destruct (notna (key x)); simpl; now rewrite IH. }
  rewrite E, floats_nums, <- E, map_map; [reflexivity |].
  apply Forall_map. exact H.
Qed.

(** What [argsort] gives on any list whose values are [hs]. *)
Lemma argsort_take (ys : list A) :
  let hs := map (fun x => num (key x)) ys in
  Permutation (take (argsort hs) ys) ys /\
  StronglySorted Qle (map (fun x => num (key x)) (take (argsort hs) ys)).
Proof.
  intros hs. destruct (argsort_sorts hs) as [Hperm Hsorted]. split.
  - apply take_perm_seq. unfold hs in Hperm. now rewrite length_map in Hperm.
  - rewrite <- take_map. exact Hsorted.
Qed.

End NargsortFacts.

(** ** The insertion [argsort] meets [argsort_ok] *)

Lemma take_nth (A : Type) (d : A) (a : list nat) (l : list A) :
  Forall (fun i => i < List.length l) a ->
  take a l = map (fun i => nth i l d) a.
Proof.
  induction 1 as [| i a Hi _ IH]; simpl; [reflexivity |].
  destruct (nth_error l i) eqn:E.
  - rewrite (nth_error_nth _ _ d E), IH. reflexivity.
  - apply nth_error_None in E. lia.
Qed.

Lemma Qltb_false_le (a b : Q) : Qltb a b = false -> (b <= a)%Q.
Proof.
  unfold Qltb. intros H. apply negb_false_iff in H. now apply Qle_bool_iff.
Qed.

Lemma Qltb_true_lt (a b : Q) : Qltb a b = true -> (a < b)%Q.
Proof.
  unfold Qltb. intros H. apply negb_true_iff in H.
  apply Qnot_le_lt. intros Hle. apply Qle_bool_iff in Hle. congruence.
Qed.

Section Insertion.

Variable l : list Q.

Lemma insert_pos_perm (i : nat) (s : list nat) :
  Permutation (insert_pos l i s) (i :: s).
Proof.
  induction s as [| j s IH]; simpl; [apply Permutation_refl |].
  destruct (Qltb (nth i l 0%Q) (nth j l 0%Q)); [apply Permutation_refl |].
  rewrite IH. apply perm_swap.
Qed.

Lemma insert_pos_sorted (i : nat) (s : list nat) :
  StronglySorted (value_below l) s -> StronglySorted (value_below l) (insert_pos l i s).
Proof.
  induction 1 as [| j s Hs IH Hj]; simpl.
  - repeat constructor.
  - destruct (Qltb (nth i l 0%Q) (nth j l 0%Q)) eqn:E.
    + apply Qltb_true_lt, Qlt_le_weak in E.
      constructor; [now constructor |].
      constructor; [exact E |].
      eapply Forall_impl; [| exact Hj]. intros k Hk. unfold value_below in *.
      eapply Qle_trans; eassumption.
    + apply Qltb_false_le in E. constructor; [exact IH |].
      apply Forall_forall. intros k Hk.
      apply (Permutation_in _ (insert_pos_perm i s)) in Hk.
      destruct Hk as [<- | Hk]; [exact E |].
      rewrite Forall_forall in Hj. now apply Hj.
Qed.

Lemma insert_all (todo acc : list nat) :
  StronglySorted (value_below l) acc ->
  let out := fold_left (fun sorted i => insert_pos l i sorted) todo acc in
  Permutation out (acc ++ todo) /\ StronglySorted (value_below l) out.
Proof.
  revert acc. induction todo as [| i todo IH]; intros acc Hacc; simpl.
  - rewrite app_nil_r. split; [apply Permutation_refl | exact Hacc].
  - destruct (IH (insert_pos l i acc) (insert_pos_sorted i Hacc)) as [Hp Hs].
    split; [| exact Hs]. rewrite Hp, insert_pos_perm.
    apply Permutation_cons_app. apply Permutation_refl.
Qed.

End Insertion.

Lemma insertion_argsort_ok : argsort_ok insertion_argsort.
Proof.
  intros l. unfold insertion_argsort.
  destruct (insert_all (seq 0 (List.length l)) (SSorted_nil (value_below l)))
    as [Hp Hs].
  simpl in Hp. split; [exact Hp |].
  rewrite (take_nth 0%Q).
  - clear Hp. induction Hs as [| j s _ IH Hj]; simpl; constructor.
    + exact IH.
    + apply Forall_map. exact Hj.
  - apply Forall_forall. intros i Hi.
    apply (Permutation_in _ Hp) in Hi. apply in_seq in Hi. lia.
Qed.

(** ** Ascending against descending order (C3) *)

(** Two orderings of the same elements, both non-decreasing under a key that
    tells the elements apart, are the same list. *)
Lemma sorted_perm_unique (A : Type) (k : A -> Q) (l1 l2 : list A) :
  Permutation l1 l2 ->
  StronglySorted Qle (map k l1) ->
  StronglySorted Qle (map k l2) ->
  (forall x y, In x l1 -> In y l1 -> (k x == k y)%Q -> x = y) ->
  l1 = l2.
Proof.
  revert l2. induction l1 as [| a l1 IH]; intros l2 Hp H1 H2 Hinj.
  - apply Permutation_nil in Hp. now subst.
  - destruct l2 as [| b l2].
    + apply Permutation_sym, Permutation_nil in Hp. discriminate.
    + simpl in H1, H2.
      apply StronglySorted_inv in H1. destruct H1 as [H1 Ha].
      apply StronglySorted_inv in H2. destruct H2 as [H2 Hb].
      rewrite Forall_map, Forall_forall in Ha, Hb.
      assert (Hab : a = b).
      { assert (Ia : In a (b :: l2))
          by (apply (Permutation_in _ Hp); now left).
        assert (Ib : In b (a :: l1))
          by (apply (Permutation_in _ (Permutation_sym Hp)); now left).
        destruct Ia as [-> | Ia]; [reflexivity |].
        destruct Ib as [-> | Ib]; [reflexivity |].
        apply Hinj; [now left | now right |].
        apply Qle_antisym; [now apply Ha | now apply Hb]. }
      subst b. f_equal. apply IH; trivial.
      * eapply Permutation_cons_inv. exact Hp.
      * intros x y Hx Hy. apply Hinj; now right.
Qed.

Lemma present_all (A : Type) (key : A -> cell) (xs : list A) :
  Forall (fun x => notna (key x) = true) xs ->
  present key xs = xs /\ blank key xs = [].
Proof.
  unfold present, blank. induction 1 as [| x xs Hx _ [IH1 IH2]]; simpl.
  - split; reflexivity.
  - rewrite Hx. unfold notna in Hx. apply negb_true_iff in Hx. rewrite Hx.
    now rewrite IH1, IH2.
Qed.

(** C3, as amended: when every row of the city-filtered set has a height and
    no two rows have the same height, the descending sort lists the rows in
    exactly the reverse of the ascending order. *)
Theorem sort_values_reversed (argsort : list Q -> list nat) (i : nat)
    (filtered_data : DataFrame) :
  argsort_ok argsort ->
  (forall r, In r (rows filtered_data) -> exists q, at_loc i r = Num q) ->
  (forall r1 r2, In r1 (rows filtered_data) -> In r2 (rows filtered_data) ->
                 (num (at_loc i r1) == num (at_loc i r2))%Q -> r1 = r2) ->
  rows (sort_values_at argsort i false filtered_data)
  = rev (rows (sort_values_at argsort i true filtered_data)).
Proof.
  intros Hok Hnum Hinj. unfold sort_values_at. simpl.
  set (xs := rows filtered_data) in *.
  rewrite nargsort_take_asc, nargsort_take_desc.
  assert (Hnotna : Forall (fun r => notna (at_loc i r) = true) xs).
  { apply Forall_forall. intros r Hr. destruct (Hnum r Hr) as [q ->]. reflexivity. }
  assert (Hfloat : Forall (fun r => float_cell (at_loc i r) = true) xs).
  { apply Forall_forall. intros r Hr. destruct (Hnum r Hr) as [q ->]. reflexivity. }
  rewrite (present_floats (at_loc i) Hfloat).
  destruct (present_all (at_loc i) Hnotna) as [-> ->].
  rewrite !app_nil_r, <- map_rev. f_equal.
  destruct (argsort_take (at_loc i) Hok (rev xs)) as [Pd Sd].
  destruct (argsort_take (at_loc i) Hok xs) as [Pa Sa].
  apply sorted_perm_unique with (k := fun r : Row => num (at_loc i r)); trivial.
  - rewrite Pd, Pa. apply Permutation_sym, Permutation_rev.
  - intros x y Hx Hy. apply Hinj.
    + apply (Permutation_in _ Pd), in_rev in Hx. exact Hx.
    + apply (Permutation_in _ Pd), in_rev in Hy. exact Hy.
Qed.

Lemma sort_values_reversed_witness :
  rows (sort_values_at insertion_argsort 4 false Tables.three)
  = rev (rows (sort_values_at insertion_argsort 4 true Tables.three)).
Proof.
  apply (@sort_values_reversed insertion_argsort 4 Tables.three).
  - exact insertion_argsort_ok.
  - intros r [<- | [<- | [<- | []]]]; eexists; reflexivity.
  - intros r1 r2 [<- | [<- | [<- | []]]] [<- | [<- | [<- | []]]] H;
      try reflexivity; vm_compute in H; discriminate.
Defined.

(** Two rows of equal height come out in the same order in both directions,
    whatever [argsort] does with equal values. *)
Lemma twins_keep_order (argsort : list Q -> list nat) :
  argsort_ok argsort ->
  rows (sort_values_at argsort 4 false Tables.twins)
  = rows (sort_values_at argsort 4 true Tables.twins).
Proof.
  intros Hok. unfold sort_values_at.
  change (take (nargsort argsort (map (at_loc 4) (rows Tables.twins)) false)
               (rows Tables.twins)
          = take (nargsort argsort (map (at_loc 4) (rows Tables.twins)) true)
                 (rows Tables.twins)).
  rewrite nargsort_take_asc, nargsort_take_desc. simpl.
  destruct (Hok [200 # 1; 200 # 1]%Q) as [Hp _]. simpl in Hp.
  apply Permutation_sym, Permutation_length_2_inv in Hp.
  destruct Hp as [-> | ->]; reflexivity.
Qed.

(** A row without a height is last in both directions. *)
Lemma blank_height_stays_last (argsort : list Q -> list nat) :
  argsort_ok argsort ->
  rows (sort_values_at argsort 4 false Tables.gap) = rows Tables.gap /\
  rows (sort_values_at argsort 4 true Tables.gap) = rows Tables.gap.
Proof.
  intros Hok. unfold sort_values_at.
  change (take (nargsort argsort (map (at_loc 4) (rows Tables.gap)) false)
               (rows Tables.gap) = rows Tables.gap /\
          take (nargsort argsort (map (at_loc 4) (rows Tables.gap)) true)
               (rows Tables.gap) = rows Tables.gap).
  rewrite nargsort_take_asc, nargsort_take_desc. simpl.
  destruct (Hok [300 # 1]%Q) as [Hp _]. simpl in Hp.
  apply Permutation_sym, Permutation_length_1_inv in Hp. rewrite Hp.
  split; reflexivity.
Qed.

(** C3 as stated fails on two towers of equal height: descending is not the
    reverse of ascending. *)
Lemma sort_values_not_reversed :
  rows (sort_values_at insertion_argsort 4 false Tables.twins)
  <> rev (rows (sort_values_at insertion_argsort 4 true Tables.twins)).
Proof. vm_compute. discriminate. Qed.

(** ** A file that does not parse (C6) *)

(** C6: when [read_excel] fails on the uploaded file, the page holds the
    style, the title, the uploader and the error message and nothing else,
    and the run is stopped: no counts, table, map or chart is written, the
    pie chart at the end of the script included. *)
Theorem parse_failure_stops (file : Type) (read_excel : file -> string + table)
    (argsort : list Q -> list nat) (inp : Inputs file) (f : file) (e : string) :
  uploaded_file inp = Some f ->
  read_excel f = inl e ->
  script read_excel argsort inp
  = ([Markdown_style; Title "Skyscrapers Around the United States";
      File_uploader; Error_loading e],
     Stopped).
Proof.
  intros Hf He. unfold script, main_block, load_data.
  rewrite Hf, He. reflexivity.
Qed.

Lemma parse_failure_stops_witness :
  script Sheets.read insertion_argsort
         (mkInputs (Some (inl "File is not a zip file")) 0 Ascending 100)
  = ([Markdown_style; Title "Skyscrapers Around the United States";
      File_uploader; Error_loading "File is not a zip file"],
     Stopped).
Proof.
  apply (@parse_failure_stops _ Sheets.read insertion_argsort
           (mkInputs (Some (inl "File is not a zip file")) 0 Ascending 100)
           (inl "File is not a zip file") "File is not a zip file");
    reflexivity.
Defined.

(** ** The sample lines (C10) *)

(** C10: the sample section writes its heading and then one line for each of
    the first five rows of the filtered-by-height set, in the order of that
    set, hence at most five lines; a line carries the row's index label plus
    one, its name and its height. *)
Theorem sample_block_first_five (filtered_by_height : DataFrame) (n h : nat) :
  get_loc "Name" (columns filtered_by_height) = Some n ->
  get_loc "Height" (columns filtered_by_height) = Some h ->
  rows filtered_by_height <> [] ->
  let sample := firstn 5 (rows filtered_by_height) in
  sample_block filtered_by_height
  = (Subheader "Sample Skyscraper Data"
       :: map (fun r => Write_sample (label r + 1) (at_loc n r) (at_loc h r))
              sample,
     Done tt)
  /\ List.length sample <= 5
  /\ sample <> [].
Proof.
  intros Hn Hh Hne sample. split; [| split].
  - unfold sample_block. rewrite bind_emit.
    change (rows (head 5 filtered_by_height)) with sample.
    destruct sample as [| r sample'] eqn:E; [reflexivity |].
    rewrite (getcol_found _ _ Hn), bind_ret.
    rewrite (getcol_found _ _ Hh), bind_ret.
    rewrite write_all_page. reflexivity.
  - apply firstn_le_length.
  - unfold sample. destruct (rows filtered_by_height); [now elim Hne | discriminate].
Qed.

Lemma sample_block_first_five_witness :
  let sample := firstn 5 (rows Tables.seven) in
  sample_block Tables.seven
  = (Subheader "Sample Skyscraper Data"
       :: map (fun r => Write_sample (label r + 1) (at_loc 0 r) (at_loc 4 r))
              sample,
     Done tt)
  /\ List.length sample <= 5
  /\ sample <> [].
Proof.
  apply (@sample_block_first_five Tables.seven 0 4);
    [reflexivity | reflexivity | discriminate].
Defined.

(** ** Sorted rows *)

Lemma StronglySorted_snoc (A : Type) (R : A -> A -> Prop) (l : list A) (a : A) :
  StronglySorted R l -> Forall (fun x => R x a) l -> StronglySorted R (l ++ [a]).
Proof.
  induction 1 as [| b l Hl IH Hb]; intros Ha; simpl.
  - repeat constructor.
  - apply Forall_cons_iff in Ha. destruct Ha as [Hba Ha].
    constructor; [now apply IH |].
    apply Forall_app. split; [exact Hb | now constructor].
Qed.

Lemma StronglySorted_rev (A : Type) (R : A -> A -> Prop) (l : list A) :
  StronglySorted R l -> StronglySorted (fun a b => R b a) (rev l).
Proof.
  induction 1 as [| a l Hl IH Ha]; simpl; [constructor |].
  apply StronglySorted_snoc; [exact IH |].
  apply Forall_rev. exact Ha.
Qed.

Lemma StronglySorted_filter_map (A B : Type) (R : B -> B -> Prop) (k : A -> B)
    (p : A -> bool) (l : list A) :
  StronglySorted R (map k l) -> StronglySorted R (map k (filter p l)).
Proof.
  induction l as [| a l IH]; simpl; intros H; [constructor |].
  apply StronglySorted_inv in H. destruct H as [Hl Ha].
  destruct (p a); simpl; [| now apply IH].
  constructor; [now apply IH |].
  rewrite Forall_map in *. rewrite Forall_forall in *.
  intros x Hx. apply Ha. apply filter_In in Hx. tauto.
Qed.

Lemma subseq_filter (A : Type) (p : A -> bool) (l : list A) :
  subseq (filter p l) l.
Proof.
  induction l as [| a l IH]; simpl; [constructor |].
  destruct (p a); now constructor.
Qed.

Lemma present_blank_perm (A : Type) (key : A -> cell) (xs : list A) :
  Permutation (present key xs ++ blank key xs) xs.
Proof.
  unfold present, blank, notna. induction xs as [| x xs IH]; simpl; [constructor |].
  destruct (isna (key x)); simpl.
  - apply Permutation_sym, Permutation_cons_app, Permutation_sym, IH.
  - now constructor.
Qed.

(** What [nargsort] does to any list sorted through it: the elements with a
    value come first, in the order of the direction, the others last. *)
Lemma nargsort_ordered (argsort : list Q -> list nat) (A : Type)
    (key : A -> cell) (o : Order) (xs : list A) :
  argsort_ok argsort ->
  Forall (fun x => float_cell (key x) = true) xs ->
  exists sorted : list A,
    take (nargsort argsort (map key xs) (is_ascending o)) xs
    = sorted ++ blank key xs /\
    Permutation sorted (present key xs) /\
    StronglySorted (in_order o) (map (fun x => num (key x)) sorted).
Proof.
  intros Hok Hfloat. destruct o; cbn [is_ascending].
  - rewrite nargsort_take_asc, (present_floats key Hfloat).
    destruct (argsort_take key Hok (present key xs)) as [P S].
    eexists. split; [reflexivity |]. split; [exact P | exact S].
  - rewrite nargsort_take_desc, (present_floats key Hfloat), <- map_rev.
    destruct (argsort_take key Hok (rev (present key xs))) as [P S].
    eexists. split; [reflexivity |]. split.
    + rewrite <- Permutation_rev, P. apply Permutation_sym, Permutation_rev.
    + rewrite map_rev. apply StronglySorted_rev in S. exact S.
Qed.

(** The rows of a sorted frame: the rows with a height, in the order of the
    direction, then the rows without one. *)
Lemma sort_values_rows (argsort : list Q -> list nat) (i : nat) (o : Order)
    (df : DataFrame) :
  argsort_ok argsort ->
  float_column i df ->
  exists sorted : list Row,
    rows (sort_values_at argsort i (is_ascending o) df)
    = sorted ++ blank (at_loc i) (rows df) /\
    Permutation sorted (present (at_loc i) (rows df)) /\
    StronglySorted (in_order o) (map (fun r => num (at_loc i r)) sorted).
Proof.
  intros Hok Hfloat. unfold sort_values_at. cbn [rows].
  now apply nargsort_ordered.
Qed.

Lemma sort_values_perm (argsort : list Q -> list nat) (i : nat) (o : Order)
    (df : DataFrame) :
  argsort_ok argsort ->
  float_column i df ->
  Permutation (rows (sort_values_at argsort i (is_ascending o) df)) (rows df).
Proof.
  intros Hok Hfloat.
  destruct (sort_values_rows o Hok Hfloat) as (sorted & -> & P & _).
  rewrite P. apply present_blank_perm.
Qed.

(** ** The renamed columns *)

Lemma height_columns_head (df : DataFrame) (h : string) (rest : list string) :
  height_columns df = h :: rest ->
  names_height h = true /\
  exists i, get_loc h (columns df) = Some i.
Proof.
  intros H. split.
  - assert (Hin : In h (height_columns df)) by (rewrite H; now left).
    apply filter_In in Hin. exact (proj2 Hin).
  - destruct (get_loc_first _ _ H) as (i & Hi & _). now exists i.
Qed.

Lemma display_name_detected (h : string) :
  names_height h = true -> rename_label (display_names h) h = "Height".
Proof.
  intros Ph. unfold display_names, rename_label.
  destruct (String.eqb h "name") eqn:E1.
  { apply String.eqb_eq in E1. subst h. discriminate Ph. }
  destruct (String.eqb h "location.city") eqn:E2.
  { apply String.eqb_eq in E2. subst h. discriminate Ph. }
  now rewrite String.eqb_refl.
Qed.

Lemma display_name_other (h c : string) :
  names_height c = false -> c <> h ->
  String.eqb "Height" (rename_label (display_names h) c) = false.
Proof.
  intros Pc Hch. unfold display_names, rename_label.
  destruct (String.eqb c "name"); [reflexivity |].
  destruct (String.eqb c "location.city"); [reflexivity |].
  apply String.eqb_neq in Hch. rewrite Hch.
  apply String.eqb_neq. intros <-. discriminate Pc.
Qed.

(** After the renaming, the label "Height" is at the place of the detected
    column: a label "Height" cannot come before the first label that contains
    "height". *)
Lemma get_loc_Height (cols : list string) (h : string) (rest : list string) :
  filter names_height cols = h :: rest ->
  get_loc "Height" (map (rename_label (display_names h)) cols) = get_loc h cols.
Proof.
  induction cols as [| c cols IH]; cbn [filter map get_loc]; [discriminate |].
  destruct (names_height c) eqn:Pc.
  - intros [= -> _].
    rewrite (display_name_detected _ Pc), !String.eqb_refl. reflexivity.
  - intros H. specialize (IH H).
    assert (Ph : names_height h = true).
    { assert (Hin : In h (filter names_height cols)) by (rewrite H; now left).
      apply filter_In in Hin. tauto. }
    assert (Hch : c <> h) by congruence.
    rewrite (display_name_other Pc Hch), IH.
    apply not_eq_sym, String.eqb_neq in Hch. now rewrite Hch.
Qed.

Lemma renamed_In (mapping : list (string * string)) (old new : string)
    (cols : list string) :
  rename_label mapping old = new ->
  In old cols ->
  exists j, get_loc new (map (rename_label mapping) cols) = Some j.
Proof.
  intros <- H. apply get_loc_In, in_map, H.
Qed.

Lemma display_name_Name (h : string) :
  rename_label (display_names h) "name" = "Name".
Proof. reflexivity. Qed.

Lemma display_name_Location (h : string) :
  rename_label (display_names h) "location.city" = "Location".
Proof. reflexivity. Qed.

(** Labels that are all different. *)
Lemma existsb_eqb_In (c : string) (cols : list string) :
  existsb (String.eqb c) cols = true <-> In c cols.
Proof.
  rewrite existsb_exists. split.
  - intros (x & Hx & E). apply String.eqb_eq in E. now subst x.
  - intros H. exists c. split; [exact H | apply String.eqb_refl].
Qed.

Lemma all_different_iff (cols : list string) :
  all_different cols = true <-> NoDup cols.
Proof.
  induction cols as [| c cols IH]; simpl.
  - split; [constructor | reflexivity].
  - rewrite andb_true_iff, negb_true_iff, IH. split.
    + intros [Hc Hnd]. constructor; [| exact Hnd].
      intros Hin. apply existsb_eqb_In in Hin. congruence.
    + intros Hnd. inversion Hnd as [| ? ? Hc Hnd']; subst. split; [| exact Hnd'].
      destruct (existsb (String.eqb c) cols) eqn:E; [| reflexivity].
      apply existsb_eqb_In in E. now elim Hc.
Qed.

Lemma write_frame_different (e : DataFrame -> element) (df : DataFrame) :
  NoDup (columns df) -> write_frame e df = emit (e df).
Proof.
  intros H. apply all_different_iff in H. unfold write_frame. now rewrite H.
Qed.

Lemma write_frame_duplicate (e : DataFrame -> element) (df : DataFrame) :
  ~ NoDup (columns df) ->
  write_frame e df = raise (ValueError "Duplicate column names found").
Proof.
  intros H. unfold write_frame.
  destruct (all_different (columns df)) eqn:E; [| reflexivity].
  apply all_different_iff in E. now elim H.
Qed.

Lemma get_locs_notin (c : string) (cols : list string) :
  ~ In c cols -> get_locs c cols = [].
Proof.
  induction cols as [| c' cols IH]; simpl; [reflexivity |].
  intros H. destruct (String.eqb c c') eqn:E.
  - apply String.eqb_eq in E. elim H. now left.
  - rewrite IH; [reflexivity |]. intros Hin. apply H. now right.
Qed.

(** Under labels that are all different a label names one column. *)
Lemma get_locs_one (c : string) (cols : list string) (i : nat) :
  NoDup cols -> get_loc c cols = Some i -> get_locs c cols = [i].
Proof.
  intros Hnd. revert i.
  induction Hnd as [| c' cols Hc Hnd IH]; simpl; intros i; [discriminate |].
  destruct (String.eqb c c') eqn:E.
  - apply String.eqb_eq in E. subst c'. intros [= <-].
    now rewrite (get_locs_notin _ _ Hc).
  - destruct (get_loc c cols) as [j |]; [| discriminate].
    intros [= <-]. now rewrite (IH j eq_refl).
Qed.

Lemma getcols_one (c : string) (df : DataFrame) (i : nat) :
  NoDup (columns df) -> get_loc c (columns df) = Some i ->
  getcols c df = ret [i].
Proof.
  intros Hnd Hi. unfold getcols. now rewrite (get_locs_one _ Hnd Hi).
Qed.

(** With the three columns in place, each once, the sort block writes the
    caption and the table of the three display columns, and returns the
    sorted frame. *)
Lemma sort_block_done (argsort : list Q -> list nat) (h : string)
    (rest : list string) (sel : option cell) (o : Order) (fd : DataFrame) :
  height_columns fd = h :: rest ->
  In "name" (columns fd) ->
  In "location.city" (columns fd) ->
  NoDup (map (rename_label (display_names h)) (columns fd)) ->
  exists (i n c : nat) (shown : DataFrame),
    get_loc h (columns fd) = Some i /\
    let sorted_data :=
      rename (display_names h) (sort_values_at argsort i (is_ascending o) fd) in
    get_loc "Height" (columns sorted_data) = Some i /\
    get_loc "Name" (columns sorted_data) = Some n /\
    get_loc "Location" (columns sorted_data) = Some c /\
    sort_block argsort (Some h) sel o fd
    = ([Radio; Caption_sorted sel o; Write_table shown], Done sorted_data).
Proof.
  intros Hh Hname Hcity Hnd.
  destruct (height_columns_head _ Hh) as (_ & i & Hi).
  destruct (@renamed_In _ _ _ _ (display_name_Name h) Hname) as [n Hn].
  destruct (@renamed_In _ _ _ _ (display_name_Location h) Hcity) as [c Hc].
  assert (HH : get_loc "Height" (map (rename_label (display_names h)) (columns fd))
               = Some i).
  { unfold height_columns in Hh. fold names_height in Hh.
    rewrite (get_loc_Height _ Hh). exact Hi. }
  exists i, n, c. eexists. split; [exact Hi |].
  intros sorted_data. repeat split; try assumption.
  unfold sort_block. rewrite bind_emit.
  rewrite (getcol_found _ _ Hi), bind_ret.
  fold (display_names h). fold sorted_data.
  rewrite bind_emit. unfold project. cbn [locate].
  rewrite (@getcols_one "Name" sorted_data n Hnd Hn), bind_ret.
  rewrite (@getcols_one "Location" sorted_data c Hnd Hc), bind_ret.
  rewrite (@getcols_one "Height" sorted_data i Hnd HH), !bind_ret.
  reflexivity.
Qed.

(** ** The height filter (C9) *)

Lemma ge_int_iff (c : cell) (m : Z) :
  ge_int c m = true <-> exists q, c = Num q /\ (inject_Z m <= q)%Q.
Proof.
  unfold ge_int. destruct c as [| q | s]; simpl.
  - split; [discriminate | intros (q & H & _); discriminate].
  - rewrite Qle_bool_iff. split.
    + intros H. now exists q.
    + intros (q' & [= <-] & H). exact H.
  - split; [discriminate | intros (q & H & _); discriminate].
Qed.

Lemma filter_blank_ge (i : nat) (m : Z) (xs : list Row) :
  filter (fun r => ge_int (at_loc i r) m) (blank (at_loc i) xs) = [].
Proof.
  unfold blank. induction xs as [| r xs IH]; simpl; [reflexivity |].
  destruct (at_loc i r) eqn:E; simpl; try exact IH.
  rewrite E. exact IH.
Qed.

(** C9: the filtered-by-height set holds exactly the rows of the sorted
    city-filtered set whose Height is a number not below the chosen minimum;
    it lists them in the order they have in the sorted set, which is the
    order of the chosen direction.  The set is one that reaches line 192:
    its labels are all different after the renaming of lines 93-97 (so that
    Height names one column and line 104 has written the table), and its
    height column is a float column. *)
Theorem filter_by_height_spec (argsort : list Q -> list nat) (h : string)
    (rest : list string) (selected_city : option cell) (o : Order)
    (filtered_data : DataFrame) (i : nat) (m : Z) :
  argsort_ok argsort ->
  height_columns filtered_data = h :: rest ->
  In "name" (columns filtered_data) ->
  In "location.city" (columns filtered_data) ->
  NoDup (map (rename_label (display_names h)) (columns filtered_data)) ->
  get_loc h (columns filtered_data) = Some i ->
  float_column i filtered_data ->
  exists sorted_data filtered_by_height : DataFrame,
    result (sort_block argsort (Some h) selected_city o filtered_data)
    = Done sorted_data /\
    filter_by_height sorted_data m = ret filtered_by_height /\
    get_loc "Height" (columns sorted_data) = Some i /\
    Permutation (rows sorted_data) (rows filtered_data) /\
    (forall r, In r (rows filtered_by_height) <->
               In r (rows sorted_data) /\
               exists q, at_loc i r = Num q /\ (inject_Z m <= q)%Q) /\
    subseq (rows filtered_by_height) (rows sorted_data) /\
    StronglySorted (in_order o)
      (map (fun r => num (at_loc i r)) (rows filtered_by_height)).
Proof.
  intros Hok Hh Hname Hcity Hnd Hi Hfloat.
  destruct (sort_block_done argsort selected_city o _ Hh Hname Hcity Hnd)
    as (i' & n & c & shown & Hi' & HH & _ & _ & Hrun).
  rewrite Hi in Hi'. injection Hi' as <-.
  set (sorted_data :=
         rename (display_names h)
                (sort_values_at argsort i (is_ascending o) filtered_data)) in *.
  exists sorted_data,
    (select (fun r => ge_int (at_loc i r) m) sorted_data).
  split; [now rewrite Hrun |].
  split; [unfold filter_by_height; now rewrite (getcol_found _ _ HH), bind_ret |].
  split; [exact HH |].
  split; [apply sort_values_perm; assumption |].
  split; [| split].
  - intros r. cbn [select rows]. rewrite filter_In, ge_int_iff. reflexivity.
  - apply subseq_filter.
  - destruct (sort_values_rows o Hok Hfloat)
      as (sorted & Hrows & _ & Hsorted).
    cbn [select rows]. change (rows sorted_data)
      with (rows (sort_values_at argsort i (is_ascending o) filtered_data)).
    rewrite Hrows, filter_app, filter_blank_ge, app_nil_r.
    now apply StronglySorted_filter_map.
Qed.

Lemma filter_by_height_spec_witness :
  exists sorted_data filtered_by_height : DataFrame,
    result (sort_block insertion_argsort (Some "statistics.height")
                       (Some (Str "Chicago")) Descending Tables.three)
    = Done sorted_data /\
    filter_by_height sorted_data 200 = ret filtered_by_height /\
    get_loc "Height" (columns sorted_data) = Some 4 /\
    Permutation (rows sorted_data) (rows Tables.three) /\
    (forall r, In r (rows filtered_by_height) <->
               In r (rows sorted_data) /\
               exists q, at_loc 4 r = Num q /\ (inject_Z 200 <= q)%Q) /\
    subseq (rows filtered_by_height) (rows sorted_data) /\
    StronglySorted (in_order Descending)
      (map (fun r => num (at_loc 4 r)) (rows filtered_by_height)).
Proof.
  apply (@filter_by_height_spec insertion_argsort "statistics.height" []
           (Some (Str "Chicago")) Descending Tables.three 4 200).
  - exact insertion_argsort_ok.
  - reflexivity.
  - simpl. tauto.
  - simpl. tauto.
  - apply all_different_iff. reflexivity.
  - reflexivity.
  - repeat constructor.
Defined.

(** ** The slider (C8) *)

Lemma fold_Qmaxb (vs : list Q) (v : Q) :
  let top := fold_left Qmaxb vs v in
  In top (v :: vs) /\ Forall (fun x => (x <= top)%Q) (v :: vs).
Proof.
  revert v. induction vs as [| w vs IH]; intros v; simpl.
  - split; [now left | repeat constructor; apply Qle_refl].
  - destruct (IH (Qmaxb v w)) as [Hin Hall]. simpl in Hin.
    apply Forall_cons_iff in Hall. destruct Hall as [Hm Hall].
    unfold Qmaxb in *. destruct (Qltb v w) eqn:E.
    + split; [tauto |]. constructor; [| now constructor].
      apply Qltb_true_lt, Qlt_le_weak in E. eapply Qle_trans; eassumption.
    + split; [tauto |]. constructor; [exact Hm |]. constructor; [| exact Hall].
      apply Qltb_false_le in E. eapply Qle_trans; eassumption.
Qed.

Lemma floats_In (l : list cell) (q : Q) : In q (floats l) <-> In (Num q) l.
Proof.
  induction l as [| c l IH]; simpl; [tauto |].
  destruct c as [| p | s]; simpl; rewrite IH.
  - split; [tauto | intros [H | H]; [discriminate | exact H]].
  - split; intros [H | H]; try tauto; [left; now f_equal | left; now injection H].
  - split; [tauto | intros [H | H]; [discriminate | exact H]].
Qed.

(** [Series.max()] returns one of the numbers of the column, and none of the
    numbers is above it. *)
Lemma max_spec (l : list cell) (top : Q) :
  max l = Some top ->
  In (Num top) l /\ forall q, In (Num q) l -> (q <= top)%Q.
Proof.
  unfold max. destruct (floats l) as [| v vs] eqn:E; [discriminate |].
  intros [= <-]. destruct (fold_Qmaxb vs v) as [Hin Hall].
  rewrite <- E in Hin, Hall. split.
  - now apply floats_In.
  - intros q Hq. rewrite Forall_forall in Hall. now apply Hall, floats_In.
Qed.

Lemma max_some (l : list cell) (q : Q) :
  In (Num q) l -> exists top, max l = Some top.
Proof.
  intros H. apply floats_In in H. unfold max.
  destruct (floats l) as [| v vs]; [destruct H | eexists; reflexivity].
Qed.

(** [int] cuts the fraction off, toward zero. *)
Lemma int_spec (q : Q) :
  ((0 <= q)%Q -> (inject_Z (int q) <= q)%Q /\ (q < inject_Z (int q + 1))%Q) /\
  ((q <= 0)%Q -> (q <= inject_Z (int q))%Q /\ (inject_Z (int q - 1) < q)%Q).
Proof.
  destruct q as [a b]. unfold int, Qle, Qlt, inject_Z. simpl.
  pose proof (Z.quot_rem' a (Zpos b)) as Hqr.
  split; intros Ha; rewrite Z.mul_1_r in Ha.
  - pose proof (Z.rem_bound_pos a (Zpos b) Ha (Pos2Z.is_pos b)). nia.
  - pose proof (Z.rem_bound_pos_neg a (Zpos b) (Pos2Z.is_pos b) Ha). nia.
Qed.

Lemma column_values_In (i : nat) (df : DataFrame) (c : cell) :
  In c (values (column_at i df)) <-> exists r, In r (rows df) /\ at_loc i r = c.
Proof.
  unfold values, column_at. rewrite map_map. simpl. rewrite in_map_iff.
  split; intros (r & H1 & H2); exists r; tauto.
Qed.

(** C8, as amended: for a city-filtered set with a float height column and at
    least one height, the slider is created with minimum 0, default 100 and,
    as maximum, the largest height of the set cut to an integer toward zero. *)
Theorem slider_args_spec (h : string) (filtered_data : DataFrame) (i : nat) :
  get_loc h (columns filtered_data) = Some i ->
  float_column i filtered_data ->
  (exists r q, In r (rows filtered_data) /\ at_loc i r = Num q) ->
  exists top : Q,
    slider_args h filtered_data = ret (Slider 0 (int top) 100) /\
    (exists r, In r (rows filtered_data) /\ at_loc i r = Num top) /\
    (forall r q, In r (rows filtered_data) -> at_loc i r = Num q ->
                 (q <= top)%Q) /\
    ((0 <= top)%Q ->
     (inject_Z (int top) <= top)%Q /\ (top < inject_Z (int top + 1))%Q) /\
    ((top <= 0)%Q ->
     (top <= inject_Z (int top))%Q /\ (inject_Z (int top - 1) < top)%Q).
Proof.
  intros Hi _ (r & q & Hr & Hq).
  destruct (@max_some (values (column_at i filtered_data)) q) as [top Htop].
  { apply column_values_In. now exists r. }
  exists top. destruct (max_spec _ Htop) as [Hin Hle].
  split; [| split; [| split]].
  - unfold slider_args. rewrite (getcol_found _ _ Hi), bind_ret, Htop.
    reflexivity.
  - now apply column_values_In.
  - intros r' q' Hr' Hq'. apply Hle, column_values_In. now exists r'.
  - apply int_spec.
Qed.

Lemma slider_args_spec_witness :
  exists top : Q,
    slider_args "statistics.height" Tables.three = ret (Slider 0 (int top) 100) /\
    (exists r, In r (rows Tables.three) /\ at_loc 4 r = Num top) /\
    (forall r q, In r (rows Tables.three) -> at_loc 4 r = Num q ->
                 (q <= top)%Q) /\
    ((0 <= top)%Q ->
     (inject_Z (int top) <= top)%Q /\ (top < inject_Z (int top + 1))%Q) /\
    ((top <= 0)%Q ->
     (top <= inject_Z (int top))%Q /\ (inject_Z (int top - 1) < top)%Q).
Proof.
  apply (@slider_args_spec "statistics.height" Tables.three 4).
  - reflexivity.
  - repeat constructor.
  - exists (Tables.row 0 "A" "Chicago" (Num (300 # 1))), (300 # 1)%Q.
    split; [now left | reflexivity].
Defined.

(** C8 as stated fails on a set whose tallest tower is 301.1 m high: the
    slider ends at 301. *)
Lemma slider_max_not_max_height :
  slider_args "statistics.height" Tables.three = ret (Slider 0 301 100) /\
  max (values (column_at 4 Tables.three)) = Some (3011 # 10)%Q /\
  ~ (inject_Z 301 == 3011 # 10)%Q.
Proof.
  split; [reflexivity |]. split; [reflexivity |].
  intros H. vm_compute in H. discriminate.
Qed.

(** ** The key highlights (C4) *)

Lemma first_max_cons (i : Z) (c : cell) (s : Series) (l : Z) (top : Q) :
  first_max s l top ->
  (forall q, c = Num q -> (q < top)%Q) ->
  first_max ((i, c) :: s) l top.
Proof.
  intros (s1 & s2 & -> & H1 & H2) Hc.
  exists ((i, c) :: s1), s2. split; [reflexivity |]. split; [| exact H2].
  intros j q [[= <- ->] | Hin]; [now apply Hc | now apply (H1 j)].
Qed.

Lemma argmax_from_spec (s : Series) (best : Z) (v : Q) :
  let l := argmax_from best v s in
  (l = best /\ forall j q, In (j, Num q) s -> (q <= v)%Q) \/
  (exists top, first_max s l top /\ (v < top)%Q).
Proof.
  revert best v. induction s as [| [i c] s IH]; intros best v; simpl.
  - left. split; [reflexivity | intros j q []].
  - destruct c as [| q | t]; simpl.
    + destruct (IH best v) as [[-> H] | (top & Hfm & Hlt)].
      * left. split; [reflexivity |].
        intros j q [[=] | Hin]. now apply (H j).
      * right. exists top. split; [| exact Hlt].
        apply first_max_cons; [exact Hfm | discriminate].
    + destruct (Qltb v q) eqn:E.
      * apply Qltb_true_lt in E. right.
        destruct (IH i q) as [[-> H] | (top & Hfm & Hlt)].
        -- exists q. split; [| exact E].
           exists [], s. split; [reflexivity |]. split; [intros j p [] | exact H].
        -- exists top. split; [| eapply Qlt_trans; eassumption].
           apply first_max_cons; [exact Hfm |]. now intros p [= <-].
      * apply Qltb_false_le in E.
        destruct (IH best v) as [[-> H] | (top & Hfm & Hlt)].
        -- left. split; [reflexivity |].
           intros j p [[= <- <-] | Hin]; [exact E | now apply (H j)].
        -- right. exists top. split; [| exact Hlt].
           apply first_max_cons; [exact Hfm |]. intros p [= <-].
           eapply Qle_lt_trans; eassumption.
    + destruct (IH best v) as [[-> H] | (top & Hfm & Hlt)].
      * left. split; [reflexivity |].
        intros j q [[=] | Hin]. now apply (H j).
      * right. exists top. split; [| exact Hlt].
        apply first_max_cons; [exact Hfm | discriminate].
Qed.

(** [idxmax] finds the first occurrence of the largest number, provided the
    column holds a number at all. *)
Lemma idxmax_spec (s : Series) :
  (exists j q, In (j, Num q) s) ->
  exists l top, idxmax s = Some l /\ first_max s l top.
Proof.
  induction s as [| [i c] s IH]; intros (j & q & Hin); [destruct Hin |].
  assert (Hrest : forall d, (forall p, d <> Num p) -> c = d ->
            exists l top, idxmax ((i, c) :: s) = Some l
                          /\ first_max ((i, c) :: s) l top).
  { intros d Hd ->. destruct Hin as [[= _ E] | Hin]; [now elim (Hd q) |].
    destruct IH as (l & top & Hl & Hfm); [now exists j, q |].
    exists l, top. split.
    - destruct d; simpl; try exact Hl. now elim (Hd q0).
    - apply first_max_cons; [exact Hfm |]. intros p E. now elim (Hd p). }
  destruct c as [| p | t].
  - apply (Hrest NA); [discriminate | reflexivity].
  - simpl. destruct (argmax_from_spec s i p) as [[E H] | (top & Hfm & Hlt)].
    + exists i, p. rewrite E. split; [reflexivity |].
      exists [], s. split; [reflexivity |]. split; [intros k r [] | exact H].
    + exists (argmax_from i p s), top. split; [reflexivity |].
      apply first_max_cons; [exact Hfm |]. now intros r [= <-].
  - apply (Hrest (Str t)); [discriminate | reflexivity].
Qed.

Lemma loc_found (before after : list Row) (r : Row) (cols : list string) :
  NoDup (map label (before ++ r :: after)) ->
  loc (label r) (mkDF cols (before ++ r :: after)) = Some r.
Proof.
  unfold loc. cbn [rows]. induction before as [| x before IH]; simpl; intros H.
  - now rewrite Z.eqb_refl.
  - apply NoDup_cons_iff in H. destruct H as [Hx H].
    destruct (Z.eqb (label x) (label r)) eqn:E; [| now apply IH].
    apply Z.eqb_eq in E. elim Hx. rewrite E, map_app. simpl.
    apply in_or_app. right. now left.
Qed.

Lemma floats_Num (l : list Q) : floats (map Num l) = l.
Proof. induction l as [| q l IH]; simpl; now rewrite ?IH. Qed.

(** The numbers of a float column are its cells with the blanks left out. *)
Lemma skipping_floats (cs : list cell) :
  Forall (fun c => float_cell c = true) cs -> skipping_blanks cs (floats cs).
Proof.
  induction 1 as [| c cs Hc _ IH]; simpl; [constructor |].
  destruct c as [| q | s]; simpl; [| | discriminate Hc]; now constructor.
Qed.

(** [Series.mean] is the arithmetic mean of the numbers of the column, and
    blank when the column holds no number. *)
Lemma mean_arithmetic (cs : list cell) :
  Forall (fun c => float_cell c = true) cs ->
  exists qs,
    skipping_blanks cs qs /\
    match qs with
    | [] => mean cs = None
    | _ :: _ => exists m, mean cs = Some m /\ (m == arithmetic_mean qs)%Q
    end.
Proof.
  intros H. exists (floats cs). split; [now apply skipping_floats |].
  unfold mean. destruct (floats cs) as [| v vs]; [reflexivity |].
  eexists. split; [reflexivity |]. reflexivity.
Qed.


(** C4, as amended: on a city-filtered set with a name column, a float
    height column and at least one height, the Key Highlights block shows the
    number of rows of the set, the name and height of the first row that
    attains the largest height, and the arithmetic mean of the heights of
    the set: the sum of the heights present divided by their number (rows
    without a height are skipped by the mean and by the maximum). *)
Theorem key_highlights_spec (h : string) (filtered_data : DataFrame)
    (i n : nat) :
  get_loc h (columns filtered_data) = Some i ->
  get_loc "name" (columns filtered_data) = Some n ->
  float_column i filtered_data ->
  NoDup (map label (rows filtered_data)) ->
  (exists r q, In r (rows filtered_data) /\ at_loc i r = Num q) ->
  exists (before after : list Row) (tallest : Row) (top : Q)
         (heights : list Q) (average_height : Q),
    rows filtered_data = before ++ tallest :: after /\
    at_loc i tallest = Num top /\
    (forall r q, In r before -> at_loc i r = Num q -> (q < top)%Q) /\
    (forall r q, In r after -> at_loc i r = Num q -> (q <= top)%Q) /\
    skipping_blanks (map (at_loc i) (rows filtered_data)) heights /\
    (average_height == arithmetic_mean heights)%Q /\
    highlights_block (Some h) filtered_data
    = ([Subheader "Key Highlights";
        Highlights (List.length (rows filtered_data))
                   (at_loc n tallest) (Num top) (Some average_height)],
       Done tt).
Proof.
  intros Hi Hn Hfloat Hlabels (r0 & q0 & Hr0 & Hq0).
  destruct (@idxmax_spec (column_at i filtered_data)) as (l & top & Hl & Hfm).
  { exists (label r0), q0. unfold column_at. apply in_map_iff.
    exists r0. now rewrite Hq0. }
  destruct Hfm as (s1 & s2 & Hs & H1 & H2).
  unfold column_at in Hs. apply map_eq_app in Hs.
  destruct Hs as (before & rest & Hrows & Hb & Hrest).
  apply map_eq_cons in Hrest. destruct Hrest as (tallest & after & -> & Ht & Ha).
  injection Ht as Hlabel Htop.
  assert (Hcells : Forall (fun c => float_cell c = true)
                          (map (at_loc i) (rows filtered_data))).
  { unfold float_column in Hfloat. now apply Forall_map. }
  destruct (mean_arithmetic Hcells) as (heights & Hskip & Hmean).
  assert (Hsome : exists m, mean (map (at_loc i) (rows filtered_data)) = Some m
                            /\ (m == arithmetic_mean heights)%Q).
  { destruct heights as [| q qs]; [| exact Hmean].
    assert (Hin : In q0 (floats (map (at_loc i) (rows filtered_data)))).
    { apply floats_In, in_map_iff. now exists r0. }
    unfold mean in Hmean.
    destruct (floats (map (at_loc i) (rows filtered_data)));
      [destruct Hin | discriminate Hmean]. }
  destruct Hsome as (average_height & Hm & Hmean').
  exists before, after, tallest, top, heights, average_height.
  split; [exact Hrows |]. split; [exact Htop |].
  split; [| split; [| split; [| split]]].
  - intros r q Hr Hq. apply (H1 (label r)). rewrite <- Hb.
    apply in_map_iff. exists r. now rewrite Hq.
  - intros r q Hr Hq. apply (H2 (label r)). rewrite <- Ha.
    apply in_map_iff. exists r. now rewrite Hq.
  - exact Hskip.
  - exact Hmean'.
  - unfold highlights_block. rewrite bind_emit.
    assert (Hempty : empty filtered_data = false).
    { unfold empty. rewrite Hrows.
      destruct before; simpl; destruct (columns filtered_data);
        try reflexivity; discriminate. }
    rewrite Hempty. unfold key_highlights.
    rewrite (getcol_found _ _ Hi), bind_ret, Hl, bind_ret.
    assert (Hloc : loc l filtered_data = Some tallest).
    { rewrite <- Hlabel. destruct filtered_data as [cols rws].
      simpl in Hrows. subst rws. apply loc_found. exact Hlabels. }
    rewrite Hloc, bind_ret, (getcol_found _ _ Hn), !bind_ret.
    unfold values, column_at. rewrite map_map. simpl map.
    change (map (fun x : Row => at_loc i x)) with (map (at_loc i)).
    rewrite Hm, Htop. reflexivity.
Qed.

Lemma key_highlights_spec_witness :
  exists (before after : list Row) (tallest : Row) (top : Q)
         (heights : list Q) (average_height : Q),
    rows Tables.twins = before ++ tallest :: after /\
    at_loc 4 tallest = Num top /\
    (forall r q, In r before -> at_loc 4 r = Num q -> (q < top)%Q) /\
    (forall r q, In r after -> at_loc 4 r = Num q -> (q <= top)%Q) /\
    skipping_blanks (map (at_loc 4) (rows Tables.twins)) heights /\
    (average_height == arithmetic_mean heights)%Q /\
    highlights_block (Some "statistics.height") Tables.twins
    = ([Subheader "Key Highlights";
        Highlights (List.length (rows Tables.twins))
                   (at_loc 0 tallest) (Num top) (Some average_height)],
       Done tt).
Proof.
  apply (@key_highlights_spec "statistics.height" Tables.twins 4 0).
  - reflexivity.
  - reflexivity.
  - repeat constructor.
  - repeat constructor; simpl; intuition discriminate.
  - exists (Tables.row 0 "North" "Chicago" (Num (200 # 1))), (200 # 1)%Q.
    split; [now left | reflexivity].
Defined.

(** C4 as stated fails on a non-empty set with a detected height column in
    which no row has a height (the towers of LA in a sheet that gives no
    height for them): line 127 raises and the block shows its heading
    only. *)
Lemma key_highlights_not_shown :
  let filtered_data :=
    filtered_frame 1 (dropna_at 2 3 (frame_of_sheet Sheets.s3)) 1 in
  List.length (rows filtered_data) = 2 /\
  height_columns filtered_data = ["statistics.height"] /\
  highlights_block (Some "statistics.height") filtered_data
  = ([Subheader "Key Highlights"],
     Raised (ValueError "Encountered all NA values")).
Proof. repeat split. Qed.

(** Of two towers of the same height the first one is shown. *)
Example highlights_twins :
  highlights_block (Some "statistics.height") Tables.twins
  = ([Subheader "Key Highlights";
      Highlights 2 (Str "North") (Num (200 # 1)) (Some (400 # 2)%Q)],
     Done tt).
Proof. reflexivity. Qed.

(** ** Group keys *)

Lemma same_key_refl (c : cell) : same_key c c = true.
Proof.
  destruct c; simpl; [reflexivity | apply Qeq_bool_refl | apply String.eqb_refl].
Qed.

Lemma same_key_sym (a b : cell) : same_key a b = same_key b a.
Proof.
  destruct a, b; simpl; try reflexivity;
    [apply Qeq_bool_comm | apply String.eqb_sym].
Qed.

Lemma same_key_trans (a b c : cell) :
  same_key a b = true -> same_key b c = true -> same_key a c = true.
Proof.
  destruct a, b, c; simpl; try discriminate; try reflexivity.
  - apply Qeq_bool_trans.
  - intros H1 H2. apply String.eqb_eq in H1, H2. subst. apply String.eqb_refl.
Qed.

(** Cells that are the same key match the same cells. *)
Lemma same_key_congr (a b c : cell) :
  same_key a b = true -> same_key a c = same_key b c.
Proof.
  intros Hab. destruct (same_key b c) eqn:Hbc.
  - now apply same_key_trans with b.
  - destruct (same_key a c) eqn:Hac; [| reflexivity].
    rewrite same_key_sym in Hab.
    now rewrite (same_key_trans _ _ _ Hab Hac) in Hbc.
Qed.

Lemma same_key_notna (a b : cell) :
  same_key a b = true -> notna a = notna b.
Proof. destruct a, b; simpl; try discriminate; reflexivity. Qed.

Lemma unique_incl (l : list cell) (c : cell) : In c (unique l) -> In c l.
Proof.
  revert c. induction l as [| a l IH]; simpl; [tauto |].
  intros c [-> | H]; [now left |]. apply filter_In in H. right. now apply IH.
Qed.

Lemma filter_same_dropped (a c : cell) (u : list cell) :
  same_key c a = true ->
  filter (same_key c) (filter (fun d => negb (same_key a d)) u) = [].
Proof.
  intros Hca. induction u as [| d u IH]; simpl; [reflexivity |].
  destruct (same_key a d) eqn:Had; simpl; [exact IH |].
  rewrite (@same_key_congr c a d Hca), Had. exact IH.
Qed.

Lemma filter_same_kept (a c : cell) (u : list cell) :
  same_key c a = false ->
  filter (same_key c) (filter (fun d => negb (same_key a d)) u)
  = filter (same_key c) u.
Proof.
  intros Hca. induction u as [| d u IH]; simpl; [reflexivity |].
  destruct (same_key a d) eqn:Had; simpl.
  - rewrite IH. destruct (same_key c d) eqn:Hcd; [| reflexivity].
    rewrite same_key_sym in Had.
    now rewrite (same_key_trans _ _ _ Hcd Had) in Hca.
  - now rewrite IH.
Qed.

(** Each value of the column is represented by exactly one key. *)
Lemma unique_one (l : list cell) (c : cell) :
  (exists x, In x l /\ same_key c x = true) ->
  exists key, filter (same_key c) (unique l) = [key] /\ In key l.
Proof.
  induction l as [| a l IH]; intros (x & Hx & Hcx); [destruct Hx |].
  simpl. destruct (same_key c a) eqn:Hca.
  - exists a. split; [| now left]. f_equal. now apply filter_same_dropped.
  - destruct Hx as [-> | Hx]; [congruence |].
    destruct IH as (key & Hkey & Hin); [now exists x |].
    exists key. split; [| now right].
    now rewrite filter_same_kept.
Qed.

Lemma insert_key_perm (c : cell) (l : list cell) :
  Permutation (insert_key c l) (c :: l).
Proof.
  induction l as [| d l IH]; simpl; [apply Permutation_refl |].
  destruct (cell_leb c d); [apply Permutation_refl |].
  rewrite IH. apply perm_swap.
Qed.

Lemma sort_keys_perm (l : list cell) : Permutation (sort_keys l) l.
Proof.
  unfold sort_keys. induction l as [| c l IH]; simpl; [constructor |].
  rewrite insert_key_perm. now constructor.
Qed.

Lemma filter_perm (A : Type) (p : A -> bool) (l l' : list A) :
  Permutation l l' -> Permutation (filter p l) (filter p l').
Proof.
  induction 1 as [| x l l' _ IH | x y l | l l' l'' _ IH1 _ IH2]; simpl.
  - constructor.
  - destruct (p x); [now constructor | exact IH].
  - destruct (p x), (p y); try apply Permutation_refl. apply perm_swap.
  - now transitivity (filter p l').
Qed.

Lemma filter_same_notna (c : cell) (u : list cell) :
  notna c = true ->
  filter (same_key c) (filter notna u) = filter (same_key c) u.
Proof.
  intros Hc. induction u as [| d u IH]; simpl; [reflexivity |].
  destruct (same_key c d) eqn:Hcd.
  - rewrite <- (same_key_notna _ _ Hcd), Hc. simpl. now rewrite Hcd, IH.
  - destruct (notna d); simpl; [now rewrite Hcd, IH | exact IH].
Qed.


Lemma group_keys_In (k : nat) (df : DataFrame) (key : cell) :
  In key (group_keys k df) ->
  notna key = true /\ exists r, In r (rows df) /\ at_loc k r = key.
Proof.
  intros H. unfold group_keys in H.
  apply (Permutation_in _ (sort_keys_perm _)), filter_In in H.
  destruct H as [H Hna]. split; [exact Hna |].
  now apply column_values_In, unique_incl.
Qed.

Section RangeIndex.

Variable F : cell -> list cell.
Variable p : cell -> bool.

Lemma range_index_In (keys : list cell) (z : Z) (row : Row) :
  In row (range_index_from z (map F keys)) ->
  exists key, In key keys /\ cells row = F key.
Proof.
  revert z. induction keys as [| d keys IH]; intros z; simpl; [tauto |].
  intros [<- | H].
  - exists d. split; [now left | reflexivity].
  - destruct (IH _ H) as (key & Hkey & E). exists key. split; [now right | exact E].
Qed.

Hypothesis first_cell : forall key z, at_loc 0 (z, F key) = key.



End RangeIndex.

(** ** The average height by city (C2) *)

Lemma city_group_columns (h : string) (data : DataFrame) (k v : nat) :
  names_height h = true ->
  columns (rename [("location.city", "Location"); (h, "Height")]
                  (groupby_mean "location.city" h k v data))
  = ["Location"; "Height"].
Proof.
  intros Hh. unfold rename, groupby_mean. cbn [columns map rename_label].
  rewrite String.eqb_refl.
  destruct (String.eqb h "location.city") eqn:E.
  - apply String.eqb_eq in E. subst h. discriminate Hh.
  - now rewrite String.eqb_refl.
Qed.



(** The example of the spec: the mean height of NYC is (300 + 100) / 2. *)
Example city_group_example :
  city_group "statistics.height" Sheets.data1
  = ret (mkDF ["Location"; "Height"]
              [ (0%Z, [Str "LA"; Num (200 # 1)]);
                (1%Z, [Str "NYC"; Num (400 # 2)]) ]).
Proof. reflexivity. Qed.

(** The mean of a city skips the towers without a height, and is blank for
    a city without any height. *)
Example city_group_blank_heights :
  city_group "statistics.height" (frame_of_sheet Sheets.s3)
  = ret (mkDF ["Location"; "Height"]
              [ (0%Z, [Str "LA"; NA]);
                (1%Z, [Str "NYC"; Num (300 # 1)]) ]).
Proof. reflexivity. Qed.

(** ** The entries of the pie chart *)

Lemma StronglySorted_app_inv (A : Type) (R : A -> A -> Prop) (l1 l2 : list A) :
  StronglySorted R (l1 ++ l2) ->
  StronglySorted R l1 /\ forall a b, In a l1 -> In b l2 -> R a b.
Proof.
  induction l1 as [| x l1 IH]; simpl; intros H.
  - split; [constructor | intros a b []].
  - apply StronglySorted_inv in H. destruct H as [H Hx].
    destruct (IH H) as [Hs Hab]. rewrite Forall_forall in Hx. split.
    + constructor; [exact Hs |]. apply Forall_forall. intros y Hy.
      apply Hx, in_or_app. now left.
    + intros a b [<- | Ha] Hb; [apply Hx, in_or_app; now right | now apply Hab].
Qed.

Lemma count_key_rows (k : nat) (df : DataFrame) (c : cell) :
  count_key c (values (column_at k df))
  = List.length (filter (fun r => same_key c (at_loc k r)) (rows df)).
Proof.
  unfold count_key, values, column_at. rewrite map_map. simpl.
  induction (rows df) as [| r rs IH]; simpl; [reflexivity |].
  destruct (same_key c (at_loc k r)); simpl; now rewrite IH.
Qed.

Lemma count_key_congr (a b : cell) (l : list cell) :
  same_key a b = true -> count_key a l = count_key b l.
Proof.
  intros H. unfold count_key. f_equal. apply filter_ext.
  intros c. now apply same_key_congr.
Qed.

Lemma combine_counts (f : cell -> nat) (keys : list cell) :
  combine keys (map f keys) = map (fun key => (key, f key)) keys.
Proof. induction keys as [| c keys IH]; simpl; now rewrite ?IH. Qed.

Lemma StronglySorted_map_impl (A B : Type) (R : B -> B -> Prop)
    (S : A -> A -> Prop) (f : A -> B) (l : list A) :
  (forall a b, R (f a) (f b) -> S a b) ->
  StronglySorted R (map f l) -> StronglySorted S l.
Proof.
  intros HRS. induction l as [| a l IH]; simpl; intros H; [constructor |].
  apply StronglySorted_inv in H. destruct H as [H Ha].
  constructor; [now apply IH |].
  rewrite Forall_map in Ha. eapply Forall_impl; [| exact Ha].
  intros b. apply HRS.
Qed.

(** [value_counts] lists each city once with its count, largest count
    first. *)
Lemma value_counts_spec (argsort : list Q -> list nat) (l : list cell) :
  argsort_ok argsort ->
  Permutation (value_counts argsort l) (city_counts l) /\
  StronglySorted (fun a b => snd b <= snd a) (value_counts argsort l).
Proof.
  intros Hok. unfold value_counts. rewrite combine_counts.
  fold (city_counts l). set (xs := city_counts l).
  assert (E : map (fun n => Num (inject_Z (Z.of_nat n)))
                  (map (fun key => count_key key l) (filter notna (unique l)))
              = map count_cell xs).
  { unfold xs, city_counts. now rewrite !map_map. }
  rewrite E.
  destruct (@nargsort_ordered argsort _ count_cell Descending xs Hok)
    as (sorted & Hs & Hp & Hsorted).
  { apply Forall_forall. reflexivity. }
  destruct (@present_all _ count_cell xs) as [Hpres Hblank].
  { apply Forall_forall. reflexivity. }
  cbn [is_ascending] in Hs. rewrite Hs, Hblank, app_nil_r.
  rewrite Hpres in Hp. split; [exact Hp |].
  eapply StronglySorted_map_impl; [| exact Hsorted].
  intros a b H. simpl in H. unfold count_cell in H. simpl in H.
  rewrite <- Zle_Qle in H. lia.
Qed.

Lemma city_counts_one (k : nat) (df : DataFrame) (r : Row) :
  In r (rows df) ->
  notna (at_loc k r) = true ->
  exists key,
    filter (fun kc => same_key (at_loc k r) (fst kc))
           (city_counts (values (column_at k df)))
    = [(key,
        List.length (filter (fun r' => same_key (at_loc k r) (at_loc k r'))
                            (rows df)))].
Proof.
  intros Hr Hna. set (c := at_loc k r) in *.
  set (l := values (column_at k df)).
  destruct (@unique_one l c) as (key & Hkey & _).
  { exists c. split; [| apply same_key_refl].
    apply column_values_In. now exists r. }
  exists key. unfold city_counts.
  assert (Hsame : same_key c key = true).
  { assert (Hin : In key (filter (same_key c) (unique l)))
      by (rewrite Hkey; now left).
    apply filter_In in Hin. tauto. }
  rewrite <- (filter_same_notna _ _ Hna) in Hkey.
  rewrite <- count_key_rows. fold l.
  rewrite (@count_key_congr c key l Hsame).
  induction (filter notna (unique l)) as [| d u IH] in Hkey |- *;
    [discriminate |].
  simpl in *. destruct (same_key c d).
  - injection Hkey as -> Hrest. f_equal.
    clear - Hrest. induction u as [| e u IH]; simpl in *; [reflexivity |].
    destruct (same_key c e); [discriminate | now apply IH].
  - now apply IH.
Qed.

Lemma city_counts_In (k : nat) (df : DataFrame) (kc : cell * nat) :
  In kc (city_counts (values (column_at k df))) ->
  notna (fst kc) = true /\
  exists r, In r (rows df) /\ at_loc k r = fst kc.
Proof.
  unfold city_counts. intros H. apply in_map_iff in H.
  destruct H as (key & <- & H). apply filter_In in H. destruct H as [H Hna].
  split; [exact Hna |]. now apply column_values_In, unique_incl.
Qed.

(** The entries of the pie chart of a table: each city of the table has
    exactly one entry in [top ++ rest] with the number of rows of that city;
    [top] holds at most ten entries, ten when something is left out; no
    count left out is above a count shown, and the counts shown are in
    non-increasing order. *)
Lemma top_cities_spec (argsort : list Q -> list nat) (data : DataFrame)
    (k : nat) :
  argsort_ok argsort ->
  exists rest : list (cell * nat),
    let top := top_cities argsort k data in
    List.length top <= 10 /\
    (rest <> [] -> List.length top = 10) /\
    (forall r, In r (rows data) -> notna (at_loc k r) = true ->
       exists key,
         filter (fun kc => same_key (at_loc k r) (fst kc)) (top ++ rest)
         = [(key,
             List.length (filter (fun r' => same_key (at_loc k r) (at_loc k r'))
                                 (rows data)))]) /\
    (forall kc, In kc (top ++ rest) ->
       notna (fst kc) = true /\
       exists r, In r (rows data) /\ at_loc k r = fst kc) /\
    (forall a b, In a top -> In b rest -> snd b <= snd a) /\
    StronglySorted (fun a b => snd b <= snd a) top.
Proof.
  intros Hok. unfold top_cities.
  set (vc := value_counts argsort (values (column_at k data))).
  destruct (value_counts_spec (values (column_at k data)) Hok) as [Hperm Hsorted].
  fold vc in Hperm, Hsorted.
  exists (skipn 10 vc). cbv zeta.
  rewrite firstn_skipn.
  rewrite <- (firstn_skipn 10 vc) in Hsorted.
  apply StronglySorted_app_inv in Hsorted. destruct Hsorted as [Htop Hrest].
  split; [| split; [| split; [| split; [| split]]]].
  - apply firstn_le_length.
  - intros Hne. rewrite length_firstn. apply Nat.min_l.
    destruct (Nat.le_gt_cases 10 (List.length vc)) as [H | H]; [exact H |].
    elim Hne. apply skipn_all2. lia.
  - intros r Hr Hna.
    destruct (city_counts_one k data r Hr Hna) as (key & Hkey).
    exists key. apply Permutation_length_1_inv. rewrite <- Hkey.
    apply Permutation_sym, filter_perm, Hperm.
  - intros kc Hkc. apply (Permutation_in _ Hperm) in Hkc.
    now apply city_counts_In.
  - exact Hrest.
  - exact Htop.
Qed.

(** Of twelve cities the ten with the most towers are drawn; the two left out
    have one tower each. *)
Example top_ten_of_twelve :
  top_cities insertion_argsort 0 Tables.twelve
  = [ (Str "k", 3); (Str "bb", 2); (Str "a", 1); (Str "b", 1); (Str "c", 1);
      (Str "d", 1); (Str "e", 1); (Str "f", 1); (Str "g", 1); (Str "h", 1) ].
Proof. reflexivity. Qed.

(** ** No height column (C5) *)

Lemma no_height_columns (df : DataFrame) :
  (forall col, In col (columns df) -> names_height col = false) ->
  height_columns df = [].
Proof.
  intros H. unfold height_columns. fold names_height.
  induction (columns df) as [| c cols IH]; simpl; [reflexivity |].
  rewrite (H c) by now left. apply IH. intros col Hcol. apply H. now right.
Qed.

Lemma pie_block_done (argsort : list Q -> list nat) (data : option DataFrame) :
  result (pie_block argsort data) = Done tt /\
  forallb (fun e => negb (needs_height e)) (page (pie_block argsort data)) = true.
Proof.
  unfold pie_block. destruct data as [data |]; [| split; reflexivity].
  destruct (empty data); [split; reflexivity |].
  rewrite bind_emit.
  destruct (get_loc "location.city" (columns data)); split; reflexivity.
Qed.

Lemma range_index_from_length (l : list (list cell)) (z : Z) :
  List.length (range_index_from z l) = List.length l.
Proof.
  revert z. induction l as [| r l IH]; intros z; simpl; [reflexivity |].
  now rewrite IH.
Qed.

Lemma frame_of_sheet_length (s : sheet) :
  List.length (rows (frame_of_sheet s)) = List.length (body s).
Proof. apply range_index_from_length. Qed.

(** A parsed sheet is a table whose labels are all text; on it lines 52-239
    are the dashboard on its DataFrame. *)
Lemma text_labels_text (l : list string) : text_labels (map Text l) = Some l.
Proof. induction l as [| c l IH]; simpl; [reflexivity | now rewrite IH]. Qed.

Lemma as_sheet_text (s : sheet) : as_sheet (table_of_sheet s) = Some s.
Proof.
  unfold as_sheet, table_of_sheet. cbn [labels lines].
  rewrite text_labels_text. now destruct s.
Qed.

Lemma text_labels_none (l : list header_cell) :
  text_labels l = None <-> exists z, In (Number z) l.
Proof.
  induction l as [| [s | z] l IH]; simpl.
  - split; [discriminate | intros (z & [])].
  - destruct (text_labels l) as [names |]; simpl.
    + split; [discriminate |]. intros (z & [H | H]); [discriminate H |].
      destruct IH as [_ IH]. discriminate IH. now exists z.
    + split; [| reflexivity]. intros _.
      destruct IH as [IH _]. destruct (IH eq_refl) as (z & Hz).
      exists z. now right.
  - split; [| reflexivity]. intros _. exists z. now left.
Qed.

Lemma main_block_sheet (file : Type) (read_excel : file -> string + table)
    (argsort : list Q -> list nat) (inp : Inputs file) (f : file) (s : sheet) :
  uploaded_file inp = Some f ->
  read_excel f = inr (table_of_sheet s) ->
  main_block read_excel argsort inp
  = (data <- dashboard argsort (frame_of_sheet s)
                       (List.length (body s), List.length (header s)) inp ;;
     ret (Some data)).
Proof.
  intros Hf He. unfold main_block, load_data. rewrite Hf, He, bind_ret.
  cbn [fst snd]. rewrite as_sheet_text.
  unfold table_of_sheet. cbn [labels lines]. now rewrite length_map.
Qed.

(** Lines 56-62 on a table with a label that is not text write the sidebar
    message and end with an exception. *)
Lemma dashboard_no_text_raises (data : table) (summary : nat * nat) :
  exists e,
    dashboard_no_text data summary
    = ([Sidebar_write (fst summary) (snd summary)], Raised e) /\
    (e = AttributeError "'int' object has no attribute 'lower'" \/
     e = KeyError "location.latitude" \/ e = KeyError "location.longitude").
Proof.
  unfold dashboard_no_text.
  destruct (existsb (carries "location.latitude") (labels data));
    [| eexists; split; [reflexivity | tauto]].
  destruct (existsb (carries "location.longitude") (labels data));
    eexists; (split; [reflexivity | tauto]).
Qed.

Lemma bind_pair (A B : Type) (p : list element) (a : A) (k : A -> run B) :
  (x <- (p, Done a) ;; k x) = (p ++ page (k a), result (k a)).
Proof. reflexivity. Qed.

Lemma bind_runs (A B : Type) (m : run A) (k : A -> run B)
    (p q : list element) (a : A) (o : outcome B) :
  m = (p, Done a) -> k a = (q, o) -> (x <- m ;; k x) = (p ++ q, o).
Proof. intros -> H. unfold bind. cbn [fst snd]. now rewrite H. Qed.

Lemma run_eq (A : Type) (m : run A) (p q : list element) (o : outcome A) :
  m = (p, o) -> p = q -> m = (q, o).
Proof. now intros -> ->. Qed.

Lemma balloons_runs (b : bool) :
  (if b then ret tt else emit Balloons)
  = (if b then [] else [Balloons], Done tt).
Proof. now destruct b. Qed.

Lemma dropna_done (df : DataFrame) (lat lon : nat) :
  get_loc "location.latitude" (columns df) = Some lat ->
  get_loc "location.longitude" (columns df) = Some lon ->
  dropna df = ([], Done (dropna_at lat lon df)).
Proof.
  intros Hlat Hlon. unfold dropna.
  now rewrite (getcol_found _ _ Hlat), bind_ret, (getcol_found _ _ Hlon), bind_ret.
Qed.

Lemma city_filter_done (data : DataFrame) (choice k : nat) :
  get_loc "location.city" (columns data) = Some k ->
  let cities := unique (values (column_at k data)) in
  let selected_city := selectbox cities choice in
  city_filter data choice
  = ([Selectbox cities],
     Done (selected_city,
           rename [("location.latitude", "latitude");
                   ("location.longitude", "longitude")]
                  (select (fun r => eq_selected selected_city (at_loc k r))
                          data))).
Proof.
  intros Hk cities selected_city. unfold city_filter.
  now rewrite (getcol_found _ _ Hk), bind_ret.
Qed.

Lemma empty_rename (mapping : list (string * string)) (df : DataFrame) :
  empty (rename mapping df) = empty df.
Proof.
  unfold empty, rename. cbn [rows columns].
  destruct (rows df); [reflexivity |]. now destruct (columns df).
Qed.

Lemma highlights_block_none (fd : DataFrame) :
  highlights_block None fd
  = ([Subheader "Key Highlights";
      Warning "No data available for the selected city."],
     Done tt).
Proof. unfold highlights_block. now destruct (empty fd). Qed.

Lemma height_block_none (sel : option cell) (m : Z) (fd sd : DataFrame) :
  height_block None sel m fd sd = ([], Done tt).
Proof. unfold height_block. now destruct (empty fd). Qed.

(** The run of lines 56-239 on a table without a height column. *)
Lemma dashboard_no_height (argsort : list Q -> list nat) (loaded : DataFrame)
    (summary : nat * nat) (file : Type) (inp : Inputs file) (lat lon k : nat) :
  (forall col, In col (columns loaded) -> names_height col = false) ->
  get_loc "location.latitude" (columns loaded) = Some lat ->
  get_loc "location.longitude" (columns loaded) = Some lon ->
  get_loc "location.city" (columns loaded) = Some k ->
  let data := dropna_at lat lon loaded in
  let cities := unique (values (column_at k data)) in
  let selected_city := selectbox cities (city_choice inp) in
  let filtered_data :=
    select (fun r => eq_selected selected_city (at_loc k r)) data in
  dashboard argsort loaded summary inp
  = ([Sidebar_write (fst summary) (snd summary);
      Sidebar_error "No column containing 'height' found!";
      Selectbox cities; Radio;
      Warning "Height column not found, skipping sorting."]
     ++ (if empty filtered_data then [] else [Balloons])
     ++ [Subheader "Key Highlights";
         Warning "No data available for the selected city."],
     Done data).
Proof.
  intros Hnone Hlat Hlon Hk data cities selected_city filtered_data.
  apply (run_eq (p := [Sidebar_write (fst summary) (snd summary)] ++ [] ++
                      [Sidebar_error "No column containing 'height' found!"] ++
                      [Selectbox cities] ++
                      [Radio; Warning "Height column not found, skipping sorting."] ++
                      [] ++
                      (if empty filtered_data then [] else [Balloons]) ++
                      [Subheader "Key Highlights";
                       Warning "No data available for the selected city."] ++
                      [] ++ [])); [| reflexivity].
  unfold dashboard.
  eapply bind_runs; [reflexivity |].
  eapply bind_runs; [exact (dropna_done loaded Hlat Hlon) |]. fold data.
  eapply bind_runs.
  { unfold detect_height. rewrite (no_height_columns data Hnone). reflexivity. }
  eapply bind_runs; [exact (@city_filter_done data (city_choice inp) k Hk) |].
  cbn [fst snd]. fold cities selected_city filtered_data.
  eapply bind_runs; [reflexivity |].
  eapply bind_runs; [reflexivity |].
  eapply bind_runs; [rewrite empty_rename; apply balloons_runs |].
  eapply bind_runs; [apply highlights_block_none |].
  eapply bind_runs; [apply height_block_none |].
  reflexivity.
Qed.

Lemma pie_block_runs (argsort : list Q -> list nat) (data : option DataFrame) :
  pie_block argsort data = (page (pie_block argsort data), Done tt).
Proof.
  destruct (pie_block_done argsort data) as [H _]. unfold result, page in *.
  destruct (pie_block argsort data) as [p o]. simpl in *. now subst.
Qed.

Section NoHeight.

Variable file : Type.
Variable read_excel : file -> string + table.
Variable argsort : list Q -> list nat.

(** C5, as amended: on a sheet (a table whose labels are all text) with the
    two coordinate columns and the city column, when no column label
    contains "height" in whatever case, the run ends normally; the message
    of line 68 and the warning of line 107 are on the page, the highlights
    are replaced by a warning, and nothing computed from a height column is
    written.  The rest of the page is the city selector, the sort radio, the
    balloons and the pie chart section. *)
Theorem no_height_column_page (inp : Inputs file) (f : file) (s : sheet)
    (lat lon k : nat) :
  uploaded_file inp = Some f ->
  read_excel f = inr (table_of_sheet s) ->
  (forall col, In col (header s) -> ~ mentions_height col) ->
  get_loc "location.latitude" (header s) = Some lat ->
  get_loc "location.longitude" (header s) = Some lon ->
  get_loc "location.city" (header s) = Some k ->
  let data := dropna_at lat lon (frame_of_sheet s) in
  let cities := unique (values (column_at k data)) in
  let selected_city := selectbox cities (city_choice inp) in
  let filtered_data :=
    select (fun r => eq_selected selected_city (at_loc k r)) data in
  let out := script read_excel argsort inp in
  result out = Done tt /\
  page out
  = [Markdown_style; Title "Skyscrapers Around the United States";
     File_uploader;
     Sidebar_write (List.length (body s)) (List.length (header s));
     Sidebar_error "No column containing 'height' found!";
     Selectbox cities; Radio;
     Warning "Height column not found, skipping sorting."]
    ++ (if empty filtered_data then [] else [Balloons])
    ++ [Subheader "Key Highlights";
        Warning "No data available for the selected city."]
    ++ page (pie_block argsort (Some data)) /\
  forallb (fun e => negb (needs_height e)) (page out) = true.
Proof.
  intros Hf He Hspec Hlat Hlon Hk data cities selected_city filtered_data out.
  assert (Hnone : forall col, In col (header s) -> names_height col = false).
  { intros col Hcol. destruct (names_height col) eqn:E; [| reflexivity].
    apply names_height_iff in E. now elim (Hspec col Hcol). }
  assert (Hout :
    out = ([Markdown_style; Title "Skyscrapers Around the United States";
            File_uploader;
            Sidebar_write (List.length (body s)) (List.length (header s));
            Sidebar_error "No column containing 'height' found!";
            Selectbox cities; Radio;
            Warning "Height column not found, skipping sorting."]
           ++ (if empty filtered_data then [] else [Balloons])
           ++ [Subheader "Key Highlights";
               Warning "No data available for the selected city."]
           ++ page (pie_block argsort (Some data)),
           Done tt)).
  { unfold out, script.
    eapply run_eq.
    - eapply bind_runs; [reflexivity |].
      eapply bind_runs; [reflexivity |].
      eapply bind_runs; [reflexivity |].
      eapply bind_runs; [| apply pie_block_runs].
      rewrite (main_block_sheet read_excel argsort inp Hf He).
      eapply bind_runs; [| reflexivity].
      exact (@dashboard_no_height argsort (frame_of_sheet s) _ _ inp lat lon k
               Hnone Hlat Hlon Hk).
    - fold data cities selected_city filtered_data.
      cbn [fst snd app]. rewrite <- !app_assoc. reflexivity. }
  rewrite Hout. split; [reflexivity |]. split; [reflexivity |].
  cbn [page fst]. rewrite !forallb_app.
  destruct (pie_block_done argsort (Some data)) as [_ Hpie]. rewrite Hpie.
  now destruct (empty filtered_data).
Qed.

End NoHeight.

Lemma no_height_column_page_witness :
  let data := dropna_at 2 3 (frame_of_sheet Sheets.s2) in
  let cities := unique (values (column_at 1 data)) in
  let selected_city := selectbox cities (city_choice Sheets.inp2) in
  let filtered_data :=
    select (fun r => eq_selected selected_city (at_loc 1 r)) data in
  let out := script Sheets.read insertion_argsort Sheets.inp2 in
  result out = Done tt /\
  page out
  = [Markdown_style; Title "Skyscrapers Around the United States";
     File_uploader;
     Sidebar_write (List.length (body Sheets.s2))
                   (List.length (header Sheets.s2));
     Sidebar_error "No column containing 'height' found!";
     Selectbox cities; Radio;
     Warning "Height column not found, skipping sorting."]
    ++ (if empty filtered_data then [] else [Balloons])
    ++ [Subheader "Key Highlights";
        Warning "No data available for the selected city."]
    ++ page (pie_block insertion_argsort (Some data)) /\
  forallb (fun e => negb (needs_height e)) (page out) = true.
Proof.
  apply (@no_height_column_page _ Sheets.read insertion_argsort Sheets.inp2
           (inr Sheets.s2) Sheets.s2 2 3 1); try reflexivity.
  intros col [<- | [<- | [<- | [<- | [<- | []]]]]] H;
    apply names_height_iff in H; vm_compute in H; discriminate H.
Defined.

(** The page of that run, written out. *)
Example no_height_column_run :
  script Sheets.read insertion_argsort Sheets.inp2
  = ([Markdown_style; Title "Skyscrapers Around the United States";
      File_uploader; Sidebar_write 2 5;
      Sidebar_error "No column containing 'height' found!";
      Selectbox [Str "NYC"; Str "LA"]; Radio;
      Warning "Height column not found, skipping sorting.";
      Balloons; Subheader "Key Highlights";
      Warning "No data available for the selected city.";
      Subheader "Distribution of Skyscrapers by City";
      Pie [1; 1] [Str "NYC"; Str "LA"]],
     Done tt).
Proof. reflexivity. Qed.

(** C5 as stated fails on a table without a height column whose header row
    holds a year: [read_excel] keeps that label as a number, [col.lower()]
    on line 62 raises AttributeError, and the run ends after the sidebar
    message, with no warning and nothing else on the page. *)
Lemma numeric_label_fails :
  (forall col, In (Text col) (labels Sheets.t7) -> ~ mentions_height col) /\
  script Sheets.read_table insertion_argsort Sheets.inp7
  = ([Markdown_style; Title "Skyscrapers Around the United States";
      File_uploader; Sidebar_write 1 5],
     Raised (AttributeError "'int' object has no attribute 'lower'")).
Proof.
  split; [| reflexivity].
  intros col [H | [H | [H | [H | [H | []]]]]] Hm; try discriminate H;
    injection H as <-; apply names_height_iff in Hm; discriminate Hm.
Qed.

(** ** Rows without coordinates (C1) *)

Lemma filter_idem (A : Type) (p : A -> bool) (l : list A) :
  filter p (filter p l) = filter p l.
Proof.
  induction l as [| a l IH]; simpl; [reflexivity |].
  destruct (p a) eqn:E; simpl; [now rewrite E, IH | exact IH].
Qed.

Lemma dropna_at_idem (i j : nat) (df : DataFrame) :
  dropna_at i j (dropna_at i j df) = dropna_at i j df.
Proof. unfold dropna_at, select. cbn [rows columns]. now rewrite filter_idem. Qed.

Lemma bind_result_inv (A B : Type) (m : run A) (k : A -> run B) (b : B) :
  result (x <- m ;; k x) = Done b ->
  exists a, result m = Done a /\ result (k a) = Done b.
Proof.
  unfold bind, result. destruct (snd m) as [a | | e]; simpl; try discriminate.
  intros H. now exists a.
Qed.

Lemma notna_iff (c : cell) : notna c = true <-> c <> NA.
Proof.
  destruct c; simpl; split; intros H;
    try reflexivity; try discriminate; now elim H.
Qed.

(** The table the name [data] is bound to when lines 56-239 end normally. *)
Lemma dashboard_returns_kept (argsort : list Q -> list nat) (file : Type)
    (loaded : DataFrame) (summary : nat * nat) (inp : Inputs file)
    (lat lon : nat) (d : DataFrame) :
  get_loc "location.latitude" (columns loaded) = Some lat ->
  get_loc "location.longitude" (columns loaded) = Some lon ->
  result (dashboard argsort loaded summary inp) = Done d ->
  d = dropna_at lat lon loaded.
Proof.
  intros Hlat Hlon H. unfold dashboard in H.
  rewrite (dropna_done loaded Hlat Hlon) in H.
  apply bind_result_inv in H. destruct H as (? & _ & H).
  rewrite bind_pair in H. cbn [result snd] in H.
  repeat (apply bind_result_inv in H; destruct H as (? & _ & H)).
  now injection H.
Qed.

(** A run that ends normally on a parsed file ends with the pie chart
    section, run on the table without the dropped rows. *)
Lemma script_ends_with_pie (file : Type) (read_excel : file -> string + table)
    (argsort : list Q -> list nat) (inp : Inputs file) (f : file) (s : sheet)
    (lat lon : nat) :
  uploaded_file inp = Some f ->
  read_excel f = inr (table_of_sheet s) ->
  get_loc "location.latitude" (header s) = Some lat ->
  get_loc "location.longitude" (header s) = Some lon ->
  result (script read_excel argsort inp) = Done tt ->
  exists before,
    page (script read_excel argsort inp)
    = before
      ++ page (pie_block argsort (Some (dropna_at lat lon (frame_of_sheet s)))).
Proof.
  intros Hf He Hlat Hlon H. unfold script in *.
  rewrite !bind_emit in *. cbn [result page fst snd] in *.
  apply bind_result_inv in H. destruct H as (a & Hmain & _).
  rewrite (bind_done _ _ Hmain). cbn [fst].
  assert (Ha : a = Some (dropna_at lat lon (frame_of_sheet s))).
  { rewrite (main_block_sheet read_excel argsort inp Hf He) in Hmain.
    apply bind_result_inv in Hmain. destruct Hmain as (d & Hd & Hret).
    injection Hret as <-. f_equal.
    exact (@dashboard_returns_kept _ _ (frame_of_sheet s) _ _ _ _ _ Hlat Hlon Hd). }
  subst a. eexists (_ :: _ :: _ :: _). reflexivity.
Qed.

(** C1: line 59 keeps exactly the rows that have both coordinates, and
    everything after it is computed from the kept rows alone: the page of
    lines 56-239 is the page the script writes for the table without the
    dropped rows, the table handed to the pie chart section is that table,
    and the city filter, the sort and the height filter only select and
    reorder rows of the table they are given. *)
Theorem dropna_before_everything (argsort : list Q -> list nat)
    (file : Type) (loaded : DataFrame) (summary : nat * nat)
    (inp : Inputs file) (lat lon : nat) :
  get_loc "location.latitude" (columns loaded) = Some lat ->
  get_loc "location.longitude" (columns loaded) = Some lon ->
  let data := dropna_at lat lon loaded in
  (forall r, In r (rows data) <->
             In r (rows loaded) /\ at_loc lat r <> NA /\ at_loc lon r <> NA) /\
  dashboard argsort loaded summary inp = dashboard argsort data summary inp /\
  (forall d, result (dashboard argsort loaded summary inp) = Done d ->
             d = data) /\
  (forall choice pg sel fd,
      city_filter data choice = (pg, Done (sel, fd)) ->
      incl (rows fd) (rows data)) /\
  (forall i ascending fd,
      incl (rows (sort_values_at argsort i ascending fd)) (rows fd)) /\
  (forall sd m pg fbh,
      filter_by_height sd m = (pg, Done fbh) -> incl (rows fbh) (rows sd)).
Proof.
  intros Hlat Hlon data.
  assert (Hdrop : dropna loaded = ([], Done data))
    by exact (dropna_done loaded Hlat Hlon).
  assert (Hdrop' : dropna data = ([], Done data)).
  { rewrite (@dropna_done data lat lon Hlat Hlon). unfold data.
    now rewrite dropna_at_idem. }
  split; [| split; [| split; [| split; [| split]]]].
  - intros r. unfold data, dropna_at, select. cbn [rows].
    rewrite filter_In, andb_true_iff, !notna_iff. reflexivity.
  - unfold dashboard. now rewrite Hdrop, Hdrop'.
  - intros d H. exact (@dashboard_returns_kept _ _ loaded _ _ _ _ _ Hlat Hlon H).
  - intros choice pg sel fd H.
    destruct (get_loc "location.city" (columns data)) as [k |] eqn:Hk.
    + rewrite (@city_filter_done data choice k Hk) in H.
      injection H as _ _ <-.
      intros r Hr. cbn [rename select rows] in Hr. apply filter_In in Hr. tauto.
    + unfold city_filter in H. rewrite (getcol_missing _ _ Hk) in H.
      discriminate H.
  - intros i ascending fd r Hr. unfold sort_values_at in Hr. cbn [rows] in Hr.
    eapply take_In. exact Hr.
  - intros sd m pg fbh H. unfold filter_by_height in H.
    destruct (get_loc "Height" (columns sd)) as [i |] eqn:Hi.
    + rewrite (getcol_found _ _ Hi), bind_ret in H. injection H as _ <-.
      intros r Hr. cbn [select rows] in Hr. apply filter_In in Hr. tauto.
    + rewrite (getcol_missing _ _ Hi) in H. discriminate H.
Qed.

Lemma dropna_before_everything_witness :
  let loaded := frame_of_sheet Sheets.s1 in
  let data := dropna_at 2 3 loaded in
  (forall r, In r (rows data) <->
             In r (rows loaded) /\ at_loc 2 r <> NA /\ at_loc 3 r <> NA) /\
  dashboard insertion_argsort loaded (4, 5) Sheets.inp1
  = dashboard insertion_argsort data (4, 5) Sheets.inp1 /\
  (forall d, result (dashboard insertion_argsort loaded (4, 5) Sheets.inp1)
             = Done d ->
             d = data) /\
  (forall choice pg sel fd,
      city_filter data choice = (pg, Done (sel, fd)) ->
      incl (rows fd) (rows data)) /\
  (forall i ascending fd,
      incl (rows (sort_values_at insertion_argsort i ascending fd)) (rows fd)) /\
  (forall sd m pg fbh,
      filter_by_height sd m = (pg, Done fbh) -> incl (rows fbh) (rows sd)).
Proof.
  apply (@dropna_before_everything insertion_argsort _
           (frame_of_sheet Sheets.s1) (4, 5) Sheets.inp1 2 3);
    reflexivity.
Defined.

(** The row without a latitude (label 3, 500 m) is on no part of the page:
    the tallest tower of NYC shown is A with 300 m, and NYC counts 2. *)
Example dropped_row_not_shown :
  page (script Sheets.read insertion_argsort Sheets.inp1)
  = [Markdown_style; Title "Skyscrapers Around the United States";
     File_uploader; Sidebar_write 4 5; Selectbox [Str "NYC"; Str "LA"]; Radio;
     Caption_sorted (Some (Str "NYC")) Ascending;
     Write_table (mkDF ["Name"; "Location"; "Height"]
                    [ (1%Z, [Str "B"; Str "NYC"; Num (100 # 1)]);
                      (0%Z, [Str "A"; Str "NYC"; Num (300 # 1)]) ]);
     Subheader "Average Height of Skyscrapers by City";
     Write_table (mkDF ["Location"; "Height"]
                    [ (0%Z, [Str "LA"; Num (200 # 1)]);
                      (1%Z, [Str "NYC"; Num (400 # 2)]) ]);
     Balloons; Subheader "Key Highlights";
     Highlights 2 (Str "A") (Num (300 # 1)) (Some (400 # 2)%Q);
     Sidebar_subheader "Filter by Height"; Slider 0 300 100;
     Subheader "Enhanced Map of Skyscrapers";
     Pydeck_chart
       (mkDF ["Name"; "Location"; "latitude"; "longitude"; "Height"]
          [ (1%Z, [Str "B"; Str "NYC"; Num (408 # 10); Num (-74 # 1);
                   Num (100 # 1)]);
            (0%Z, [Str "A"; Str "NYC"; Num (407 # 10); Num (-74 # 1);
                   Num (300 # 1)]) ])
       (Some (8150 # 200)%Q) (Some (-148 # 2)%Q);
     Header_above (Some (Str "NYC")) 100;
     Expander_table
       (mkDF ["Name"; "Location"; "latitude"; "longitude"; "Height"]
          [ (1%Z, [Str "B"; Str "NYC"; Num (408 # 10); Num (-74 # 1);
                   Num (100 # 1)]);
            (0%Z, [Str "A"; Str "NYC"; Num (407 # 10); Num (-74 # 1);
                   Num (300 # 1)]) ]);
     Subheader "Height Distribution of Filtered Skyscrapers";
     Hist [Num (100 # 1); Num (300 # 1)] 10;
     Subheader "Sample Skyscraper Data";
     Write_sample 2 (Str "B") (Num (100 # 1));
     Write_sample 1 (Str "A") (Num (300 # 1));
     Subheader "Distribution of Skyscrapers by City";
     Pie [2; 1] [Str "NYC"; Str "LA"]].
Proof. reflexivity. Qed.

(** * Further properties of the script *)

(** ** Runs without a usable table *)

Section Uploads.

Variable file : Type.
Variable read_excel : file -> string + table.
Variable argsort : list Q -> list nat.

(** X1: Before a file is uploaded the page shows the title, the uploader
    and two warnings: the prompt of line 241 and, because [data] was never
    bound, the warning of line 271.  Nothing else is written. *)
Theorem no_upload_page (inp : Inputs file) :
  uploaded_file inp = None ->
  script read_excel argsort inp
  = ([Markdown_style; Title "Skyscrapers Around the United States";
      File_uploader;
      Warning "Please upload a dataset to begin.";
      Warning "Data is not defined or empty."],
     Done tt).
Proof.
  intros H. unfold script, main_block. rewrite H. reflexivity.
Qed.

(** The first lines of every run on a file that parses: the sidebar message
    carries the numbers of rows and columns of the sheet as it was read,
    before any row is dropped. *)
Lemma script_after_load (inp : Inputs file) (f : file) (s : sheet)
    (pg : list element) (o : outcome DataFrame) :
  uploaded_file inp = Some f ->
  read_excel f = inr (table_of_sheet s) ->
  dashboard argsort (frame_of_sheet s)
            (List.length (body s), List.length (header s)) inp
  = (pg, o) ->
  script read_excel argsort inp
  = (x <- ([Markdown_style; Title "Skyscrapers Around the United States";
            File_uploader] ++ pg,
           match o with
           | Done d => Done (Some d)
           | Stopped => Stopped
           | Raised e => Raised e
           end) ;;
     pie_block argsort x).
Proof.
  intros Hf He Hd. unfold script.
  rewrite (main_block_sheet read_excel argsort inp Hf He), Hd.
  destruct o as [d | | e]; unfold bind; cbn [fst snd emit ret app];
    rewrite ?app_nil_r; reflexivity.
Qed.

(** X2: A sheet without one of the two coordinate columns: line 59 raises
    KeyError.  The page holds the sidebar message and nothing after it; no
    selector, no table and no pie chart is written. *)
Theorem missing_coordinates_raise (inp : Inputs file) (f : file) (s : sheet) :
  uploaded_file inp = Some f ->
  read_excel f = inr (table_of_sheet s) ->
  get_loc "location.latitude" (header s) = None \/
  get_loc "location.longitude" (header s) = None ->
  exists key,
    script read_excel argsort inp
    = ([Markdown_style; Title "Skyscrapers Around the United States";
        File_uploader;
        Sidebar_write (List.length (body s)) (List.length (header s))],
       Raised (KeyError key)) /\
    (key = "location.latitude" \/ key = "location.longitude").
Proof.
  intros Hf He Hmiss.
  assert (Hdrop : exists key,
             dropna (frame_of_sheet s) = raise (KeyError key) /\
             (key = "location.latitude" \/ key = "location.longitude")).
  { unfold dropna.
    destruct (get_loc "location.latitude" (header s)) as [lat |] eqn:Hlat.
    - destruct Hmiss as [Hm | Hm]; [discriminate |].
      exists "location.longitude". split; [| now right].
      rewrite (getcol_found "location.latitude" (frame_of_sheet s) Hlat), bind_ret.
      now rewrite (getcol_missing "location.longitude" (frame_of_sheet s) Hm).
    - exists "location.latitude". split; [| now left].
      now rewrite (getcol_missing "location.latitude" (frame_of_sheet s) Hlat). }
  destruct Hdrop as (key & Hdrop & Hkey). exists key. split; [| exact Hkey].
  erewrite script_after_load; try eassumption.
  2:{ unfold dashboard. rewrite Hdrop. reflexivity. }
  reflexivity.
Qed.

End Uploads.

(** ** What is on the page of a computation *)

Section OnPage.

Variable P : element -> Prop.

Lemma all_ret (A : Type) (a : A) : all_on_page P (ret a).
Proof. constructor. Qed.

Lemma all_raise (A : Type) (e : exn) : all_on_page P (@raise A e).
Proof. constructor. Qed.

Lemma all_stop (A : Type) : all_on_page P (@stop A).
Proof. constructor. Qed.

Lemma all_emit (e : element) : P e -> all_on_page P (emit e).
Proof. intros H. now repeat constructor. Qed.

Lemma all_getcol (c : string) (df : DataFrame) : all_on_page P (getcol c df).
Proof. unfold getcol. destruct (get_loc c (columns df)); constructor. Qed.

Lemma all_bind (A B : Type) (m : run A) (k : A -> run B) :
  all_on_page P m ->
  (forall a, result m = Done a -> all_on_page P (k a)) ->
  all_on_page P (x <- m ;; k x).
Proof.
  unfold all_on_page, page, result, bind. intros Hm Hk.
  destruct (snd m) as [a | | e]; cbn [fst]; [| exact Hm | exact Hm].
  apply Forall_app. split; [exact Hm | now apply Hk].
Qed.

Lemma all_write_all (es : list element) :
  Forall P es -> all_on_page P (write_all es).
Proof. intros H. unfold all_on_page. now rewrite write_all_page. Qed.

Lemma all_getcols (c : string) (df : DataFrame) : all_on_page P (getcols c df).
Proof. unfold getcols. destruct (get_locs c (columns df)); constructor. Qed.

Lemma all_locate (cs : list string) (df : DataFrame) :
  all_on_page P (locate cs df).
Proof.
  induction cs as [| c cs IH]; simpl; [apply all_ret |].
  apply all_bind; [apply all_getcols |]. intros i _.
  apply all_bind; [exact IH |]. intros js _. apply all_ret.
Qed.

Lemma all_write_frame (e : DataFrame -> element) (df : DataFrame) :
  P (e df) -> all_on_page P (write_frame e df).
Proof.
  intros H. unfold write_frame.
  destruct (all_different (columns df)); [now apply all_emit | apply all_raise].
Qed.

End OnPage.

(** Runs the page analysis of a block: [leaf] proves the property of each
    element the block writes. *)
Ltac on_page leaf :=
  repeat first
    [ match goal with
      | |- all_on_page _ (write_all _) => apply all_write_all
      end
    | apply all_ret | apply all_raise | apply all_stop
    | apply all_getcol | apply all_getcols | apply all_locate
    | apply all_emit; leaf
    | apply all_write_frame; leaf
    | apply all_bind; [ | intros ? ? ]
    | progress cbv zeta
    | match goal with
      | |- all_on_page _ (match ?x with _ => _ end) => destruct x eqn:?
      end ].

(** [key_highlights] and [slider_args] write nothing themselves; what they
    return is a highlights table and a slider. *)
Lemma key_highlights_silent (P : element -> Prop) (h : string)
    (fd : DataFrame) :
  all_on_page P (key_highlights h fd).
Proof. unfold key_highlights. on_page fail. Qed.

Lemma slider_args_silent (P : element -> Prop) (h : string) (fd : DataFrame) :
  all_on_page P (slider_args h fd).
Proof. unfold slider_args. on_page fail. Qed.

Lemma key_highlights_done (h : string) (fd : DataFrame) (e : element) :
  result (key_highlights h fd) = Done e ->
  exists total name height average, e = Highlights total name height average.
Proof.
  unfold key_highlights. intros H.
  repeat (apply bind_result_inv in H; destruct H as (? & _ & H)).
  injection H as <-. now repeat eexists.
Qed.

Lemma slider_args_done (h : string) (fd : DataFrame) (e : element) :
  result (slider_args h fd) = Done e ->
  exists top, e = Slider 0 top 100.
Proof.
  unfold slider_args. intros H.
  apply bind_result_inv in H. destruct H as (i & _ & H).
  destruct (max (values (column_at i fd))) as [q |]; [| discriminate].
  injection H as <-. now eexists.
Qed.

Ltac other_element := cbv beta; unfold city_column_warning; discriminate.

(** Finishes the page analysis of the dashboard for a property that holds of
    every highlights table, slider and sample line. *)
Ltac returned_elements :=
  try apply key_highlights_silent;
  try apply slider_args_silent;
  try match goal with
      | H : result (key_highlights _ _) = Done ?e |- all_on_page _ (emit ?e) =>
          destruct (key_highlights_done _ _ H) as (? & ? & ? & ? & ->);
          apply all_emit
      | H : result (slider_args _ _) = Done ?e |- all_on_page _ (emit ?e) =>
          destruct (slider_args_done _ _ H) as (? & ->);
          apply all_emit
      | |- Forall _ (map (sample_line _ _) _) =>
          apply Forall_forall;
          let e := fresh "e" in
          let He := fresh "He" in
          let r := fresh "r" in
          intros e He; apply in_map_iff in He;
          destruct He as (r & <- & _); unfold sample_line
      end.

Section CityWarning.

Variable file : Type.
Variable read_excel : file -> string + table.
Variable argsort : list Q -> list nat.

(** No part of lines 56-239 writes the warning of line 269. *)
Lemma dashboard_quiet (loaded : DataFrame) (summary : nat * nat)
    (inp : Inputs file) :
  all_on_page (fun e => e <> city_column_warning)
              (dashboard argsort loaded summary inp).
Proof.
  unfold dashboard, dropna, detect_height, city_filter, sort_block, project,
    group_block, city_group, highlights_block, height_block,
    filter_by_height, map_block, histogram_block, sample_block.
  on_page other_element; returned_elements; other_element.
Qed.

(** A run of lines 56-239 that ends normally went through line 72, so the
    table it leaves has the city column. *)
Lemma dashboard_has_city (loaded : DataFrame) (summary : nat * nat)
    (inp : Inputs file) (d : DataFrame) :
  result (dashboard argsort loaded summary inp) = Done d ->
  exists k, get_loc "location.city" (columns d) = Some k.
Proof.
  unfold dashboard. intros H.
  apply bind_result_inv in H. destruct H as (? & _ & H).
  apply bind_result_inv in H. destruct H as (data & _ & H).
  apply bind_result_inv in H. destruct H as (? & _ & H).
  apply bind_result_inv in H. destruct H as (cf & Hcf & H).
  repeat (apply bind_result_inv in H; destruct H as (? & _ & H)).
  injection H as <-.
  unfold city_filter in Hcf.
  destruct (get_loc "location.city" (columns data)) as [k |] eqn:Hk;
    [now exists k |].
  rewrite (getcol_missing _ _ Hk) in Hcf. discriminate Hcf.
Qed.

(** X4: The warning of line 269 is never written: a table without the city
    column makes line 72 raise, so the test of line 248 is reached only with
    the column present. *)
Theorem city_warning_never_written (inp : Inputs file) :
  ~ In city_column_warning (page (script read_excel argsort inp)).
Proof.
  assert (H : all_on_page (fun e => e <> city_column_warning)
                          (script read_excel argsort inp)).
  { unfold script.
    apply all_bind; [apply all_emit; other_element | intros _ _].
    apply all_bind; [apply all_emit; other_element | intros _ _].
    apply all_bind; [apply all_emit; other_element | intros _ _].
    apply all_bind.
    - unfold main_block, load_data.
      destruct (uploaded_file inp) as [f |]; [| on_page other_element].
      apply all_bind; [on_page other_element |]. intros loaded _.
      apply all_bind; [| intros d _; apply all_ret].
      destruct (as_sheet (fst loaded)); [apply dashboard_quiet |].
      destruct (dashboard_no_text_raises (fst loaded) (snd loaded))
        as (e & -> & _).
      repeat constructor. other_element.
    - intros data Hmain. unfold pie_block.
      destruct data as [d |]; [| on_page other_element].
      assert (Hcity : exists k, get_loc "location.city" (columns d) = Some k).
      { unfold main_block in Hmain.
        destruct (uploaded_file inp) as [f |].
        - apply bind_result_inv in Hmain. destruct Hmain as (loaded & _ & Hmain).
          apply bind_result_inv in Hmain. destruct Hmain as (d' & Hd & Hret).
          injection Hret as ->.
          destruct (as_sheet (fst loaded)); [exact (dashboard_has_city _ _ _ Hd) |].
          destruct (dashboard_no_text_raises (fst loaded) (snd loaded))
            as (e & E & _).
          rewrite E in Hd. discriminate Hd.
        - discriminate Hmain. }
      destruct Hcity as [k Hk]. rewrite Hk. on_page other_element. }
  intros Hin. unfold all_on_page in H. rewrite Forall_forall in H.
  exact (H _ Hin eq_refl).
Qed.

End CityWarning.

(** ** Labels through the two renamings *)

(** A renaming that neither produces nor removes the label [c] leaves it
    where it was. *)
Lemma get_loc_renamed (mapping : list (string * string)) (c : string)
    (cols : list string) :
  (forall x, String.eqb c (rename_label mapping x) = String.eqb c x) ->
  get_loc c (map (rename_label mapping) cols) = get_loc c cols.
Proof.
  intros H. induction cols as [| x cols IH]; simpl; [reflexivity |].
  now rewrite H, IH.
Qed.

Lemma coordinate_names_keep (c : string) :
  c <> "latitude" -> c <> "longitude" ->
  c <> "location.latitude" -> c <> "location.longitude" ->
  forall x, String.eqb c (rename_label coordinate_names x) = String.eqb c x.
Proof.
  intros H1 H2 H3 H4 x. unfold coordinate_names, rename_label.
  destruct (String.eqb x "location.latitude") eqn:E1.
  { apply String.eqb_eq in E1. subst x.
    apply String.eqb_neq in H1, H3. now rewrite H1, H3. }
  destruct (String.eqb x "location.longitude") eqn:E2.
  { apply String.eqb_eq in E2. subst x.
    apply String.eqb_neq in H2, H4. now rewrite H2, H4. }
  reflexivity.
Qed.

Lemma detected_not_coordinate (h : string) :
  names_height h = true ->
  h <> "latitude" /\ h <> "longitude" /\
  h <> "location.latitude" /\ h <> "location.longitude".
Proof. intros H. repeat split; intros ->; discriminate H. Qed.

Lemma coordinate_rename_height (x : string) :
  names_height (rename_label coordinate_names x) = names_height x /\
  (names_height x = true -> rename_label coordinate_names x = x).
Proof.
  unfold coordinate_names, rename_label.
  destruct (String.eqb x "location.latitude") eqn:E1.
  { apply String.eqb_eq in E1. subst x. split; [reflexivity | discriminate]. }
  destruct (String.eqb x "location.longitude") eqn:E2.
  { apply String.eqb_eq in E2. subst x. split; [reflexivity | discriminate]. }
  split; reflexivity.
Qed.

(** The city filter keeps the detected column, the name and the city where
    they are and has the two coordinates under their short names. *)
Lemma filtered_columns (cols : list string) (h : string) (rest : list string) :
  filter names_height cols = h :: rest ->
  let cols1 := map (rename_label coordinate_names) cols in
  filter names_height cols1 = h :: rest /\
  get_loc h cols1 = get_loc h cols /\
  get_loc "name" cols1 = get_loc "name" cols /\
  get_loc "location.city" cols1 = get_loc "location.city" cols /\
  (In "location.latitude" cols -> In "latitude" cols1) /\
  (In "location.longitude" cols -> In "longitude" cols1).
Proof.
  intros Hh cols1.
  assert (Ph : names_height h = true).
  { assert (Hin : In h (filter names_height cols)) by (rewrite Hh; now left).
    apply filter_In in Hin. tauto. }
  destruct (detected_not_coordinate h Ph) as (N1 & N2 & N3 & N4).
  split; [| split; [| split; [| split; [| split]]]].
  - rewrite <- Hh. unfold cols1. clear.
    induction cols as [| x cols IH]; cbn [map filter]; [reflexivity |].
    destruct (coordinate_rename_height x) as [E Hx]. rewrite E, IH.
    destruct (names_height x); [now rewrite Hx | reflexivity].
  - apply get_loc_renamed. now apply coordinate_names_keep.
  - apply get_loc_renamed. apply coordinate_names_keep; discriminate.
  - apply get_loc_renamed. apply coordinate_names_keep; discriminate.
  - intros H. apply (in_map (rename_label coordinate_names)) in H. exact H.
  - intros H. apply (in_map (rename_label coordinate_names)) in H. exact H.
Qed.

Lemma display_names_keep (h c : string) :
  names_height h = true -> names_height c = false ->
  c <> "name" -> c <> "location.city" ->
  rename_label (display_names h) c = c.
Proof.
  intros Ph Pc N1 N2. unfold display_names, rename_label.
  apply String.eqb_neq in N1, N2. rewrite N1, N2.
  destruct (String.eqb c h) eqn:E; [| reflexivity].
  apply String.eqb_eq in E. congruence.
Qed.

(** Index labels given by [read_excel] are all different, and stay so when
    rows are selected. *)
Lemma range_index_from_labels (l : list (list cell)) (z : Z) :
  NoDup (map label (range_index_from z l)) /\
  forall x, In x (map label (range_index_from z l)) -> (z <= x)%Z.
Proof.
  revert z. induction l as [| r l IH]; intros z; simpl.
  - split; [constructor | intros x []].
  - destruct (IH (z + 1)%Z) as [Hnd Hge]. split.
    + constructor; [| exact Hnd]. intros Hin. apply Hge in Hin. lia.
    + intros x [<- | Hin]; [lia |]. apply Hge in Hin. lia.
Qed.

Lemma frame_of_sheet_labels (s : sheet) :
  NoDup (map label (rows (frame_of_sheet s))).
Proof. apply range_index_from_labels. Qed.

Lemma filter_labels (p : Row -> bool) (l : list Row) :
  NoDup (map label l) -> NoDup (map label (filter p l)).
Proof.
  induction l as [| r l IH]; simpl; intros H; [constructor |].
  apply NoDup_cons_iff in H. destruct H as [Hr H].
  destruct (p r); simpl; [| now apply IH].
  constructor; [| now apply IH]. intros Hin. apply Hr.
  apply in_map_iff in Hin. destruct Hin as (x & Hx & Hin).
  apply filter_In in Hin. apply in_map_iff. exists x. tauto.
Qed.

(** ** The blocks of a run on a table with a height column *)

Lemma run_pair (A : Type) (m : run A) (o : outcome A) :
  result m = o -> m = (page m, o).
Proof. unfold result, page. destruct m. simpl. now intros ->. Qed.

Lemma group_block_runs (h : string) (data : DataFrame) (k v : nat) :
  names_height h = true ->
  get_loc "location.city" (columns data) = Some k ->
  get_loc h (columns data) = Some v ->
  exists g,
    group_block (Some h) data
    = ([Subheader "Average Height of Skyscrapers by City"; Write_table g],
       Done tt).
Proof.
  intros Hh Hk Hv. eexists. unfold group_block, city_group.
  rewrite (getcol_found _ _ Hk), bind_ret, (getcol_found _ _ Hv), !bind_ret.
  rewrite bind_emit, write_frame_different; [reflexivity |].
  rewrite (@city_group_columns h data k v Hh).
  apply all_different_iff. reflexivity.
Qed.

Lemma idxmax_none (s : Series) :
  (forall j q, ~ In (j, Num q) s) -> idxmax s = None.
Proof.
  induction s as [| [i c] s IH]; intros H; [reflexivity |].
  destruct c as [| q | t]; simpl.
  - apply IH. intros j q Hin. apply (H j q). now right.
  - elim (H i q). now left.
  - apply IH. intros j q Hin. apply (H j q). now right.
Qed.

(** Without any height in a non-empty set line 127 raises, after the
    heading of the block was written. *)
Lemma highlights_block_raises (h : string) (fd : DataFrame) (i : nat) :
  get_loc h (columns fd) = Some i ->
  rows fd <> [] ->
  (forall r q, In r (rows fd) -> at_loc i r <> Num q) ->
  exists e,
    highlights_block (Some h) fd = ([Subheader "Key Highlights"], Raised e).
Proof.
  intros Hi Hne Hnone.
  assert (Hempty : empty fd = false).
  { unfold empty. destruct (rows fd); [now elim Hne |].
    destruct (columns fd); [discriminate Hi | reflexivity]. }
  eexists. unfold highlights_block. rewrite bind_emit, Hempty.
  unfold key_highlights. rewrite (getcol_found _ _ Hi), bind_ret.
  rewrite idxmax_none; [reflexivity |].
  intros j q Hin. unfold column_at in Hin. apply in_map_iff in Hin.
  destruct Hin as (r & [= _ Hq] & Hr). exact (Hnone r q Hr Hq).
Qed.

(** ** How a run on a well-formed table ends *)

Lemma located_In (c : string) (cols : list string) (i : nat) :
  get_loc c cols = Some i -> In c cols.
Proof. intros H. apply get_loc_nth in H. eapply nth_error_In. exact H. Qed.

(** A renaming that keeps the labels different leaves every column where it
    was. *)
Lemma get_loc_map_different (f : string -> string) (c : string)
    (cols : list string) (i : nat) :
  NoDup (map f cols) ->
  get_loc c cols = Some i -> get_loc (f c) (map f cols) = Some i.
Proof.
  revert i. induction cols as [| x cols IH]; simpl; intros i Hnd;
    [discriminate |].
  apply NoDup_cons_iff in Hnd. destruct Hnd as [Hx Hnd].
  destruct (String.eqb c x) eqn:E.
  - apply String.eqb_eq in E. subst x. intros [= <-].
    now rewrite String.eqb_refl.
  - destruct (get_loc c cols) as [j |] eqn:Hj; [| discriminate].
    intros [= <-].
    destruct (String.eqb (f c) (f x)) eqn:E'.
    + apply String.eqb_eq in E'. elim Hx. rewrite <- E'.
      apply in_map. apply get_loc_nth in Hj. eapply nth_error_In. exact Hj.
    + now rewrite (IH j Hnd eq_refl).
Qed.

Section WellFormed.

Variable argsort : list Q -> list nat.
Variable file : Type.
Variable loaded : DataFrame.
Variable summary : nat * nat.
Variable inp : Inputs file.
Variables lat lon k n v : nat.
Variable h : string.
Variable rest : list string.

Hypothesis has_latitude :
  get_loc "location.latitude" (columns loaded) = Some lat.
Hypothesis has_longitude :
  get_loc "location.longitude" (columns loaded) = Some lon.
Hypothesis has_city : get_loc "location.city" (columns loaded) = Some k.
Hypothesis has_name : get_loc "name" (columns loaded) = Some n.
Hypothesis detected : height_columns loaded = h :: rest.
Hypothesis height_at : get_loc h (columns loaded) = Some v.
Hypothesis different : NoDup (displayed_labels h (columns loaded)).

(** Lines 56-121 on such a table write the sidebar message, the selector,
    the sorted table, the averages and the balloons; the rest of the run is
    the highlights block and the height block on the frames named here. *)
Lemma dashboard_with_height :
  let data := dropna_at lat lon loaded in
  let fd := filtered_frame k data (city_choice inp) in
  let sorted_data :=
    rename (display_names h)
           (sort_values_at argsort v (is_ascending (sort_order inp)) fd) in
  exists shown g,
    get_loc "Height" (columns sorted_data) = Some v /\
    get_loc "Name" (columns sorted_data) = Some n /\
    In "latitude" (columns sorted_data) /\
    In "longitude" (columns sorted_data) /\
    get_loc h (columns fd) = Some v /\
    get_loc "name" (columns fd) = Some n /\
    let tail :=
      highlights_block (Some h) fd ;;
      height_block (Some h) (chosen_city k data (city_choice inp))
                   (min_height inp) fd sorted_data ;;
      ret data in
    dashboard argsort loaded summary inp
    = ([Sidebar_write (fst summary) (snd summary);
        Selectbox (city_options k data); Radio;
        Caption_sorted (chosen_city k data (city_choice inp)) (sort_order inp);
        Write_table shown;
        Subheader "Average Height of Skyscrapers by City";
        Write_table g]
       ++ (if empty (city_rows k data (city_choice inp)) then []
           else [Balloons])
       ++ page tail,
       result tail).
Proof.
  intros data fd sorted_data.
  assert (Hcols : columns fd = map (rename_label coordinate_names)
                                   (columns loaded)) by reflexivity.
  assert (Hnd : NoDup (map (rename_label (display_names h)) (columns fd)))
    by exact different.
  unfold height_columns in detected. fold names_height in detected.
  destruct (filtered_columns _ detected) as (Hh1 & Hv1 & Hn1 & Hk1 & Hla & Hlo).
  rewrite <- Hcols in Hh1, Hv1, Hn1, Hk1, Hla, Hlo.
  rewrite height_at in Hv1. rewrite has_name in Hn1. rewrite has_city in Hk1.
  assert (Ph : names_height h = true).
  { assert (Hin : In h (filter names_height (columns loaded)))
      by (rewrite detected; now left).
    apply filter_In in Hin. tauto. }
  destruct (@sort_block_done argsort h rest
              (chosen_city k data (city_choice inp)) (sort_order inp) fd
              Hh1 (located_In _ _ Hn1) (located_In _ _ Hk1) Hnd)
    as (i' & m & c & shown & Hi' & Hsd).
  rewrite Hv1 in Hi'. injection Hi' as <-.
  cbv zeta in Hsd. fold sorted_data in Hsd.
  destruct Hsd as (HH & _ & _ & Hsort).
  assert (HN : get_loc "Name" (columns sorted_data) = Some n).
  { exact (@get_loc_map_different (rename_label (display_names h)) "name"
             (columns fd) n Hnd Hn1). }
  destruct (@group_block_runs h data k v Ph has_city height_at) as [g Hg].
  exists shown, g.
  assert (Hkeep : forall c0, names_height c0 = false -> c0 <> "name" ->
                    c0 <> "location.city" ->
                    In c0 (columns fd) -> In c0 (columns sorted_data)).
  { intros c0 P0 N1 N2 Hin.
    rewrite <- (@display_names_keep h c0 Ph P0 N1 N2).
    now apply (in_map (rename_label (display_names h))). }
  split; [exact HH |]. split; [exact HN |].
  split.
  { apply Hkeep; [reflexivity | discriminate | discriminate |].
    apply Hla. exact (located_In _ _ has_latitude). }
  split.
  { apply Hkeep; [reflexivity | discriminate | discriminate |].
    apply Hlo. exact (located_In _ _ has_longitude). }
  split; [exact Hv1 |]. split; [exact Hn1 |].
  intros tail. unfold dashboard.
  eapply run_eq.
  - eapply bind_runs; [reflexivity |].
    eapply bind_runs; [exact (dropna_done loaded has_latitude has_longitude) |].
    fold data. eapply bind_runs.
    { unfold detect_height.
      change (height_columns data) with (filter names_height (columns loaded)).
      rewrite detected. reflexivity. }
    eapply bind_runs;
      [exact (@city_filter_done data (city_choice inp) k has_city) |].
    cbn [fst snd].
    change (rename _ (select _ data)) with fd.
    change (selectbox _ (city_choice inp))
      with (chosen_city k data (city_choice inp)).
    eapply bind_runs; [exact Hsort |].
    eapply bind_runs; [exact Hg |].
    eapply bind_runs; [apply balloons_runs |].
    apply run_pair. reflexivity.
  - unfold fd, filtered_frame. rewrite empty_rename.
    cbn [app]. fold fd. fold sorted_data. fold tail. reflexivity.
Qed.

(** Lines 56-239 end at line 127 with an exception when the selected city
    has rows and none of them has a height: the heading of the highlights
    is the last thing written. *)
Lemma dashboard_raises :
  let data := dropna_at lat lon loaded in
  let chosen := city_rows k data (city_choice inp) in
  rows chosen <> [] ->
  (forall r q, In r (rows chosen) -> at_loc v r <> Num q) ->
  exists shown g e,
    dashboard argsort loaded summary inp
    = ([Sidebar_write (fst summary) (snd summary);
        Selectbox (city_options k data); Radio;
        Caption_sorted (chosen_city k data (city_choice inp)) (sort_order inp);
        Write_table shown;
        Subheader "Average Height of Skyscrapers by City";
        Write_table g;
        Balloons;
        Subheader "Key Highlights"],
       Raised e).
Proof.
  intros data chosen Hne Hnone.
  destruct dashboard_with_height
    as (shown & g & _ & _ & _ & _ & Hv & _ & Hrun).
  fold data in Hv, Hrun. cbv zeta in Hrun.
  set (fd := filtered_frame k data (city_choice inp)) in *.
  destruct (@highlights_block_raises h fd v Hv Hne Hnone) as (e & Hhl).
  exists shown, g, e. rewrite Hrun.
  assert (Hempty : empty chosen = false).
  { unfold empty. destruct (rows chosen); [now elim Hne |].
    change (columns chosen) with (columns loaded).
    destruct (columns loaded); [discriminate has_city | reflexivity]. }
  fold chosen. rewrite Hempty, Hhl. reflexivity.
Qed.

End WellFormed.

Section ScriptOutcome.

Variable file : Type.
Variable read_excel : file -> string + table.
Variable argsort : list Q -> list nat.
Variable inp : Inputs file.
Variable f : file.
Variable s : sheet.
Variables lat lon k n v : nat.
Variable h : string.
Variable rest : list string.

Hypothesis uploaded : uploaded_file inp = Some f.
Hypothesis parsed : read_excel f = inr (table_of_sheet s).
Hypothesis has_latitude : get_loc "location.latitude" (header s) = Some lat.
Hypothesis has_longitude : get_loc "location.longitude" (header s) = Some lon.
Hypothesis has_city : get_loc "location.city" (header s) = Some k.
Hypothesis has_name : get_loc "name" (header s) = Some n.
Hypothesis detected : height_columns (frame_of_sheet s) = h :: rest.
Hypothesis height_at : get_loc h (header s) = Some v.
Hypothesis different : NoDup (displayed_labels h (header s)).

(** X9: On a sheet with the expected columns, labels that stay different
    through the two renamings and a float height column, a run ends with an
    exception at line 127 when the selected city has rows (with
    coordinates) and none of them has a height.  The page then stops at the
    heading of the highlights: no highlights, no slider, no map and no pie
    chart. *)
Theorem script_raises_without_heights :
  let data := dropna_at lat lon (frame_of_sheet s) in
  let chosen := city_rows k data (city_choice inp) in
  float_column v (frame_of_sheet s) ->
  rows chosen <> [] ->
  (forall r, In r (rows chosen) -> at_loc v r = NA) ->
  exists shown g e,
    script read_excel argsort inp
    = ([Markdown_style; Title "Skyscrapers Around the United States";
        File_uploader;
        Sidebar_write (List.length (body s)) (List.length (header s));
        Selectbox (city_options k data); Radio;
        Caption_sorted (chosen_city k data (city_choice inp)) (sort_order inp);
        Write_table shown;
        Subheader "Average Height of Skyscrapers by City";
        Write_table g;
        Balloons;
        Subheader "Key Highlights"],
       Raised e).
Proof.
  intros data chosen _ Hne Hblank.
  assert (Hnone : forall r q, In r (rows chosen) -> at_loc v r <> Num q).
  { intros r q Hr. rewrite (Hblank r Hr). discriminate. }
  destruct (@dashboard_raises argsort file (frame_of_sheet s)
              (List.length (body s), List.length (header s)) inp
              lat lon k n v h rest has_latitude has_longitude has_city
              has_name detected height_at different Hne Hnone)
    as (shown & g & e & Hrun).
  exists shown, g, e.
  rewrite (@script_after_load file read_excel argsort inp f s _ _
             uploaded parsed Hrun).
  reflexivity.
Qed.

End ScriptOutcome.

Lemma script_raises_without_heights_witness :
  let data := dropna_at 2 3 (frame_of_sheet Sheets.s3) in
  exists shown g e,
    script Sheets.read insertion_argsort Sheets.inp3
    = ([Markdown_style; Title "Skyscrapers Around the United States";
        File_uploader;
        Sidebar_write (List.length (body Sheets.s3))
                      (List.length (header Sheets.s3));
        Selectbox (city_options 1 data); Radio;
        Caption_sorted (chosen_city 1 data (city_choice Sheets.inp3))
                       (sort_order Sheets.inp3);
        Write_table shown;
        Subheader "Average Height of Skyscrapers by City";
        Write_table g;
        Balloons;
        Subheader "Key Highlights"],
       Raised e).
Proof.
  apply (@script_raises_without_heights _ Sheets.read insertion_argsort
           Sheets.inp3 (inr Sheets.s3) Sheets.s3 2 3 1 0 4
           "statistics.height" []); try reflexivity.
  - apply all_different_iff. reflexivity.
  - repeat constructor.
  - discriminate.
  - intros r [<- | [<- | []]]; reflexivity.
Defined.

(** ** Where the rows on the page come from *)

Lemma filter_by_height_silent (P : element -> Prop) (sd : DataFrame) (m : Z) :
  all_on_page P (filter_by_height sd m).
Proof. unfold filter_by_height. on_page fail. Qed.

Lemma filter_by_height_rows (sd fbh : DataFrame) (m : Z) :
  result (filter_by_height sd m) = Done fbh -> incl (rows fbh) (rows sd).
Proof.
  unfold filter_by_height. intros H.
  apply bind_result_inv in H. destruct H as (i & _ & H).
  injection H as <-. intros r Hr. cbn [select rows] in Hr.
  apply filter_In in Hr. tauto.
Qed.

Lemma sort_block_rows (argsort : list Q -> list nat) (hname : option string)
    (sel : option cell) (o : Order) (fd sd : DataFrame) :
  result (sort_block argsort hname sel o fd) = Done sd ->
  incl (rows sd) (rows fd).
Proof.
  unfold sort_block. intros H.
  apply bind_result_inv in H. destruct H as (? & _ & H).
  destruct hname as [h |].
  - apply bind_result_inv in H. destruct H as (i & _ & H).
    repeat (apply bind_result_inv in H; destruct H as (? & _ & H)).
    injection H as <-. intros r Hr. cbn [rename rows sort_values_at] in Hr.
    eapply take_In. exact Hr.
  - apply bind_result_inv in H. destruct H as (? & _ & H).
    injection H as <-. apply incl_refl.
Qed.

Lemma city_filter_rows (data : DataFrame) (choice : nat)
    (cf : option cell * DataFrame) :
  result (city_filter data choice) = Done cf ->
  incl (rows (snd cf)) (rows data).
Proof.
  unfold city_filter. intros H.
  apply bind_result_inv in H. destruct H as (k & _ & H).
  apply bind_result_inv in H. destruct H as (? & _ & H).
  injection H as <-. intros r Hr. cbn [snd rename select rows] in Hr.
  apply filter_In in Hr. tauto.
Qed.

Lemma dropna_rows (loaded data : DataFrame) (lat lon : nat) :
  get_loc "location.latitude" (columns loaded) = Some lat ->
  get_loc "location.longitude" (columns loaded) = Some lon ->
  result (dropna loaded) = Done data ->
  forall r, In r (rows data) ->
            In r (rows loaded) /\ at_loc lat r <> NA /\ at_loc lon r <> NA.
Proof.
  intros Hlat Hlon H r Hr. rewrite (dropna_done loaded Hlat Hlon) in H.
  injection H as <-. unfold dropna_at, select in Hr. cbn [rows] in Hr.
  apply filter_In in Hr. rewrite andb_true_iff, !notna_iff in Hr. tauto.
Qed.

Lemma shows_rows_of_weaken (ok ok' : Row -> Prop) (e : element) :
  (forall r, ok r -> ok' r) -> shows_rows_of ok e -> shows_rows_of ok' e.
Proof.
  intros H. destruct e; simpl; auto.
  intros (r & Hr & E). exists r. split; [now apply H | exact E].
Qed.

Lemma In_firstn (A : Type) (n : nat) (l : list A) (x : A) :
  In x (firstn n l) -> In x l.
Proof.
  revert l. induction n as [| n IH]; intros [| a l]; simpl; try tauto.
  intros [-> | H]; [now left | right; now apply IH].
Qed.

Ltac no_rows := cbv beta; exact I.

(** Lines 181-239 show rows of the sorted frame only. *)
Lemma height_block_shows (hname : option string) (sel : option cell) (m : Z)
    (fd sd : DataFrame) :
  all_on_page (shows_rows_of (fun r => In r (rows sd)))
              (height_block hname sel m fd sd).
Proof.
  unfold height_block.
  destruct (empty fd); [apply all_ret |].
  destruct hname as [h |]; [| apply all_ret].
  apply all_bind; [apply all_emit; no_rows | intros _ _].
  apply all_bind; [apply slider_args_silent |]. intros e He.
  destruct (slider_args_done _ _ He) as (top & ->).
  apply all_bind; [apply all_emit; no_rows | intros _ _].
  apply all_bind; [apply filter_by_height_silent |]. intros fbh Hfbh.
  apply filter_by_height_rows in Hfbh.
  unfold map_block, histogram_block, sample_block.
  on_page no_rows.
  - apply all_emit. intros r Hr. now apply Hfbh.
  - apply all_write_frame. intros r Hr. now apply Hfbh.
  - match goal with
    | H : rows (head 5 fbh) = _ |- _ => rename H into Hhead
    end.
    apply Forall_forall. intros x Hx. rewrite <- Hhead in Hx.
    apply in_map_iff in Hx. destruct Hx as (y & <- & Hy).
    exists y. split; [| reflexivity]. apply Hfbh.
    cbn [head rows] in Hy. eapply In_firstn. exact Hy.
Qed.

Lemma range_index_from_position (l : list (list cell)) (z : Z) (r : Row) :
  In r (range_index_from z l) ->
  (z <= label r)%Z /\
  nth_error l (Z.to_nat (label r - z)) = Some (cells r).
Proof.
  revert z. induction l as [| c l IH]; intros z; simpl; [tauto |].
  intros [<- | H].
  - simpl. split; [lia |]. now rewrite Z.sub_diag.
  - destruct (IH _ H) as [Hle Hnth]. split; [lia |].
    replace (Z.to_nat (label r - z)) with (S (Z.to_nat (label r - (z + 1))))
      by lia.
    exact Hnth.
Qed.

(** The index label of a row of the loaded table is its position in the
    sheet, counted from 0. *)
Lemma frame_of_sheet_position (s : sheet) (r : Row) :
  In r (rows (frame_of_sheet s)) ->
  (0 <= label r)%Z /\ nth_error (body s) (Z.to_nat (label r)) = Some (cells r).
Proof.
  intros H. apply range_index_from_position in H.
  now rewrite Z.sub_0_r in H.
Qed.

Section ShownRows.

Variable file : Type.
Variable read_excel : file -> string + table.
Variable argsort : list Q -> list nat.

Lemma dashboard_shows (loaded : DataFrame) (summary : nat * nat)
    (inp : Inputs file) (lat lon : nat) :
  get_loc "location.latitude" (columns loaded) = Some lat ->
  get_loc "location.longitude" (columns loaded) = Some lon ->
  all_on_page
    (shows_rows_of (fun r => In r (rows loaded) /\
                             at_loc lat r <> NA /\ at_loc lon r <> NA))
    (dashboard argsort loaded summary inp).
Proof.
  intros Hlat Hlon. unfold dashboard.
  apply all_bind; [apply all_emit; no_rows | intros _ _].
  apply all_bind; [unfold dropna; on_page no_rows |]. intros data Hdata.
  apply all_bind; [unfold detect_height; on_page no_rows |]. intros hname _.
  apply all_bind; [unfold city_filter; on_page no_rows |]. intros cf Hcf.
  apply all_bind; [unfold sort_block, project; on_page no_rows |].
  intros sd Hsd.
  apply all_bind; [unfold group_block, city_group; on_page no_rows |].
  intros _ _.
  apply all_bind; [on_page no_rows | intros _ _].
  apply all_bind.
  { unfold highlights_block. on_page no_rows; returned_elements; no_rows. }
  intros _ _.
  apply all_bind; [| intros _ _; apply all_ret].
  eapply Forall_impl; [| apply height_block_shows].
  intros e. apply shows_rows_of_weaken. intros r Hr.
  apply (dropna_rows loaded Hlat Hlon Hdata).
  apply (city_filter_rows _ _ Hcf). apply (sort_block_rows _ _ _ _ _ Hsd).
  exact Hr.
Qed.

(** A property of elements holds on the page of a run on a file that
    parses as soon as it holds of the three opening elements, on the page of
    lines 56-239 and on the page of the pie chart section. *)
Lemma script_all_on_page (P : element -> Prop) (inp : Inputs file) (f : file)
    (s : sheet) :
  uploaded_file inp = Some f ->
  read_excel f = inr (table_of_sheet s) ->
  P Markdown_style ->
  P (Title "Skyscrapers Around the United States") ->
  P File_uploader ->
  (forall summary,
      all_on_page P (dashboard argsort (frame_of_sheet s) summary inp)) ->
  (forall summary d,
      result (dashboard argsort (frame_of_sheet s) summary inp) = Done d ->
      all_on_page P (pie_block argsort (Some d))) ->
  all_on_page P (script read_excel argsort inp).
Proof.
  intros Hf He P1 P2 P3 Hdash Hpie. unfold script.
  apply all_bind; [now apply all_emit | intros _ _].
  apply all_bind; [now apply all_emit | intros _ _].
  apply all_bind; [now apply all_emit | intros _ _].
  rewrite (main_block_sheet read_excel argsort inp Hf He).
  apply all_bind.
  - apply all_bind; [apply Hdash | intros ? ?; apply all_ret].
  - intros data Hmain.
    apply bind_result_inv in Hmain. destruct Hmain as (d & Hd & Hret).
    injection Hret as <-. exact (Hpie _ _ Hd).
Qed.

(** X13: Every point of the map, every row of the table in the expander
    and every sample line is a row of the uploaded sheet that has both
    coordinates. *)
Theorem shown_rows_have_coordinates (inp : Inputs file) (f : file) (s : sheet)
    (lat lon : nat) :
  uploaded_file inp = Some f ->
  read_excel f = inr (table_of_sheet s) ->
  get_loc "location.latitude" (header s) = Some lat ->
  get_loc "location.longitude" (header s) = Some lon ->
  Forall (shows_rows_of
            (fun r => In r (rows (frame_of_sheet s)) /\
                      at_loc lat r <> NA /\ at_loc lon r <> NA))
         (page (script read_excel argsort inp)).
Proof.
  intros Hf He Hlat Hlon.
  apply (@script_all_on_page _ inp f s Hf He); try exact I.
  - intros summary. now apply dashboard_shows.
  - intros summary d _. unfold pie_block. on_page no_rows.
Qed.

Lemma getcol_result (c : string) (df : DataFrame) (i : nat) :
  result (getcol c df) = Done i -> get_loc c (columns df) = Some i.
Proof.
  unfold getcol. destruct (get_loc c (columns df)); [| discriminate].
  now intros [= ->].
Qed.

Lemma sample_of_weaken (n v : nat) (ok ok' : Row -> Prop) (e : element) :
  (forall r, ok r -> ok' r) -> sample_of n v ok e -> sample_of n v ok' e.
Proof.
  intros H. destruct e; simpl; auto.
  intros (r & Hr & E). exists r. split; [now apply H | exact E].
Qed.

(** The sample lines of lines 237-239 are lines of rows of the sorted frame,
    with the cells of its columns Name and Height. *)
Lemma height_block_samples (hname : option string) (sel : option cell)
    (m : Z) (fd sd : DataFrame) (n v : nat) :
  get_loc "Name" (columns sd) = Some n ->
  get_loc "Height" (columns sd) = Some v ->
  all_on_page (sample_of n v (fun r => In r (rows sd)))
              (height_block hname sel m fd sd).
Proof.
  intros Hn Hv. unfold height_block.
  destruct (empty fd); [apply all_ret |].
  destruct hname as [h |]; [| apply all_ret].
  apply all_bind; [apply all_emit; no_rows | intros _ _].
  apply all_bind; [apply slider_args_silent |]. intros e He.
  destruct (slider_args_done _ _ He) as (top & ->).
  apply all_bind; [apply all_emit; no_rows | intros _ _].
  apply all_bind; [apply filter_by_height_silent |]. intros fbh Hfbh.
  assert (Hcols : columns fbh = columns sd).
  { unfold filter_by_height in Hfbh.
    apply bind_result_inv in Hfbh. destruct Hfbh as (i & _ & Hfbh).
    now injection Hfbh as <-. }
  apply filter_by_height_rows in Hfbh.
  unfold map_block, histogram_block, sample_block.
  on_page no_rows.
  match goal with
  | H : rows (head 5 fbh) = _ |- _ => rename H into Hhead
  end.
  repeat match goal with
         | H : result (getcol _ fbh) = Done _ |- _ =>
             apply getcol_result in H; rewrite Hcols in H
         end.
  match goal with
  | H : get_loc "Name" (columns sd) = Some ?a |- _ =>
      assert (a = n) by congruence; subst a
  end.
  match goal with
  | H : get_loc "Height" (columns sd) = Some ?a |- _ =>
      assert (a = v) by congruence; subst a
  end.
  apply Forall_forall. intros x Hx. rewrite <- Hhead in Hx.
  apply in_map_iff in Hx. destruct Hx as (y & <- & Hy).
  exists y. split; [| repeat split]. apply Hfbh.
  cbn [head rows] in Hy. eapply In_firstn. exact Hy.
Qed.

(** X14: A sample line is the line of one row of the uploaded sheet: its
    number is the position of that row in the sheet, counted from 1 (the
    index label that [read_excel] gave the row, plus one), and not its rank
    in the list; the name and the height printed on the line are the cells
    of that row under [name] and under the detected height column; and that
    row has both coordinates.  The sheet is one whose labels stay different
    through the two renamings. *)
Theorem sample_lines_numbered_by_sheet (inp : Inputs file) (f : file)
    (s : sheet) (lat lon k n v : nat) (h : string) (rest : list string)
    (number : Z) (name height : cell) :
  uploaded_file inp = Some f ->
  read_excel f = inr (table_of_sheet s) ->
  get_loc "location.latitude" (header s) = Some lat ->
  get_loc "location.longitude" (header s) = Some lon ->
  get_loc "location.city" (header s) = Some k ->
  get_loc "name" (header s) = Some n ->
  height_columns (frame_of_sheet s) = h :: rest ->
  get_loc h (header s) = Some v ->
  NoDup (displayed_labels h (header s)) ->
  In (Write_sample number name height)
     (page (script read_excel argsort inp)) ->
  (1 <= number)%Z /\
  exists cells,
    nth_error (body s) (Z.to_nat (number - 1)) = Some cells /\
    name = nth n cells NA /\
    height = nth v cells NA /\
    nth lat cells NA <> NA /\ nth lon cells NA <> NA.
Proof.
  intros Hf He Hlat Hlon Hk Hn Hh Hv Hnd Hin.
  set (ok := fun r => In r (rows (frame_of_sheet s)) /\
                      at_loc lat r <> NA /\ at_loc lon r <> NA).
  assert (Hall : all_on_page (sample_of n v ok)
                             (script read_excel argsort inp)).
  { apply (@script_all_on_page _ inp f s Hf He); try exact I.
    - intros summary.
      destruct (@dashboard_with_height argsort file (frame_of_sheet s)
                  summary inp lat lon k n v h rest Hlat Hlon Hk Hn Hh Hv Hnd)
        as (shown & g & HH & HN & _ & _ & _ & _ & Hrun).
      cbv zeta in Hrun. unfold all_on_page. rewrite Hrun. cbn [page fst].
      repeat (apply Forall_cons; [exact I |]).
      apply Forall_app. split; [destruct (empty _); repeat constructor |].
      apply all_bind.
      { unfold highlights_block. on_page no_rows; returned_elements; no_rows. }
      intros _ _.
      apply all_bind; [| intros _ _; apply all_ret].
      eapply Forall_impl;
        [| exact (@height_block_samples _ _ _ _ _ _ _ HN HH)].
      intros e. apply sample_of_weaken. intros r Hr.
      cbn [rename rows sort_values_at] in Hr. apply take_In in Hr.
      unfold filtered_frame, city_rows, dropna_at, select in Hr.
      cbn [rename rows] in Hr.
      apply filter_In in Hr. destruct Hr as [Hr _].
      apply filter_In in Hr. destruct Hr as [Hr Hna].
      rewrite andb_true_iff, !notna_iff in Hna.
      split; [exact Hr | exact Hna].
    - intros summary d _. unfold pie_block. on_page no_rows. }
  unfold all_on_page in Hall.
  rewrite Forall_forall in Hall. specialize (Hall _ Hin). simpl in Hall.
  destruct Hall as (r & (Hr & Hla & Hlo) & -> & -> & ->).
  apply frame_of_sheet_position in Hr. destruct Hr as [Hpos Hnth].
  split; [lia |]. exists (cells r).
  replace (label r + 1 - 1)%Z with (label r) by lia.
  split; [exact Hnth |]. repeat split; [exact Hla | exact Hlo].
Qed.

End ShownRows.

(** ** The pie chart (C7) *)

Section PieChart.

Variable file : Type.
Variable read_excel : file -> string + table.
Variable argsort : list Q -> list nat.

(** Lines 56-239 draw no pie chart. *)
Lemma dashboard_no_pie (data : DataFrame) (top : list (cell * nat))
    (loaded : DataFrame) (summary : nat * nat) (inp : Inputs file) :
  all_on_page (pie_of data top) (dashboard argsort loaded summary inp).
Proof.
  unfold dashboard, dropna, detect_height, city_filter, sort_block, project,
    group_block, city_group, highlights_block, height_block,
    filter_by_height, map_block, histogram_block, sample_block.
  on_page no_rows; returned_elements; no_rows.
Qed.

(** C7, as amended: the pie chart section works on the table left by line
    59, the loaded table without the rows that lack a coordinate.  When that
    table has a row, the section writes its heading and a pie chart with one
    slice per entry of [top]: each city of that table has exactly one entry
    in [top ++ rest] with the number of its rows in that table; [top] holds
    at most ten entries, ten when something is left out; no count left out
    is above a count shown, and the counts shown are in non-increasing
    order.  When that table has no row, the section writes the warning of
    line 271 and no chart.  No other pie chart is on the page of a run, and
    a run that ends normally ends with that section. *)
Theorem pie_chart_spec (inp : Inputs file) (f : file) (s : sheet)
    (lat lon k : nat) :
  argsort_ok argsort ->
  uploaded_file inp = Some f ->
  read_excel f = inr (table_of_sheet s) ->
  get_loc "location.latitude" (header s) = Some lat ->
  get_loc "location.longitude" (header s) = Some lon ->
  get_loc "location.city" (header s) = Some k ->
  let data := dropna_at lat lon (frame_of_sheet s) in
  let out := script read_excel argsort inp in
  exists top rest : list (cell * nat),
    pie_block argsort (Some data)
    = (match rows data with
       | [] => [Warning "Data is not defined or empty."]
       | _ :: _ => [Subheader "Distribution of Skyscrapers by City";
                    Pie (map snd top) (map fst top)]
       end,
       Done tt) /\
    (forall counts labels,
        In (Pie counts labels) (page out) ->
        rows data <> [] /\ counts = map snd top /\ labels = map fst top) /\
    (result out = Done tt ->
     exists before, page out = before ++ page (pie_block argsort (Some data))) /\
    List.length top <= 10 /\
    (rest <> [] -> List.length top = 10) /\
    (forall r, In r (rows data) -> notna (at_loc k r) = true ->
       exists key,
         filter (fun kc => same_key (at_loc k r) (fst kc)) (top ++ rest)
         = [(key,
             List.length (filter (fun r' => same_key (at_loc k r) (at_loc k r'))
                                 (rows data)))]) /\
    (forall kc, In kc (top ++ rest) ->
       notna (fst kc) = true /\
       exists r, In r (rows data) /\ at_loc k r = fst kc) /\
    (forall a b, In a top -> In b rest -> snd b <= snd a) /\
    StronglySorted (fun a b => snd b <= snd a) top.
Proof.
  intros Hok Hf He Hlat Hlon Hk data out.
  destruct (top_cities_spec data k Hok) as (rest & Hspec). cbv zeta in Hspec.
  set (top := top_cities argsort k data) in *.
  exists top, rest.
  assert (Hpie : pie_block argsort (Some data)
                 = (match rows data with
                    | [] => [Warning "Data is not defined or empty."]
                    | _ :: _ => [Subheader "Distribution of Skyscrapers by City";
                                 Pie (map snd top) (map fst top)]
                    end,
                    Done tt)).
  { unfold pie_block, empty.
    change (columns data) with (header s).
    destruct (rows data); [reflexivity |].
    destruct (header s); [discriminate Hk |].
    rewrite bind_emit, Hk. reflexivity. }
  split; [exact Hpie |].
  split; [| split; [| exact Hspec]].
  - intros counts labels Hin.
    assert (Hall : all_on_page (pie_of data top) out).
    { apply (@script_all_on_page _ read_excel argsort _ inp f s Hf He);
        try exact I.
      - intros summary. apply dashboard_no_pie.
      - intros summary d Hd.
        rewrite (@dashboard_returns_kept _ _ (frame_of_sheet s) _ _ _ _ _
                   Hlat Hlon Hd).
        fold data. unfold all_on_page. rewrite Hpie. cbn [page fst].
        destruct (rows data) eqn:Hrows; [repeat constructor |].
        constructor; [exact I |]. constructor; [| constructor].
        unfold pie_of. rewrite Hrows. repeat split. discriminate. }
    unfold all_on_page in Hall. rewrite Forall_forall in Hall.
    exact (Hall _ Hin).
  - intros Hdone.
    exact (@script_ends_with_pie file read_excel argsort inp f s lat lon
             Hf He Hlat Hlon Hdone).
Qed.

End PieChart.

Lemma pie_chart_spec_witness :
  let data := dropna_at 2 3 (frame_of_sheet Sheets.s8) in
  let out := script Sheets.read insertion_argsort Sheets.inp8 in
  exists top rest : list (cell * nat),
    pie_block insertion_argsort (Some data)
    = (match rows data with
       | [] => [Warning "Data is not defined or empty."]
       | _ :: _ => [Subheader "Distribution of Skyscrapers by City";
                    Pie (map snd top) (map fst top)]
       end,
       Done tt) /\
    (forall counts labels,
        In (Pie counts labels) (page out) ->
        rows data <> [] /\ counts = map snd top /\ labels = map fst top) /\
    (result out = Done tt ->
     exists before,
       page out = before ++ page (pie_block insertion_argsort (Some data))) /\
    List.length top <= 10 /\
    (rest <> [] -> List.length top = 10) /\
    (forall r, In r (rows data) -> notna (at_loc 1 r) = true ->
       exists key,
         filter (fun kc => same_key (at_loc 1 r) (fst kc)) (top ++ rest)
         = [(key,
             List.length (filter (fun r' => same_key (at_loc 1 r) (at_loc 1 r'))
                                 (rows data)))]) /\
    (forall kc, In kc (top ++ rest) ->
       notna (fst kc) = true /\
       exists r, In r (rows data) /\ at_loc 1 r = fst kc) /\
    (forall a b, In a top -> In b rest -> snd b <= snd a) /\
    StronglySorted (fun a b => snd b <= snd a) top.
Proof.
  apply (@pie_chart_spec _ Sheets.read insertion_argsort Sheets.inp8
           (inr Sheets.s8) Sheets.s8 2 3 1); try reflexivity.
  exact insertion_argsort_ok.
Defined.

(** On that sheet of twelve cities the run ends normally with the pie chart
    of the ten cities with the most towers; the tower without a longitude is
    not counted for its city. *)
Example pie_chart_of_twelve :
  result (script Sheets.read insertion_argsort Sheets.inp8) = Done tt /\
  last (page (script Sheets.read insertion_argsort Sheets.inp8)) Balloons
  = Pie [3; 2; 1; 1; 1; 1; 1; 1; 1; 1]
        [Str "k"; Str "bb"; Str "a"; Str "b"; Str "c"; Str "d"; Str "e";
         Str "f"; Str "g"; Str "h"].
Proof. split; reflexivity. Qed.

(** C7 as stated fails on a loaded table of two rows with a city column in
    which every row lacks a coordinate: the run ends normally with the
    warning of line 271 and draws no pie chart.  And where a chart is drawn,
    the counts are not those of the loaded table: NYC has three rows in the
    sheet of the example and counts two. *)
Lemma pie_chart_not_drawn :
  List.length (rows (frame_of_sheet Sheets.s6)) = 2 /\
  get_loc "location.city" (header Sheets.s6) = Some 1 /\
  script Sheets.read insertion_argsort Sheets.inp6
  = ([Markdown_style; Title "Skyscrapers Around the United States";
      File_uploader; Sidebar_write 2 5; Selectbox []; Radio;
      Caption_sorted None Descending;
      Write_table (mkDF ["Name"; "Location"; "Height"] []);
      Subheader "Average Height of Skyscrapers by City";
      Write_table (mkDF ["Location"; "Height"] []);
      Subheader "Key Highlights";
      Warning "No data available for the selected city.";
      Warning "Data is not defined or empty."],
     Done tt) /\
  List.length (filter (fun r => cell_eq (at_loc 1 r) (Str "NYC"))
                      (rows (frame_of_sheet Sheets.s1))) = 3 /\
  last (page (script Sheets.read insertion_argsort Sheets.inp1)) Balloons
  = Pie [2; 1] [Str "NYC"; Str "LA"].
Proof. repeat split. Qed.

(** ** The detected height column *)

Lemma filter_head_iff (p : string -> bool) (cols : list string) (h : string) :
  (exists rest, filter p cols = h :: rest) <->
  exists i, nth_error cols i = Some h /\ p h = true /\
            forall j c, j < i -> nth_error cols j = Some c -> p c = false.
Proof.
  split.
  - intros (rest & H). destruct (get_loc_first _ _ H) as (i & Hi & Hbefore).
    exists i. split; [now apply get_loc_nth |]. split; [| exact Hbefore].
    assert (Hin : In h (filter p cols)) by (rewrite H; now left).
    apply filter_In in Hin. tauto.
  - intros (i & Hi & Ph & Hbefore). revert i Hi Hbefore.
    induction cols as [| c cols IH]; intros i Hi Hbefore.
    + destruct i; discriminate Hi.
    + destruct i as [| i]; simpl in *.
      * injection Hi as ->. rewrite Ph. now eexists.
      * assert (Pc : p c = false) by (apply (Hbefore 0 c); [lia | reflexivity]).
        rewrite Pc.
        apply (IH i Hi). intros j c' Hj Hc'. apply (Hbefore (S j) c'); [lia |].
        exact Hc'.
Qed.

Lemma detect_height_text (data : DataFrame) :
  exists o,
    detect_height data
    = (match o with
       | Some _ => []
       | None => [Sidebar_error "No column containing 'height' found!"]
       end,
       Done o) /\
    (forall h,
        o = Some h <->
        exists i,
          nth_error (columns data) i = Some h /\ mentions_height h /\
          forall j c, j < i -> nth_error (columns data) j = Some c ->
                      ~ mentions_height c) /\
    (o = None <-> forall c, In c (columns data) -> ~ mentions_height c).
Proof.
  unfold detect_height, height_columns. fold names_height.
  destruct (filter names_height (columns data)) as [| h0 rest] eqn:E.
  - exists None. split; [reflexivity |].
    assert (Hnone : forall c, In c (columns data) -> ~ mentions_height c).
    { intros c Hc Hm. apply names_height_iff in Hm.
      assert (Hin : In c (filter names_height (columns data)))
        by (apply filter_In; tauto).
      rewrite E in Hin. destruct Hin. }
    split; [| tauto].
    intros h. split; [discriminate |].
    intros (i & Hi & Hm & _). apply nth_error_In in Hi.
    now elim (Hnone h Hi).
  - exists (Some h0). split; [reflexivity |].
    assert (Hfirst : exists rest', filter names_height (columns data)
                                   = h0 :: rest') by now exists rest.
    apply filter_head_iff in Hfirst. destruct Hfirst as (i0 & Hi0 & P0 & B0).
    split.
    + intros h. split.
      * intros [= <-]. exists i0. split; [exact Hi0 |].
        split; [now apply names_height_iff |].
        intros j c Hj Hc Hm. apply names_height_iff in Hm.
        now rewrite (B0 j c Hj Hc) in Hm.
      * intros (i & Hi & Hm & Hbefore). f_equal.
        assert (Hex : exists rest', filter names_height (columns data)
                                    = h :: rest').
        { apply filter_head_iff. exists i. split; [exact Hi |].
          split; [now apply names_height_iff |].
          intros j c Hj Hc. destruct (names_height c) eqn:Pc; [| reflexivity].
          apply names_height_iff in Pc. now elim (Hbefore j c Hj Hc). }
        destruct Hex as (rest' & Hex). rewrite E in Hex. now injection Hex.
    + split; [discriminate |]. intros Hnone.
      apply nth_error_In in Hi0. apply names_height_iff in P0.
      now elim (Hnone h0 Hi0).
Qed.

(** X5: Lines 62-69.  On a table whose labels are all text they never fail:
    they give the first label, in column order, that contains "height" in
    some mix of cases, and give [None], with the message of line 68, exactly
    when no label does.  On a table with the two coordinate columns and a
    label that is not text (a number or a date in the header row) line 62
    raises AttributeError: the run ends there, with the sidebar message as
    the last thing on the page. *)
Theorem detect_height_first :
  (forall data : DataFrame,
      exists o,
        detect_height data
        = (match o with
           | Some _ => []
           | None => [Sidebar_error "No column containing 'height' found!"]
           end,
           Done o) /\
        (forall h,
            o = Some h <->
            exists i,
              nth_error (columns data) i = Some h /\ mentions_height h /\
              forall j c, j < i -> nth_error (columns data) j = Some c ->
                          ~ mentions_height c) /\
        (o = None <-> forall c, In c (columns data) -> ~ mentions_height c)) /\
  (forall (file : Type) (read_excel : file -> string + table)
          (argsort : list Q -> list nat) (inp : Inputs file) (f : file)
          (data : table) (z : Z),
      uploaded_file inp = Some f ->
      read_excel f = inr data ->
      In (Text "location.latitude") (labels data) ->
      In (Text "location.longitude") (labels data) ->
      In (Number z) (labels data) ->
      script read_excel argsort inp
      = ([Markdown_style; Title "Skyscrapers Around the United States";
          File_uploader;
          Sidebar_write (List.length (lines data)) (List.length (labels data))],
         Raised (AttributeError "'int' object has no attribute 'lower'"))).
Proof.
  split; [exact detect_height_text |].
  intros file read_excel argsort inp f data z Hf He Hlat Hlon Hz.
  assert (Hnone : as_sheet data = None).
  { unfold as_sheet.
    destruct (text_labels (labels data)) as [names |] eqn:E; [| reflexivity].
    assert (Hn : text_labels (labels data) = None)
      by (apply text_labels_none; now exists z).
    congruence. }
  assert (Hla : existsb (carries "location.latitude") (labels data) = true).
  { apply existsb_exists. eexists. split; [exact Hlat | reflexivity]. }
  assert (Hlo : existsb (carries "location.longitude") (labels data) = true).
  { apply existsb_exists. eexists. split; [exact Hlon | reflexivity]. }
  unfold script, main_block, load_data. rewrite Hf, He, bind_ret.
  cbn [fst snd]. rewrite Hnone. unfold dashboard_no_text. rewrite Hla, Hlo.
  reflexivity.
Qed.

(** ** The city selector *)

Lemma unique_represents (l : list cell) (c : cell) :
  In c l -> exists key, In key (unique l) /\ same_key c key = true.
Proof.
  intros Hc. destruct (@unique_one l c) as (key & Hkey & _).
  { exists c. split; [exact Hc | apply same_key_refl]. }
  exists key.
  assert (Hin : In key (filter (same_key c) (unique l)))
    by (rewrite Hkey; now left).
  apply filter_In in Hin. exact Hin.
Qed.

Lemma selectbox_In (options : list cell) (choice : nat) (c : cell) :
  selectbox options choice = Some c -> In c options.
Proof.
  unfold selectbox. destruct (nth_error options choice) as [x |] eqn:E.
  - intros [= <-]. eapply nth_error_In. exact E.
  - destruct options; [discriminate |]. intros [= <-]. now left.
Qed.

Lemma cell_eq_refl (c : cell) : c <> NA -> cell_eq c c = true.
Proof.
  destruct c; simpl; intros H;
    [now elim H | apply Qeq_bool_refl | apply String.eqb_refl].
Qed.

(** X6: Lines 72-76.  The selector offers cities of the table, and every row's
    city is among the options (blank cities as one blank option).  A
    selected city that is not blank always has rows; the blank option, or an
    empty selector, leaves no row, because a blank equals nothing; and the
    selector is empty exactly when the table has no row. *)
Theorem city_selection (k : nat) (data : DataFrame) (choice : nat) :
  let options := city_options k data in
  let chosen := city_rows k data choice in
  (forall c, In c options -> exists r, In r (rows data) /\ at_loc k r = c) /\
  (forall r, In r (rows data) ->
     exists c, In c options /\ same_key (at_loc k r) c = true) /\
  (forall c, chosen_city k data choice = Some c -> c <> NA ->
     rows chosen <> []) /\
  (chosen_city k data choice = Some NA \/ chosen_city k data choice = None ->
     rows chosen = []) /\
  (chosen_city k data choice = None <-> rows data = []).
Proof.
  intros options chosen.
  split; [| split; [| split; [| split]]].
  - intros c Hc. apply column_values_In. now apply unique_incl.
  - intros r Hr. apply unique_represents, column_values_In. now exists r.
  - intros c Hsel Hc. pose proof Hsel as Hopt.
    apply selectbox_In, unique_incl, column_values_In in Hopt.
    destruct Hopt as (r & Hr & E).
    assert (Hin : In r (rows chosen)).
    { unfold chosen, city_rows, select. cbn [rows]. apply filter_In.
      split; [exact Hr |].
      rewrite Hsel. simpl. rewrite E. now apply cell_eq_refl. }
    intros Hnil. rewrite Hnil in Hin. destruct Hin.
  - intros Hsel. unfold chosen, city_rows, select. cbn [rows].
    assert (Hnone : forall r, eq_selected (chosen_city k data choice)
                                          (at_loc k r) = false).
    { intros r. destruct Hsel as [-> | ->]; simpl; [| reflexivity].
      now destruct (at_loc k r). }
    induction (rows data) as [| r l IH]; simpl; [reflexivity |].
    now rewrite Hnone.
  - unfold chosen_city, city_options, selectbox, values, column_at.
    destruct (rows data) as [| r l]; simpl.
    + split; [reflexivity |]. intros _. now destruct choice.
    + split; [| discriminate].
      destruct choice as [| choice]; simpl; [discriminate |].
      destruct (nth_error _ choice); discriminate.
Qed.

(** ** A sheet without the city column *)

(** X3: Line 72 raises KeyError on a sheet that has the coordinates but no city
    column: the page ends after the sidebar (with the message of line 68 if
    no height column was found either); no selector and no pie chart. *)
Theorem missing_city_raises (file : Type) (read_excel : file -> string + table)
    (argsort : list Q -> list nat) (inp : Inputs file) (f : file) (s : sheet)
    (lat lon : nat) :
  uploaded_file inp = Some f ->
  read_excel f = inr (table_of_sheet s) ->
  get_loc "location.latitude" (header s) = Some lat ->
  get_loc "location.longitude" (header s) = Some lon ->
  get_loc "location.city" (header s) = None ->
  script read_excel argsort inp
  = ([Markdown_style; Title "Skyscrapers Around the United States";
      File_uploader;
      Sidebar_write (List.length (body s)) (List.length (header s))]
     ++ match height_columns (frame_of_sheet s) with
        | [] => [Sidebar_error "No column containing 'height' found!"]
        | _ :: _ => []
        end,
     Raised (KeyError "location.city")).
Proof.
  intros Hf He Hlat Hlon Hcity.
  assert (Hdash : forall summary,
    dashboard argsort (frame_of_sheet s) summary inp
    = ([Sidebar_write (fst summary) (snd summary)]
       ++ match height_columns (frame_of_sheet s) with
          | [] => [Sidebar_error "No column containing 'height' found!"]
          | _ :: _ => []
          end,
       Raised (KeyError "location.city"))).
  { intros summary. unfold dashboard.
    assert (Hcf : forall A (k : option cell * DataFrame -> run A),
               (cf <- city_filter (dropna_at lat lon (frame_of_sheet s))
                                  (city_choice inp) ;; k cf)
               = ([], Raised (KeyError "location.city"))).
    { intros A k. unfold city_filter.
      rewrite (getcol_missing "location.city"
                 (dropna_at lat lon (frame_of_sheet s)) Hcity).
      reflexivity. }
    eapply run_eq.
    - eapply bind_runs; [reflexivity |].
      eapply bind_runs; [exact (dropna_done (frame_of_sheet s) Hlat Hlon) |].
      eapply bind_runs; [| apply Hcf].
      unfold detect_height.
      change (height_columns (dropna_at lat lon (frame_of_sheet s)))
        with (height_columns (frame_of_sheet s)).
      instantiate (1 := match height_columns (frame_of_sheet s) with
                        | [] => None
                        | h0 :: _ => Some h0
                        end).
      instantiate (1 := match height_columns (frame_of_sheet s) with
                        | [] => [Sidebar_error
                                   "No column containing 'height' found!"]
                        | _ :: _ => []
                        end).
      destruct (height_columns (frame_of_sheet s)); reflexivity.
    - cbn [app]. rewrite app_nil_r. reflexivity. }
  rewrite (@script_after_load file read_excel argsort inp f s _ _ Hf He
             (Hdash _)).
  reflexivity.
Qed.

(** ** The height filter within the range of the slider *)

Lemma display_names_cases (h x : string) :
  rename_label (display_names h) x = "Name" /\ x = "name" \/
  rename_label (display_names h) x = "Location" /\ x = "location.city" \/
  rename_label (display_names h) x = "Height" /\ x = h \/
  rename_label (display_names h) x = x.
Proof.
  unfold display_names, rename_label.
  destruct (String.eqb x "name") eqn:E1.
  { apply String.eqb_eq in E1. now left. }
  destruct (String.eqb x "location.city") eqn:E2.
  { apply String.eqb_eq in E2. right. now left. }
  destruct (String.eqb x h) eqn:E3.
  { apply String.eqb_eq in E3. right. right. now left. }
  now right; right; right.
Qed.

Lemma display_names_other (h c : string) :
  names_height h = true -> names_height c = false ->
  c <> "name" -> c <> "location.city" ->
  c <> "Name" -> c <> "Location" -> c <> "Height" ->
  forall x, String.eqb c (rename_label (display_names h) x) = String.eqb c x.
Proof.
  intros Ph Pc N1 N2 N3 N4 N5 x.
  destruct (display_names_cases h x)
    as [[E ->] | [[E ->] | [[E ->] | E]]]; rewrite E; try reflexivity.
  - apply String.eqb_neq in N1, N3. now rewrite N1, N3.
  - apply String.eqb_neq in N2, N4. now rewrite N2, N4.
  - apply String.eqb_neq in N5. rewrite N5. symmetry. apply String.eqb_neq.
    congruence.
Qed.

(** X12: Line 184 asks for a slider with the bounds 0 and the largest
    height of the selected set cut to an integer.  For every minimum height
    between these bounds the tallest tower passes the filter of line 192: the
    filtered set is not empty, so the map, the table, the histogram and at
    least one sample line are written, and the warning of line 212 is not.
    The set is one that reaches line 184 and that the model covers: its
    labels are all different after the renaming of lines 93-97, its height
    and coordinate columns are float columns, its heights are not negative,
    and its largest height is below the limit streamlit puts on the numbers
    of a slider. *)
Theorem slider_range_keeps_tallest (argsort : list Q -> list nat)
    (h : string) (rest : list string) (sel : option cell) (o : Order) (m : Z)
    (fd : DataFrame) (i la lo : nat) (top : Q) :
  argsort_ok argsort ->
  height_columns fd = h :: rest ->
  get_loc h (columns fd) = Some i ->
  In "name" (columns fd) ->
  In "location.city" (columns fd) ->
  get_loc "latitude" (columns fd) = Some la ->
  get_loc "longitude" (columns fd) = Some lo ->
  NoDup (map (rename_label (display_names h)) (columns fd)) ->
  float_column i fd -> float_column la fd -> float_column lo fd ->
  max (values (column_at i fd)) = Some top ->
  (0 <= top)%Q ->
  (int top <= 9007199254740991)%Z ->
  (0 <= m <= int top)%Z ->
  let sd := rename (display_names h)
                   (sort_values_at argsort i (is_ascending o) fd) in
  let fbh := select (fun r => ge_int (at_loc i r) m) sd in
  (exists r, In r (rows fbh) /\ at_loc i r = Num top) /\
  exists n,
    get_loc "Name" (columns sd) = Some n /\
    firstn 5 (rows fbh) <> [] /\
    height_block (Some h) sel m fd sd
    = ([Sidebar_subheader "Filter by Height";
        Slider 0 (int top) 100;
        Subheader "Enhanced Map of Skyscrapers";
        Pydeck_chart fbh (mean (values (column_at la fbh)))
                     (mean (values (column_at lo fbh)));
        Header_above sel m;
        Expander_table fbh;
        Subheader "Height Distribution of Filtered Skyscrapers";
        Hist (values (column_at i fbh)) 10;
        Subheader "Sample Skyscraper Data"]
       ++ map (sample_line n i) (firstn 5 (rows fbh)),
       Done tt).
Proof.
  intros Hok Hh Hi Hname Hcity Hla Hlo Hnd Hfloat _ _ Htop H0 _ Hrange sd fbh.
  destruct (height_columns_head _ Hh) as (Ph & _).
  destruct (@sort_block_done argsort h rest sel o fd Hh Hname Hcity Hnd)
    as (i' & n & c & shown & Hi' & HH & HN & _ & _).
  rewrite Hi in Hi'. injection Hi' as <-. fold sd in HH, HN.
  assert (Hla' : get_loc "latitude" (columns sd) = Some la).
  { cbn [sd rename columns sort_values_at]. rewrite <- Hla.
    apply get_loc_renamed.
    apply display_names_other; trivial; discriminate. }
  assert (Hlo' : get_loc "longitude" (columns sd) = Some lo).
  { cbn [sd rename columns sort_values_at]. rewrite <- Hlo.
    apply get_loc_renamed.
    apply display_names_other; trivial; discriminate. }
  destruct (max_spec _ Htop) as [Hin _].
  apply column_values_In in Hin. destruct Hin as (r & Hr & Hq).
  assert (Hempty : empty fd = false).
  { unfold empty. destruct (rows fd); [destruct Hr |].
    destruct (columns fd); [discriminate Hi | reflexivity]. }
  assert (Hpass : In r (rows fbh)).
  { cbn [fbh select rows]. apply filter_In. split.
    - cbn [sd rename rows].
      eapply Permutation_in; [| exact Hr].
      apply Permutation_sym. now apply sort_values_perm.
    - apply ge_int_iff. exists top. split; [exact Hq |].
      destruct (int_spec top) as [Hfloor _].
      destruct (Hfloor H0) as [Hdown _].
      eapply Qle_trans; [| exact Hdown].
      rewrite <- Zle_Qle. lia. }
  split; [exists r; split; [exact Hpass | exact Hq] |].
  exists n. split; [exact HN |].
  destruct (rows fbh) as [| x l] eqn:Hrows; [destruct Hpass |].
  split; [discriminate |].
  assert (Hfe : empty fbh = false).
  { unfold empty. rewrite Hrows. change (columns fbh) with (columns sd).
    destruct (columns sd); [discriminate HH | reflexivity]. }
  unfold height_block. rewrite Hempty.
  eapply run_eq.
  - eapply bind_runs; [reflexivity |].
    eapply bind_runs.
    { unfold slider_args. rewrite (getcol_found _ _ Hi), bind_ret, Htop.
      reflexivity. }
    eapply bind_runs; [reflexivity |].
    eapply bind_runs.
    { unfold filter_by_height. rewrite (getcol_found _ _ HH), bind_ret.
      reflexivity. }
    fold fbh.
    eapply bind_runs.
    { unfold map_block. eapply bind_runs; [reflexivity |]. rewrite Hfe.
      rewrite (getcol_found "latitude" fbh Hla'), bind_ret.
      rewrite (getcol_found "longitude" fbh Hlo'), bind_ret.
      reflexivity. }
    eapply bind_runs.
    { unfold histogram_block. eapply bind_runs; [reflexivity |]. rewrite Hfe.
      eapply bind_runs; [exact (write_frame_different Expander_table fbh Hnd) |].
      eapply bind_runs; [reflexivity |].
      rewrite (getcol_found "Height" fbh HH), bind_ret. reflexivity. }
    unfold sample_block. eapply bind_runs; [reflexivity |].
    cbn [head rows]. rewrite Hrows. cbn [firstn].
    rewrite (getcol_found "Name" fbh HN), bind_ret.
    rewrite (getcol_found "Height" fbh HH), bind_ret.
    apply write_all_page.
  - reflexivity.
Qed.

(** ** The sorted table *)

(** X7: Lines 90-104 on a set with a float height column whose labels are
    all different after the renaming of lines 93-97: the table written has
    the three columns Name, Location and Height and one line for every row
    of the selected set, with the index label, the name, the city and the
    height of that row; the rows with a height come first, in the order of
    the chosen direction, and the rows without a height follow in the order
    of the sheet, in both directions. *)
Theorem sorted_table_shown (argsort : list Q -> list nat) (h : string)
    (rest : list string) (sel : option cell) (o : Order) (fd : DataFrame)
    (i n c : nat) :
  argsort_ok argsort ->
  height_columns fd = h :: rest ->
  get_loc h (columns fd) = Some i ->
  get_loc "name" (columns fd) = Some n ->
  get_loc "location.city" (columns fd) = Some c ->
  float_column i fd ->
  NoDup (map (rename_label (display_names h)) (columns fd)) ->
  exists (with_height : list Row) (sorted_data : DataFrame),
    Permutation with_height (present (at_loc i) (rows fd)) /\
    StronglySorted (in_order o)
                   (map (fun r => num (at_loc i r)) with_height) /\
    rows sorted_data = with_height ++ blank (at_loc i) (rows fd) /\
    sort_block argsort (Some h) sel o fd
    = ([Radio; Caption_sorted sel o;
        Write_table
          (mkDF ["Name"; "Location"; "Height"]
                (map (fun r => (label r, [at_loc n r; at_loc c r; at_loc i r]))
                     (rows sorted_data)))],
       Done sorted_data).
Proof.
  intros Hok Hh Hi Hn Hc Hfloat Hnd.
  set (sorted := sort_values_at argsort i (is_ascending o) fd).
  destruct (sort_values_rows o Hok Hfloat) as (with_height & Hrows & HP & HS).
  fold sorted in Hrows.
  exists with_height, (rename (display_names h) sorted).
  split; [exact HP |]. split; [exact HS |]. split; [exact Hrows |].
  destruct (height_columns_head _ Hh) as (Ph & _).
  set (sd := rename (display_names h) sorted).
  assert (Hnd' : NoDup (columns sd)) by exact Hnd.
  assert (HH : get_loc "Height" (columns sd) = Some i).
  { rewrite <- (display_name_detected _ Ph).
    exact (@get_loc_map_different _ h (columns fd) i Hnd Hi). }
  assert (HN : get_loc "Name" (columns sd) = Some n).
  { exact (@get_loc_map_different (rename_label (display_names h)) "name"
             (columns fd) n Hnd Hn). }
  assert (HL : get_loc "Location" (columns sd) = Some c).
  { exact (@get_loc_map_different (rename_label (display_names h))
             "location.city" (columns fd) c Hnd Hc). }
  unfold sort_block. rewrite bind_emit.
  rewrite (getcol_found _ _ Hi), bind_ret.
  fold (display_names h). fold sorted. fold sd.
  rewrite bind_emit. unfold project. cbn [locate].
  rewrite (@getcols_one "Name" sd n Hnd' HN), bind_ret.
  rewrite (@getcols_one "Location" sd c Hnd' HL), bind_ret.
  rewrite (@getcols_one "Height" sd i Hnd' HH), !bind_ret.
  reflexivity.
Qed.

(** A sheet with a column named Height beside the detected height column:
    after lines 93-97 two columns carry the label Height, line 104 selects
    both, and [st.write] refuses the table; the run ends after the
    caption. *)
Example second_height_column_run :
  script Sheets.read insertion_argsort Sheets.inp9
  = ([Markdown_style; Title "Skyscrapers Around the United States";
      File_uploader; Sidebar_write 1 6; Selectbox [Str "NYC"]; Radio;
      Caption_sorted (Some (Str "NYC")) Ascending],
     Raised (ValueError "Duplicate column names found")).
Proof. reflexivity. Qed.

(** ** A selection without rows *)

(** X10: On a sheet with the expected columns, labels that stay different
    through the two renamings and a float height column: when no row is
    left for the selected city (the selector is empty because every row of
    the sheet lacks a coordinate, or the blank city is selected), the run
    ends normally: the sorted table and the averages are
    still written, then the heading of the highlights with the warning of
    line 178; there are no balloons, no slider, no map, no histogram and no
    sample line.  The pie chart section follows, and writes the warning of
    line 271 when the table itself has no row. *)
Theorem empty_selection_page (file : Type)
    (read_excel : file -> string + table) (argsort : list Q -> list nat)
    (inp : Inputs file) (f : file) (s : sheet) (lat lon k n v : nat)
    (h : string) (rest : list string) :
  uploaded_file inp = Some f ->
  read_excel f = inr (table_of_sheet s) ->
  get_loc "location.latitude" (header s) = Some lat ->
  get_loc "location.longitude" (header s) = Some lon ->
  get_loc "location.city" (header s) = Some k ->
  get_loc "name" (header s) = Some n ->
  height_columns (frame_of_sheet s) = h :: rest ->
  get_loc h (header s) = Some v ->
  NoDup (displayed_labels h (header s)) ->
  float_column v (frame_of_sheet s) ->
  let data := dropna_at lat lon (frame_of_sheet s) in
  rows (city_rows k data (city_choice inp)) = [] ->
  (exists shown g,
     script read_excel argsort inp
     = ([Markdown_style; Title "Skyscrapers Around the United States";
         File_uploader;
         Sidebar_write (List.length (body s)) (List.length (header s));
         Selectbox (city_options k data); Radio;
         Caption_sorted (chosen_city k data (city_choice inp))
                        (sort_order inp);
         Write_table shown;
         Subheader "Average Height of Skyscrapers by City";
         Write_table g;
         Subheader "Key Highlights";
         Warning "No data available for the selected city."]
        ++ page (pie_block argsort (Some data)),
        Done tt)) /\
  (rows data = [] ->
   page (pie_block argsort (Some data))
   = [Warning "Data is not defined or empty."]).
Proof.
  intros Hf He Hlat Hlon Hk Hn Hh Hv Hnd _ data Hnil. split.
  - destruct (@dashboard_with_height argsort file (frame_of_sheet s)
                (List.length (body s), List.length (header s)) inp
                lat lon k n v h rest Hlat Hlon Hk Hn Hh Hv Hnd)
      as (shown & g & _ & _ & _ & _ & _ & _ & Hrun).
    fold data in Hrun. cbv zeta in Hrun.
    set (fd := filtered_frame k data (city_choice inp)) in *.
    set (sd := rename (display_names h) _) in *.
    assert (Hchosen : empty (city_rows k data (city_choice inp)) = true).
    { unfold empty. now rewrite Hnil. }
    assert (Hempty : empty fd = true).
    { unfold fd, filtered_frame. now rewrite empty_rename. }
    assert (Htail :
              (highlights_block (Some h) fd ;;
               height_block (Some h) (chosen_city k data (city_choice inp))
                            (min_height inp) fd sd ;;
               ret data)
              = ([Subheader "Key Highlights";
                  Warning "No data available for the selected city."],
                 Done data)).
    { eapply run_eq.
      - eapply bind_runs.
        { unfold highlights_block. rewrite bind_emit, Hempty. reflexivity. }
        eapply bind_runs; [unfold height_block; rewrite Hempty; reflexivity |].
        reflexivity.
      - reflexivity. }
    rewrite Htail, Hchosen in Hrun. cbn [page result fst snd app] in Hrun.
    exists shown, g.
    rewrite (@script_after_load file read_excel argsort inp f s _ _
               Hf He Hrun).
    rewrite bind_pair. cbn [fst snd app].
    destruct (pie_block_done argsort (Some data)) as [Hdone _].
    rewrite (run_pair _ Hdone). reflexivity.
  - intros Hrows. unfold pie_block, empty. rewrite Hrows. reflexivity.
Qed.

(** ** The order of the averages table *)

Lemma cell_leb_total (a b : cell) :
  cell_leb a b = false -> cell_leb b a = true.
Proof.
  destruct a as [| p | s], b as [| q | t]; simpl; try discriminate;
    try reflexivity.
  - intros H. apply Qle_bool_iff.
    destruct (Qlt_le_dec q p) as [Hlt | Hle]; [now apply Qlt_le_weak |].
    apply Qle_bool_iff in Hle. congruence.
  - intros H. destruct (String.leb_total s t) as [E | E]; congruence.
Qed.

Lemma insert_key_sorted (c : cell) (l : list cell) :
  Sorted (fun a b => cell_leb a b = true) l ->
  Sorted (fun a b => cell_leb a b = true) (insert_key c l).
Proof.
  induction l as [| d l IH]; intros Hs; simpl.
  - repeat constructor.
  - destruct (cell_leb c d) eqn:E.
    + constructor; [exact Hs | now constructor].
    + apply Sorted_inv in Hs. destruct Hs as [Hs Hd].
      constructor; [now apply IH |].
      destruct l as [| e l]; simpl.
      * constructor. now apply cell_leb_total.
      * destruct (cell_leb c e); constructor.
        -- now apply cell_leb_total.
        -- now inversion Hd.
Qed.

Lemma sort_keys_sorted (l : list cell) :
  Sorted (fun a b => cell_leb a b = true) (sort_keys l).
Proof.
  unfold sort_keys. induction l as [| c l IH]; simpl; [constructor |].
  now apply insert_key_sorted.
Qed.

Lemma range_index_from_label (l : list (list cell)) (z : Z) (p : nat)
    (r : Row) :
  nth_error (range_index_from z l) p = Some r -> label r = (z + Z.of_nat p)%Z.
Proof.
  revert z p. induction l as [| c l IH]; intros z p; simpl.
  - destruct p; discriminate.
  - destruct p as [| p]; simpl.
    + intros [= <-]. simpl. lia.
    + intros H. rewrite (IH _ _ H). lia.
Qed.

Lemma range_index_from_first (F : cell -> list cell) (keys : list cell)
    (z : Z) :
  (forall key l, at_loc 0 (l, F key) = key) ->
  map (at_loc 0) (range_index_from z (map F keys)) = keys.
Proof.
  intros HF. revert z. induction keys as [| d keys IH]; intros z; simpl;
    [reflexivity |].
  now rewrite HF, IH.
Qed.

(** X8: Lines 111-117: the lines of the averages table come in ascending order
    of their city ([groupby] sorts the group keys) and are numbered 0, 1, 2,
    ... from the top ([reset_index]), whatever the order of the cities in
    the sheet; no city is blank. *)
Theorem city_group_ordered (h : string) (data : DataFrame) (k v : nat) :
  get_loc "location.city" (columns data) = Some k ->
  get_loc h (columns data) = Some v ->
  float_column v data ->
  exists g : DataFrame,
    city_group h data = ret g /\
    Sorted (fun a b => cell_leb a b = true) (map (at_loc 0) (rows g)) /\
    (forall line, In line (rows g) -> at_loc 0 line <> NA) /\
    (forall p line, nth_error (rows g) p = Some line ->
                    label line = Z.of_nat p).
Proof.
  intros Hk Hv _.
  exists (rename [("location.city", "Location"); (h, "Height")]
                 (groupby_mean "location.city" h k v data)).
  split; [| split; [| split]].
  - unfold city_group.
    now rewrite (getcol_found _ _ Hk), bind_ret, (getcol_found _ _ Hv), bind_ret.
  - cbn [rename rows groupby_mean]. unfold range_index.
    rewrite (@range_index_from_first
               (fun key => [key; of_float (mean (map (at_loc v)
                                                   (group_rows k key data)))]))
      by reflexivity.
    apply sort_keys_sorted.
  - intros line Hline. cbn [rename rows groupby_mean] in Hline.
    apply range_index_In in Hline. destruct Hline as (key & Hkey & Hcells).
    apply group_keys_In in Hkey. destruct Hkey as (Hna & _).
    unfold at_loc. rewrite Hcells. simpl.
    intros E. rewrite E in Hna. discriminate Hna.
  - intros p line Hp. cbn [rename rows groupby_mean] in Hp.
    apply range_index_from_label in Hp. lia.
Qed.

(** ** The further properties on the example sheets *)

Lemma no_upload_page_witness :
  script Sheets.read insertion_argsort Sheets.inp0
  = ([Markdown_style; Title "Skyscrapers Around the United States";
      File_uploader;
      Warning "Please upload a dataset to begin.";
      Warning "Data is not defined or empty."],
     Done tt).
Proof.
  apply (@no_upload_page _ Sheets.read insertion_argsort Sheets.inp0).
  reflexivity.
Defined.

Lemma missing_coordinates_raise_witness :
  exists key,
    script Sheets.read insertion_argsort Sheets.inp4
    = ([Markdown_style; Title "Skyscrapers Around the United States";
        File_uploader; Sidebar_write 1 4],
       Raised (KeyError key)) /\
    (key = "location.latitude" \/ key = "location.longitude").
Proof.
  apply (@missing_coordinates_raise _ Sheets.read insertion_argsort
           Sheets.inp4 (inr Sheets.s4) Sheets.s4);
    [reflexivity | reflexivity | right; reflexivity].
Defined.

Lemma missing_city_raises_witness :
  script Sheets.read insertion_argsort Sheets.inp5
  = ([Markdown_style; Title "Skyscrapers Around the United States";
      File_uploader; Sidebar_write 1 4],
     Raised (KeyError "location.city")).
Proof.
  apply (@missing_city_raises _ Sheets.read insertion_argsort
           Sheets.inp5 (inr Sheets.s5) Sheets.s5 1 2); reflexivity.
Defined.

Lemma shown_rows_have_coordinates_witness :
  Forall (shows_rows_of
            (fun r => In r (rows (frame_of_sheet Sheets.s1)) /\
                      at_loc 2 r <> NA /\ at_loc 3 r <> NA))
         (page (script Sheets.read insertion_argsort Sheets.inp1)).
Proof.
  apply (@shown_rows_have_coordinates _ Sheets.read insertion_argsort
           Sheets.inp1 (inr Sheets.s1) Sheets.s1 2 3); reflexivity.
Defined.

Lemma sample_lines_numbered_by_sheet_witness :
  (1 <= 2)%Z /\
  exists cells,
    nth_error (body Sheets.s1) (Z.to_nat (2 - 1)) = Some cells /\
    Str "B" = nth 0 cells NA /\
    Num (100 # 1) = nth 4 cells NA /\
    nth 2 cells NA <> NA /\ nth 3 cells NA <> NA.
Proof.
  apply (@sample_lines_numbered_by_sheet _ Sheets.read insertion_argsort
           Sheets.inp1 (inr Sheets.s1) Sheets.s1 2 3 1 0 4
           "statistics.height" [] 2 (Str "B") (Num (100 # 1)));
    try reflexivity.
  - apply all_different_iff. reflexivity.
  - vm_compute. repeat (first [left; reflexivity | right]).
Defined.

(** In that run the first sample line is the line of the second row of the
    sheet: the list is in the order of the heights, the numbers are the
    positions in the sheet. *)
Example first_sample_line_is_second_row :
  exists before after,
    page (script Sheets.read insertion_argsort Sheets.inp1)
    = before
      ++ [Subheader "Sample Skyscraper Data";
          Write_sample 2 (Str "B") (Num (100 # 1));
          Write_sample 1 (Str "A") (Num (300 # 1))]
      ++ after.
Proof.
  exists (firstn 21 (page (script Sheets.read insertion_argsort Sheets.inp1))),
    (skipn 24 (page (script Sheets.read insertion_argsort Sheets.inp1))).
  reflexivity.
Qed.

Lemma slider_range_keeps_tallest_witness :
  let sd := rename (display_names "statistics.height")
                   (sort_values_at insertion_argsort 4
                                   (is_ascending Descending) Tables.three) in
  let fbh := select (fun r => ge_int (at_loc 4 r) 200) sd in
  (exists r, In r (rows fbh) /\ at_loc 4 r = Num (3011 # 10)) /\
  exists n,
    get_loc "Name" (columns sd) = Some n /\
    firstn 5 (rows fbh) <> [] /\
    height_block (Some "statistics.height") (Some (Str "Chicago")) 200
                 Tables.three sd
    = ([Sidebar_subheader "Filter by Height";
        Slider 0 (int (3011 # 10)) 100;
        Subheader "Enhanced Map of Skyscrapers";
        Pydeck_chart fbh (mean (values (column_at 2 fbh)))
                     (mean (values (column_at 3 fbh)));
        Header_above (Some (Str "Chicago")) 200;
        Expander_table fbh;
        Subheader "Height Distribution of Filtered Skyscrapers";
        Hist (values (column_at 4 fbh)) 10;
        Subheader "Sample Skyscraper Data"]
       ++ map (sample_line n 4) (firstn 5 (rows fbh)),
       Done tt).
Proof.
  apply (@slider_range_keeps_tallest insertion_argsort "statistics.height" []
           (Some (Str "Chicago")) Descending 200 Tables.three 4 2 3
           (3011 # 10)); try reflexivity.
  - exact insertion_argsort_ok.
  - simpl. tauto.
  - simpl. tauto.
  - apply all_different_iff. reflexivity.
  - repeat constructor.
  - repeat constructor.
  - repeat constructor.
  - vm_compute. discriminate.
  - vm_compute. discriminate.
  - vm_compute. split; discriminate.
Defined.

Lemma sorted_table_shown_witness :
  exists (with_height : list Row) (sorted_data : DataFrame),
    Permutation with_height (present (at_loc 4) (rows Tables.gap)) /\
    StronglySorted (in_order Descending)
                   (map (fun r => num (at_loc 4 r)) with_height) /\
    rows sorted_data = with_height ++ blank (at_loc 4) (rows Tables.gap) /\
    sort_block insertion_argsort (Some "statistics.height")
               (Some (Str "Chicago")) Descending Tables.gap
    = ([Radio; Caption_sorted (Some (Str "Chicago")) Descending;
        Write_table
          (mkDF ["Name"; "Location"; "Height"]
                (map (fun r => (label r, [at_loc 0 r; at_loc 1 r; at_loc 4 r]))
                     (rows sorted_data)))],
       Done sorted_data).
Proof.
  apply (@sorted_table_shown insertion_argsort "statistics.height" []
           (Some (Str "Chicago")) Descending Tables.gap 4 0 1);
    try reflexivity.
  - exact insertion_argsort_ok.
  - repeat constructor.
  - apply all_different_iff. reflexivity.
Defined.

Lemma empty_selection_page_witness :
  let data := dropna_at 2 3 (frame_of_sheet Sheets.s6) in
  (exists shown g,
     script Sheets.read insertion_argsort Sheets.inp6
     = ([Markdown_style; Title "Skyscrapers Around the United States";
         File_uploader;
         Sidebar_write 2 5;
         Selectbox (city_options 1 data); Radio;
         Caption_sorted (chosen_city 1 data 0) Descending;
         Write_table shown;
         Subheader "Average Height of Skyscrapers by City";
         Write_table g;
         Subheader "Key Highlights";
         Warning "No data available for the selected city."]
        ++ page (pie_block insertion_argsort (Some data)),
        Done tt)) /\
  (rows data = [] ->
   page (pie_block insertion_argsort (Some data))
   = [Warning "Data is not defined or empty."]).
Proof.
  apply (@empty_selection_page _ Sheets.read insertion_argsort Sheets.inp6
           (inr Sheets.s6) Sheets.s6 2 3 1 0 4 "statistics.height" []);
    try reflexivity.
  - apply all_different_iff. reflexivity.
  - repeat constructor.
Defined.

Lemma city_group_ordered_witness :
  exists g : DataFrame,
    city_group "statistics.height" Sheets.data1 = ret g /\
    Sorted (fun a b => cell_leb a b = true) (map (at_loc 0) (rows g)) /\
    (forall line, In line (rows g) -> at_loc 0 line <> NA) /\
    (forall p line, nth_error (rows g) p = Some line ->
                    label line = Z.of_nat p).
Proof.
  apply (@city_group_ordered "statistics.height" Sheets.data1 1 4);
    try reflexivity.
  repeat constructor.
Defined.
